(** * pdf-grader: the grading core of [理论打分.py]

    A shallow embedding of the parts of the program that decide what is
    stored and exported: [parse_filename_meta], [clamp_int], the quick-entry
    handlers of [PDFGraderApp], [save_current] with its in-place update of
    the grade table, and [export_gradebook].

    Conventions.
    - A Python [str] is a list of Unicode code points ([pystr]).  Literals of
      the source are written [py "..."].
    - The character tables of the interpreter ([str.isspace], [str.isdigit],
      the decimal value of a digit) are not part of the repository; they are
      the fields of the class [Unicode].  [latin1] is an instance covering
      U+0000..U+00FF, used to run the definitions.
    - A pandas cell holds a [str] or an [int] ([pyval]); a missing cell (NaN)
      is a key that is absent from the row.  Float cells are not modelled.
    - The columns of [DataFrame] are of object type: a cell takes any value
      as it is, as in a session that began without a grade file.  The typed
      columns of a table that [read_csv] returns are in [upsert_typed].
    - Widgets the program only writes (total label, status line, canvas) and
      the opened PDF document are not part of the state. *)

From Stdlib Require Import ZArith NArith Lia Sorting.Sorted.
From Stdlib Require Import Strings.String Strings.Ascii.
From stdpp Require Import base option list gmap strings pretty.

Local Open Scope Z_scope.

(** ** Python strings *)

Definition pystr := list N.

(** A source literal as a [str]. *)
Definition py (s : string) : pystr :=
  (fun a => N_of_ascii a) <$> list_ascii_of_string s.

(** Character data of the interpreter. *)
Class Unicode := {
  (** [str.isspace] on one code point; also what [str.strip()] removes *)
  isspace : N -> bool;
  (** [str.isdigit] on one code point *)
  isdigit : N -> bool;
  (** decimal digit value of a code point of category Nd; [\d] of [re]
      matches exactly the code points that have one *)
  todecimal : N -> option N;
  todecimal_lt : forall c d, todecimal c = Some d -> (d < 10)%N
}.

Section Text.
Context `{U : Unicode}.

Fixpoint drop_while (p : N -> bool) (s : pystr) : pystr :=
  match s with
  | [] => []
  | c :: r => if p c then drop_while p r else s
  end.

Fixpoint take_while (p : N -> bool) (s : pystr) : pystr :=
  match s with
  | [] => []
  | c :: r => if p c then c :: take_while p r else []
  end.

Definition rdrop_while (p : N -> bool) (s : pystr) : pystr :=
  reverse (drop_while p (reverse s)).

(** [s.strip()] *)
Definition strip (s : pystr) : pystr := rdrop_while isspace (drop_while isspace s).

(** [s.isdigit()] *)
Definition str_isdigit (s : pystr) : bool :=
  match s with
  | [] => false
  | _ => forallb isdigit s
  end.

(** [s.split(sep)] for a one-character separator. *)
Fixpoint split_on (sep : N) (s : pystr) : list pystr :=
  match s with
  | [] => [[]]
  | c :: r =>
      if (c =? sep)%N then [] :: split_on sep r
      else match split_on sep r with
           | p :: ps => (c :: p) :: ps
           | [] => [[c]]
           end
  end.

(** [sep.join(parts)] *)
Fixpoint join (sep : pystr) (parts : list pystr) : pystr :=
  match parts with
  | [] => []
  | [p] => p
  | p :: ps => p ++ sep ++ join sep ps
  end.

(** [s.rfind(c)]: the index of the last occurrence. *)
Fixpoint rfind (c : N) (s : pystr) : option nat :=
  match s with
  | [] => None
  | x :: r =>
      match rfind c r with
      | Some i => Some (S i)
      | None => if (x =? c)%N then Some 0%nat else None
      end
  end.

(** [os.path.basename] of [posixpath]: what follows the last slash. *)
Definition basename (p : pystr) : pystr :=
  match rfind 47%N p with
  | Some i => drop (S i) p
  | None => p
  end.

(** [os.path.splitext(p)[0]] on a name without slash: cut at the last dot,
    unless only dots precede it. *)
Definition splitext_root (p : pystr) : pystr :=
  match rfind 46%N p with
  | Some i => if forallb (fun c => (c =? 46)%N) (take i p) then p else take i p
  | None => p
  end.

(** [re.search(r"(\d{8,})", s)]: the leftmost position where at least
    eight decimal digits start, and the whole run from there. *)
Definition isdecimal (c : N) : bool := bool_decide (is_Some (todecimal c)).

Fixpoint search_digits8 (s : pystr) : option pystr :=
  match s with
  | [] => None
  | _ :: r =>
      let run := take_while isdecimal s in
      if (8 <=? length run)%nat then Some run else search_digits8 r
  end.

(** [str(n)] for an [int]. *)
Definition str_of_int (n : Z) : pystr := py (pretty n).

(** *** [int(s)]

    CPython first maps the string to ASCII (code points below 128 stay,
    other white space becomes a blank, other decimal digits become
    [0]..[9], anything else a question mark) and then reads
    blanks, an optional sign, digits with single underscores between
    them, blanks. *)
Definition to_ascii (c : N) : N :=
  if (c <? 128)%N then c
  else if isspace c then 32%N
  else match todecimal c with
       | Some d => (48 + d)%N
       | None => 63%N
       end.

Definition c_isspace (c : N) : bool :=
  ((9 <=? c) && (c <=? 13) || (c =? 32))%N.

Definition c_digit (c : N) : option Z :=
  if ((48 <=? c) && (c <=? 57))%N then Some (Z.of_N c - 48) else None.

Fixpoint digits_acc (acc : Z) (after_us : bool) (s : pystr) : option Z :=
  match s with
  | [] => if after_us then None else Some acc
  | c :: r =>
      if (c =? 95)%N then
        if after_us then None else digits_acc acc true r
      else match c_digit c with
           | Some d => digits_acc (10 * acc + d) false r
           | None => None
           end
  end.

Definition long_from_ascii (s : pystr) : option Z :=
  let s1 := drop_while c_isspace s in
  let '(neg, s2) :=
    match s1 with
    | c :: r =>
        if (c =? 45)%N then (true, r)
        else if (c =? 43)%N then (false, r)
        else (false, s1)
    | [] => (false, s1)
    end in
  match rdrop_while c_isspace s2 with
  | [] => None
  | c :: r =>
      if (c =? 95)%N then None
      else (fun n => if neg : bool then - n else n) <$> digits_acc 0 false (c :: r)
  end.

(** [int(s)]; [None] where Python raises [ValueError]. *)
Definition py_int (s : pystr) : option Z := long_from_ascii (to_ascii <$> s).

(** [clamp_int(s, lo, hi, default)] *)
Definition clamp_int (s : pystr) (lo hi : Z) (default : option Z) : option Z :=
  match py_int (strip s) with
  | Some v => if v <? lo then Some lo else if v >? hi then Some hi else Some v
  | None => default
  end.

End Text.

(** ** Filename Parser *)

Section Parser.
Context `{U : Unicode}.

(** [os.path.splitext(os.path.basename(filepath))[0]] *)
Definition stem (filepath : pystr) : pystr := splitext_root (basename filepath).

Definition parse_filename_meta (filepath : pystr) : gmap string pystr :=
  let base := stem filepath in
  let parts := split_on 45%N base in
  let meta : gmap string pystr :=
    {[ "class_time" := []; "name" := []; "student_id" := [] ]} in
  let n := length parts in
  if (3 <=? n)%nat then
    let meta := <["student_id" := strip (parts !!! (n - 1)%nat)]> meta in
    let meta := <["name" := strip (parts !!! (n - 2)%nat)]> meta in
    <["class_time" := strip (join (py "-") (take (n - 2) parts))]> meta
  else
    let meta :=
      match search_digits8 base with
      | Some m => <["student_id" := m]> meta
      | None => meta
      end in
    <["class_time" := strip base]> meta.

End Parser.

(** ** The grade table *)

Inductive pyval :=
  | PStr (s : pystr)
  | PInt (n : Z).

#[global] Instance pyval_eq_dec : EqDecision pyval.
Proof. solve_decision. Defined.

(** A [pandas.DataFrame] with the default integer index: the column labels
    in order, and the rows as maps from label to cell. *)
Record DataFrame := {
  columns : list string;
  rows : list (gmap string pyval)
}.

#[global] Instance DataFrame_eq_dec : EqDecision DataFrame.
Proof. solve_decision. Defined.

(** [str(v)] of a cell, which is also what [.astype(str)] puts in its place;
    a missing cell reads [nan]. *)
Definition py_str (v : option pyval) : pystr :=
  match v with
  | Some (PStr s) => s
  | Some (PInt n) => str_of_int n
  | None => py "nan"
  end.

Definition add_label (c : string) (cols : list string) : list string :=
  if bool_decide (c ∈ cols) then cols else cols ++ [c].

(** [df[c] = v] for a scalar [v] *)
Definition set_column (df : DataFrame) (c : string) (v : pyval) : DataFrame :=
  {| columns := add_label c (columns df);
     rows := (fun r => <[c := v]> r) <$> rows df |}.

(** [df[c] = df[src].astype(str)].  A missing cell reads [nan], as with
    pandas 2; pandas 3 leaves it missing, and lines 125 and 142 then take
    it for a blank.  The properties that depend on it are stated for
    tables without a missing class time. *)
Definition set_column_astype_str (df : DataFrame) (c src : string) : DataFrame :=
  {| columns := add_label c (columns df);
     rows := (fun r => <[c := PStr (py_str (r !! src))]> r) <$> rows df |}.

(** [df.at[i, k] = v] on a column of object type, which takes every value
    as it is.  A column that [read_csv] typed can reject the value or store
    an integer as a float; [set_items_typed] below has the raise. *)
Definition set_at (df : DataFrame) (i : nat) (k : string) (v : pyval) : DataFrame :=
  {| columns := add_label k (columns df);
     rows := alter (fun r => <[k := v]> r) i (rows df) |}.

(** [pd.concat([df, pd.DataFrame([record])], ignore_index=True)]: the
    cells of the new row are the values of the record as they are, which
    holds where no column of [df] is a column of floats. *)
Definition concat_record (df : DataFrame) (record : list (string * pyval)) : DataFrame :=
  {| columns := foldl (fun cols kv => add_label kv.1 cols) (columns df) record;
     rows := rows df ++ [list_to_map record] |}.

(** The position of the last row whose [student_id], read as a string, is
    [sid]: [df[df["student_id"].astype(str) == sid].index[-1]]. *)
Fixpoint last_match (sid : pystr) (rs : list (gmap string pyval)) : option nat :=
  match rs with
  | [] => None
  | r :: rest =>
      match last_match sid rest with
      | Some i => Some (S i)
      | None =>
          if bool_decide (py_str (r !! "student_id") = sid) then Some 0%nat else None
      end
  end.

(** The dict [record] that [save_current] builds. *)
Record GradeRecord := {
  class_time : pystr;
  name : pystr;
  student_id : pystr;
  q1_score : option Z;
  q2_score : option Z;
  total_score : Z;
  comment : pystr;
  file : pystr
}.

(** ["" if q is None else q] *)
Definition score_cell (q : option Z) : pyval :=
  match q with
  | None => PStr []
  | Some v => PInt v
  end.

(** [record.items()] *)
Definition items (r : GradeRecord) : list (string * pyval) :=
  [ ("class_time", PStr (class_time r));
    ("name", PStr (name r));
    ("student_id", PStr (student_id r));
    ("q1_score", score_cell (q1_score r));
    ("q2_score", score_cell (q2_score r));
    ("total_score", PInt (total_score r));
    ("comment", PStr (comment r));
    ("file", PStr (file r)) ].

(** Lines 671-681 of [save_current]: overwrite the last row with the same
    id, or append. *)
Definition upsert (df : DataFrame) (record : GradeRecord) : DataFrame :=
  let sid := student_id record in
  if bool_decide (sid <> []) then
    match last_match sid (rows df) with
    | Some last_idx =>
        foldl (fun d kv => set_at d last_idx kv.1 kv.2) df (items record)
    | None => concat_record df (items record)
    end
  else concat_record df (items record).

(** ** The application state *)

(** The message boxes the modelled methods open. *)
Inductive dialog :=
  | WarnNoScore      (* showwarning("未填写分数", ...) in save_current *)
  | InfoLastFile     (* showinfo("完成", ...) in save_and_next *)
  | InfoExported     (* showinfo("导出成功", ...) in export_excel *)
  | ErrorExport.     (* showerror("导出失败", ...) in export_excel *)

(** The attributes of [PDFGraderApp] that the modelled methods read.
    [csv_writes] lists the tables handed to [to_csv], oldest first;
    [dialogs] the message boxes shown, oldest first; [focus_in_comment] is
    the answer of [_focus_in_comment]. *)
Record App := {
  df : DataFrame;
  csv_writes : list DataFrame;
  dialogs : list dialog;
  pdf_paths : list pystr;
  idx : Z;
  var_class_time : pystr;
  var_name : pystr;
  var_student_id : pystr;
  var_file : pystr;
  entry_q1 : pystr;
  entry_q2 : pystr;
  text_comment : pystr;
  focus_in_comment : bool;
  _quick_stage : Z;
  _quick_buffer : pystr
}.

Definition with_store (st : App) (d : DataFrame) (w : list DataFrame) : App :=
  {| df := d; csv_writes := w; dialogs := dialogs st;
     pdf_paths := pdf_paths st; idx := idx st;
     var_class_time := var_class_time st; var_name := var_name st;
     var_student_id := var_student_id st; var_file := var_file st;
     entry_q1 := entry_q1 st; entry_q2 := entry_q2 st;
     text_comment := text_comment st;
     focus_in_comment := focus_in_comment st;
     _quick_stage := _quick_stage st; _quick_buffer := _quick_buffer st |}.

Definition with_dialog (st : App) (d : dialog) : App :=
  {| df := df st; csv_writes := csv_writes st; dialogs := dialogs st ++ [d];
     pdf_paths := pdf_paths st; idx := idx st;
     var_class_time := var_class_time st; var_name := var_name st;
     var_student_id := var_student_id st; var_file := var_file st;
     entry_q1 := entry_q1 st; entry_q2 := entry_q2 st;
     text_comment := text_comment st;
     focus_in_comment := focus_in_comment st;
     _quick_stage := _quick_stage st; _quick_buffer := _quick_buffer st |}.

Definition with_file (st : App) (i : Z) (ct nm sid f : pystr) : App :=
  {| df := df st; csv_writes := csv_writes st; dialogs := dialogs st;
     pdf_paths := pdf_paths st; idx := i;
     var_class_time := ct; var_name := nm;
     var_student_id := sid; var_file := f;
     entry_q1 := entry_q1 st; entry_q2 := entry_q2 st;
     text_comment := text_comment st;
     focus_in_comment := focus_in_comment st;
     _quick_stage := _quick_stage st; _quick_buffer := _quick_buffer st |}.

Definition with_inputs (st : App) (q1 q2 c : pystr) : App :=
  {| df := df st; csv_writes := csv_writes st; dialogs := dialogs st;
     pdf_paths := pdf_paths st; idx := idx st;
     var_class_time := var_class_time st; var_name := var_name st;
     var_student_id := var_student_id st; var_file := var_file st;
     entry_q1 := q1; entry_q2 := q2;
     text_comment := c;
     focus_in_comment := focus_in_comment st;
     _quick_stage := _quick_stage st; _quick_buffer := _quick_buffer st |}.

Definition with_quick (st : App) (stage : Z) (buffer : pystr) : App :=
  {| df := df st; csv_writes := csv_writes st; dialogs := dialogs st;
     pdf_paths := pdf_paths st; idx := idx st;
     var_class_time := var_class_time st; var_name := var_name st;
     var_student_id := var_student_id st; var_file := var_file st;
     entry_q1 := entry_q1 st; entry_q2 := entry_q2 st;
     text_comment := text_comment st;
     focus_in_comment := focus_in_comment st;
     _quick_stage := stage; _quick_buffer := buffer |}.

(** [entry.delete(0, "end"); entry.insert(0, s)] on the entry of [stage] *)
Definition set_entry (st : App) (stage : Z) (s : pystr) : App :=
  if stage =? 1 then with_inputs st s (entry_q2 st) (text_comment st)
  else with_inputs st (entry_q1 st) s (text_comment st).

Section Grader.
Context `{U : Unicode}.

(** [_compute_total]: the two scores read from the entries and their sum. *)
Definition _compute_total (st : App) : option Z * option Z * Z :=
  let q1 := clamp_int (entry_q1 st) 0 50 None in
  let q2 := clamp_int (entry_q2 st) 0 50 None in
  (q1, q2, default 0 q1 + default 0 q2).

(** [save_current]; the Boolean is its return value. *)
Definition save_current (st : App) : bool * App :=
  let '(q1, q2, total) := _compute_total st in
  match q1, q2 with
  | None, None => (false, with_dialog st WarnNoScore)
  | _, _ =>
      let record :=
        {| class_time := var_class_time st;
           name := var_name st;
           student_id := strip (var_student_id st);
           q1_score := q1;
           q2_score := q2;
           total_score := total;
           comment := strip (text_comment st ++ [10%N]);
           file := var_file st |} in
      let d := upsert (df st) record in
      (true, with_store st d (csv_writes st ++ [d]))
  end.

(** [_reset_quick(stage)] *)
Definition _reset_quick (st : App) (stage : Z) : App := with_quick st stage [].

(** [_populate_existing(student_id)] *)
Definition _populate_existing (st : App) (sid0 : pystr) : App :=
  let st := with_inputs st [] [] [] in
  let sid := strip sid0 in
  if bool_decide (sid = []) then st
  else
    match last_match sid (rows (df st)) with
    | Some i =>
        let row : gmap string pyval := rows (df st) !!! i in
        let text (c : string) : pystr :=
          match row !! c with
          | None => []
          | v => strip (py_str v)
          end in
        let c :=
          match row !! "comment" with
          | None => []
          | v => py_str v
          end in
        with_inputs st (text "q1_score") (text "q2_score") c
    | None => st
    end.

(** [_load_pdf(i)] in a window whose constructor found a PDF, so that
    [_render_page] has its attributes (lines 236-239) and returns;
    [_load_pdf_rendering] below has the other window. *)
Definition _load_pdf (st : App) (i : Z) : App :=
  match pdf_paths st with
  | [] => st
  | _ =>
      let i := Z.max 0 (Z.min i (Z.of_nat (length (pdf_paths st)) - 1)) in
      let path : pystr := pdf_paths st !!! Z.to_nat i in
      let meta := parse_filename_meta path in
      let st := with_file st i (meta !!! "class_time") (meta !!! "name")
                  (meta !!! "student_id") (basename path) in
      let st := _populate_existing st (meta !!! "student_id") in
      _reset_quick st 1
  end.

Definition prev_pdf (st : App) : App :=
  if 0 <? idx st then _load_pdf st (idx st - 1) else st.

Definition next_pdf (st : App) : App :=
  if idx st <? Z.of_nat (length (pdf_paths st)) - 1
  then _load_pdf st (idx st + 1) else st.

(** [save_and_next] *)
Definition save_and_next (st : App) : App :=
  let '(ok, st) := save_current st in
  if negb ok then st
  else if idx st <? Z.of_nat (length (pdf_paths st)) - 1
  then _load_pdf st (idx st + 1)
  else with_dialog st InfoLastFile.

(** The value that the buffer stands for: [int(buffer)], 0 where that
    raises, then [max(0, min(50, ...))]. *)
Definition quick_value (buffer : pystr) : Z :=
  Z.max 0 (Z.min 50 (default 0 (py_int buffer))).

(** [_preview_quick_value(stage)] *)
Definition _preview_quick_value (st : App) (stage : Z) : App :=
  if negb ((stage =? 1) || (stage =? 2)) then st
  else if bool_decide (strip (_quick_buffer st) = []) then set_entry st stage []
  else set_entry st stage (str_of_int (quick_value (_quick_buffer st))).

(** [_commit_quick_buffer] *)
Definition _commit_quick_buffer (st : App) : App :=
  if negb ((_quick_stage st =? 1) || (_quick_stage st =? 2)) then st
  else
    let val :=
      if bool_decide (strip (_quick_buffer st) = []) then 0
      else default 0 (py_int (_quick_buffer st)) in
    let val := Z.max 0 (Z.min 50 val) in
    set_entry st (_quick_stage st) (str_of_int val).

(** [_on_keypress(event)], with [ch = event.char] *)
Definition _on_keypress (st : App) (ch : pystr) : App :=
  if focus_in_comment st then st
  else if negb ((_quick_stage st =? 1) || (_quick_stage st =? 2)) then st
  else if bool_decide (ch = []) || negb (str_isdigit ch) then st
  else
    let buffer :=
      if (2 <=? length (_quick_buffer st))%nat then ch
      else _quick_buffer st ++ ch in
    let st := with_quick st (_quick_stage st) buffer in
    _preview_quick_value st (_quick_stage st).

(** [_on_backspace] *)
Definition _on_backspace (st : App) : App :=
  if focus_in_comment st then st
  else if negb ((_quick_stage st =? 1) || (_quick_stage st =? 2)) then st
  else
    let buffer := take (length (_quick_buffer st) - 1) (_quick_buffer st) in
    let st := with_quick st (_quick_stage st) buffer in
    _preview_quick_value st (_quick_stage st).

(** [_on_enter] *)
Definition _on_enter (st : App) : App :=
  if focus_in_comment st then st
  else if _quick_stage st =? 1 then
    with_quick (_commit_quick_buffer st) 2 []
  else if _quick_stage st =? 2 then
    with_quick (_commit_quick_buffer st) 3 []
  else _reset_quick (save_and_next st) 1.

(** [_on_escape] *)
Definition _on_escape (st : App) : App :=
  if focus_in_comment st then st else _reset_quick st 1.

End Grader.

(** ** Gradebook Exporter *)

(** The two fills of the source; [no_fill] is a cell the styling loop left
    alone. *)
Inductive PatternFill := no_fill | FILL_MISSING | FILL_ALERT.

#[global] Instance PatternFill_eq_dec : EqDecision PatternFill.
Proof. solve_decision. Defined.

Record Cell := {
  value : option pyval;
  fill : PatternFill
}.

(** A worksheet: the section it was made for, the header row and the data
    rows (rows 2.. of the sheet).  The sheet title that lines 128-140 derive
    from the section label is not modelled, nor is the error that openpyxl
    raises for a title it rejects. *)
Record Sheet := {
  label : pystr;
  header : list string;
  body : list (list Cell)
}.

Section Sorting.
Context {A : Type} (le : A -> A -> bool).

Fixpoint insert_sorted (x : A) (l : list A) : list A :=
  match l with
  | [] => [x]
  | y :: r => if le x y then x :: l else y :: insert_sorted x r
  end.

(** A stable sort: equal elements keep their order. *)
Definition sort_stable (l : list A) : list A := foldr insert_sorted [] l.

End Sorting.

(** Order of [str]: by code point, the shorter of two prefixes first. *)
Fixpoint str_le (a b : pystr) : bool :=
  match a, b with
  | [], _ => true
  | _ :: _, [] => false
  | x :: a', y :: b' =>
      if (x <? y)%N then true
      else if (y <? x)%N then false
      else str_le a' b'
  end.

(** Order of the cells of one column under [sort_values]: numbers before
    strings, missing cells last. *)
Definition cell_le (a b : option pyval) : bool :=
  match a, b with
  | Some (PInt x), Some (PInt y) => x <=? y
  | Some (PInt _), _ => true
  | Some (PStr _), Some (PInt _) => false
  | Some (PStr x), Some (PStr y) => str_le x y
  | Some (PStr _), None => true
  | None, None => true
  | None, Some _ => false
  end.

(** A row of [sub] with its [__sid_sort] key. *)
Definition keyed := (Z * gmap string pyval)%type.

(** [sort_values(["__sid_sort","student_id","name"], ascending=True)] *)
Definition row_le (a b : keyed) : bool :=
  if a.1 <? b.1 then true
  else if b.1 <? a.1 then false
  else if negb (cell_le (b.2 !! "student_id") (a.2 !! "student_id")) then true
  else if negb (cell_le (a.2 !! "student_id") (b.2 !! "student_id")) then false
  else cell_le (a.2 !! "name") (b.2 !! "name").

Definition cols : list string :=
  ["class_time"; "name"; "student_id"; "q1_score"; "q2_score";
   "total_score"; "comment"; "file"].

Definition export_cols : list string := cols.

(** Lines 110-112: add the columns that are absent, on the table passed in. *)
Definition ensure_columns (df : DataFrame) : DataFrame :=
  foldl (fun d c => if bool_decide (c ∈ columns d) then d
                    else set_column d c (PStr [])) df cols.

(** The section label "未分组". *)
Definition ungrouped : pystr := [26410; 20998; 32452]%N.

Section Exporter.
Context `{U : Unicode}.

(** [sort_key_sid]; [None] where [int(s)] raises. *)
Definition sort_key_sid (v : option pyval) : option Z :=
  let s := strip (py_str v) in
  if str_isdigit s then py_int s else Some (10 ^ 18).

(** [str(cell.value or "").strip()]: the empty string and the number 0 are
    false in Python. *)
Definition cell_text (v : option pyval) : pystr :=
  match v with
  | Some (PStr []) => []
  | Some (PInt 0) => []
  | _ => strip (py_str v)
  end.

Definition set_fill (f : PatternFill) (c : Cell) : Cell :=
  {| value := value c; fill := f |}.

(** Lines 176-195 for one row of the sheet. *)
Definition style_row (row : list Cell) : list Cell :=
  let text (i : nat) := cell_text (row !! i ≫= value) in
  let row :=
    if bool_decide (text 1%nat = []) || bool_decide (text 2%nat = [])
    then set_fill FILL_ALERT <$> row else row in
  let row :=
    if bool_decide (text 3%nat = []) then alter (set_fill FILL_MISSING) 3%nat row
    else row in
  if bool_decide (text 4%nat = []) then alter (set_fill FILL_MISSING) 4%nat row
  else row.

(** [ws.append(r)] for a row of [sub_export]. *)
Definition sheet_row (r : gmap string pyval) : list Cell :=
  (fun c => {| value := r !! c; fill := no_fill |}) <$> export_cols.

(** The section a [class_time_str] value goes to. *)
Definition section_of (ct : pystr) : pystr :=
  if bool_decide (strip ct <> []) then ct else ungrouped.

(** The rows of [sub] for the section [ct], lines 142-144. *)
Definition section_rows (df2 : DataFrame) (ct : pystr) : list (gmap string pyval) :=
  filter (fun r => strip (py_str (r !! "class_time_str"))
                   = (if bool_decide (ct = ungrouped) then [] else ct))
         (rows df2).

(** The body of the loop over [class_times], lines 127-195. *)
Definition build_sheet (df2 : DataFrame) (ct : pystr) : option Sheet :=
  let sub := section_rows df2 ct in
  keys ← mapM (fun r : gmap string pyval => sort_key_sid (r !! "student_id")) sub;
  let sorted := (sort_stable row_le (zip keys sub)).*2 in
  Some {| label := ct; header := export_cols;
          body := (fun r => style_row (sheet_row r)) <$> sorted |}.

(** The working copy [df2], lines 115-117, of the table with its columns
    ensured. *)
Definition working_copy (df : DataFrame) : DataFrame :=
  set_column_astype_str
    (set_column_astype_str df "student_id_str" "student_id")
    "class_time_str" "class_time".

(** [class_times], line 125: the section labels, sorted, each once. *)
Definition class_times (df2 : DataFrame) : list pystr :=
  sort_stable str_le
    (remove_dups ((fun r => section_of (py_str (r !! "class_time_str")))
                    <$> rows df2)).

(** [export_gradebook(df, out_xlsx)]: the table of the caller after the
    call, and the sheets of the saved workbook, or [None] where the call
    raises (a key that [int] rejects, or no sheet to save). *)
Definition export_gradebook (df : DataFrame) : DataFrame * option (list Sheet) :=
  let df := ensure_columns df in
  let df2 := working_copy df in
  (df, match class_times df2 with
       | [] => None
       | _ => mapM (build_sheet df2) (class_times df2)
       end).

(** [export_excel] *)
Definition export_excel (st : App) : App :=
  let st := (save_current st).2 in
  let '(d, wb) := export_gradebook (df st) in
  let st := with_store st d (csv_writes st) in
  match wb with
  | Some _ => with_dialog st InfoExported
  | None => with_dialog st ErrorExport
  end.

(** The user actions bound in [_build_ui]. *)
Inductive event :=
  | Key (ch : pystr)
  | Return
  | BackSpace
  | Escape
  | Up
  | Down
  | ControlS
  | ClickSaveAndNext
  | ClickExport.

Definition handle (st : App) (e : event) : App :=
  match e with
  | Key ch => _on_keypress st ch
  | Return => _on_enter st
  | BackSpace => _on_backspace st
  | Escape => _on_escape st
  | Up => prev_pdf st
  | Down => next_pdf st
  | ControlS => (save_current st).2
  | ClickSaveAndNext => save_and_next st
  | ClickExport => export_excel st
  end.

End Exporter.

(** ** Vocabulary of the properties *)

Section Vocabulary.
Context `{U : Unicode}.

Definition decimal (c : N) : Prop := is_Some (todecimal c).

(** Eight decimal digits start at position [i] of [s]. *)
Definition digits8_at (s : pystr) (i : nat) : Prop :=
  exists d, length d = 8%nat /\ Forall decimal d /\ d `prefix_of` drop i s.

(** [run] is the first run of eight or more digits of [s]: it starts at
    the leftmost position where eight digits start and goes on as long as
    digits follow. *)
Definition first_run8 (s run : pystr) : Prop :=
  exists pre post,
    s = pre ++ run ++ post /\
    (8 <= length run)%nat /\
    Forall decimal run /\
    (forall c r, post = c :: r -> ~ decimal c) /\
    (forall i, (i < length pre)%nat -> ~ digits8_at s i).

(** The value that Enter commits: 0 for a blank buffer, otherwise the
    number the buffer spells (0 if it spells none), brought into 0..50. *)
Definition commit_value (buffer : pystr) : Z :=
  Z.max 0 (Z.min 50 (if bool_decide (strip buffer = []) then 0
                     else default 0 (py_int buffer))).

(** What every handler keeps: at most two characters, all of them digits. *)
Definition buffer_ok (b : pystr) : Prop :=
  (length b <= 2)%nat /\ Forall (fun c => isdigit c = true) b.

End Vocabulary.

(** The id of a stored row, as [save_current] compares it. *)
Definition sid_of (r : gmap string pyval) : pystr := py_str (r !! "student_id").

(** The ids of the rows, top to bottom. *)
Definition ids (df : DataFrame) : list pystr := sid_of <$> rows df.

(** No two rows share a non-empty id. *)
Definition unique_ids (df : DataFrame) : Prop :=
  forall i j s,
    ids df !! i = Some s -> ids df !! j = Some s -> s <> [] -> i = j.

(** The row that [record] makes of [row]: the fields of the record, and
    whatever other columns [row] has. *)
Definition overwrite (record : GradeRecord) (row : gmap string pyval) :
    gmap string pyval :=
  list_to_map (items record) ∪ row.

(** [event.char] of a key press is one character or empty. *)
Definition keystroke (e : event) : Prop :=
  match e with
  | Key ch => (length ch <= 1)%nat
  | _ => True
  end.

(** The states the application goes through: it starts with an empty
    buffer and handles one event after the other. *)
Inductive reachable `{U : Unicode} : App -> Prop :=
  | reachable_start st : _quick_buffer st = [] -> reachable st
  | reachable_handle st e : reachable st -> keystroke e -> reachable (handle st e).

(** The value of cell [j] of a sheet row ([row[j].value]). *)
Definition row_value (row : list Cell) (j : nat) : option pyval := row !! j ≫= value.

(** One turn of the loop of lines 110-112. *)
Definition ensure_step (d : DataFrame) (c : string) : DataFrame :=
  if bool_decide (c ∈ columns d) then d else set_column d c (PStr []).

(** What [ensure_columns] does to one row of a table whose columns are
    [present]. *)
Definition fill_absent (present : list string) (l : list string)
    (r : gmap string pyval) : gmap string pyval :=
  foldl (fun r c => if bool_decide (c ∈ present) then r else <[c := PStr []]> r) r l.

(** A cell is empty for the styling loop when [str(value or "").strip()]
    is the empty string. *)
Definition cell_empty `{U : Unicode} (row : list Cell) (j : nat) : Prop :=
  cell_text (row_value row j) = [].

(** The id of a sheet row as [sort_key_sid] reads it, whether it is purely
    numeric, and the key. *)
Definition id_text `{U : Unicode} (row : list Cell) : pystr :=
  strip (py_str (row_value row 2)).

Definition numeric_id `{U : Unicode} (row : list Cell) : bool :=
  str_isdigit (id_text row).

Definition sheet_key `{U : Unicode} (row : list Cell) : option Z :=
  sort_key_sid (row_value row 2).

(** The order of two rows that the code produces: the smaller key first;
    with equal keys the smaller id cell first; with id cells of equal rank
    the name decides. *)
Definition code_order `{U : Unicode} (ri rj : list Cell) : Prop :=
  exists ki kj,
    sheet_key ri = Some ki /\ sheet_key rj = Some kj /\
    (ki < kj \/
     (ki = kj /\
      (cell_le (row_value rj 2) (row_value ri 2) = false \/
       (cell_le (row_value ri 2) (row_value rj 2) = true /\
        cell_le (row_value rj 2) (row_value ri 2) = true /\
        cell_le (row_value ri 1) (row_value rj 1) = true)))).

(** The order as the specification words it: numeric ids by their value,
    every other id after all numeric ones, and the name between rows with
    equal id keys. *)
Definition spec_order `{U : Unicode} (ri rj : list Cell) : bool :=
  match numeric_id ri, numeric_id rj with
  | true, true =>
      match py_int (id_text ri), py_int (id_text rj) with
      | Some a, Some b =>
          (a <? b) || ((a =? b) && cell_le (row_value ri 1) (row_value rj 1))
      | _, _ => false
      end
  | true, false => true
  | false, true => false
  | false, false => cell_le (row_value ri 1) (row_value rj 1)
  end.

Definition spec_sorted `{U : Unicode} (sheet : Sheet) : Prop :=
  forall i j ri rj,
    (i < j)%nat -> body sheet !! i = Some ri -> body sheet !! j = Some rj ->
    spec_order ri rj = true.

(** ** An instance of the character tables: Latin-1

    White space: U+0009..U+000D, U+001C..U+0020, U+0085, U+00A0.  Digits
    for [isdigit]: [0]..[9] and the superscripts U+00B2, U+00B3, U+00B9,
    which have no decimal value. *)

Definition latin1_isspace (c : N) : bool :=
  ((9 <=? c) && (c <=? 13) || (28 <=? c) && (c <=? 32) || (c =? 133) || (c =? 160))%N.

Definition latin1_todecimal (c : N) : option N :=
  if ((48 <=? c) && (c <=? 57))%N then Some (c - 48)%N else None.

Definition latin1_isdigit (c : N) : bool :=
  ((48 <=? c) && (c <=? 57) || (c =? 178) || (c =? 179) || (c =? 185))%N.

Lemma latin1_todecimal_lt c d : latin1_todecimal c = Some d -> (d < 10)%N.
Proof.
  unfold latin1_todecimal.
  destruct (48 <=? c)%N eqn:H1; destruct (c <=? 57)%N eqn:H2; simpl;
    intros [= <-]; apply N.leb_le in H1, H2; lia.
Qed.

#[global] Instance latin1 : Unicode := {|
  isspace := latin1_isspace;
  isdigit := latin1_isdigit;
  todecimal := latin1_todecimal;
  todecimal_lt := latin1_todecimal_lt
|}.

(** ** Sample data *)

(** The table that [_load_existing_csv] returns when there is no file. *)
Definition empty_table : DataFrame := {| columns := cols; rows := [] |}.

Definition alice : GradeRecord :=
  {| class_time := py "AM1-2"; name := py "Alice"; student_id := py "2023151554";
     q1_score := Some 30; q2_score := None; total_score := 30;
     comment := []; file := py "AM1-2-Alice-2023151554.pdf" |}.

Definition alice_again : GradeRecord :=
  {| class_time := py "AM1-2"; name := py "Alice"; student_id := py "2023151554";
     q1_score := Some 30; q2_score := Some 7; total_score := 37;
     comment := py "ok"; file := py "AM1-2-Alice-2023151554.pdf" |}.

Definition bob : GradeRecord :=
  {| class_time := py "AM1-2"; name := py "Bob"; student_id := py "2023151555";
     q1_score := Some 12; q2_score := Some 50; total_score := 62;
     comment := []; file := py "AM1-2-Bob-2023151555.pdf" |}.

(** A submission whose file name gave no student id. *)
Definition anonymous : GradeRecord :=
  {| class_time := py "scan"; name := []; student_id := [];
     q1_score := Some 30; q2_score := None; total_score := 30;
     comment := []; file := py "scan.pdf" |}.

(** The first of two submissions is on screen, with [q1] and [q2] in the
    score entries. *)
Definition sample_app (q1 q2 : pystr) : App :=
  {| df := empty_table; csv_writes := []; dialogs := [];
     pdf_paths := [py "sub/AM1-2-Alice-2023151554.pdf";
                   py "sub/AM1-2-Bob-2023151555.pdf"];
     idx := 0;
     var_class_time := py "AM1-2"; var_name := py "Alice";
     var_student_id := py "2023151554";
     var_file := py "AM1-2-Alice-2023151554.pdf";
     entry_q1 := q1; entry_q2 := q2; text_comment := [];
     focus_in_comment := false;
     _quick_stage := 1; _quick_buffer := [] |}.

(** [sample_app] in the middle of a quick entry. *)
Definition sample_quick (stage : Z) (buffer q1 q2 : pystr) : App :=
  with_quick (sample_app q1 q2) stage buffer.

(** The session of the specification: 3, 0, Enter, 7, Enter, Enter. *)
Definition session_end : App :=
  foldl handle (sample_app [] [])
    [Key (py "3"); Key (py "0"); Return; Key (py "7"); Return; Return].

(** A table read from a file that has two of the eight columns. *)
Definition two_column_table : DataFrame :=
  {| columns := ["student_id"; "name"];
     rows := [ {[ "student_id" := PStr (py "7"); "name" := PStr (py "Ann") ]} ] |}.

(** The sheet row of the submission without name and id. *)
Definition anonymous_row : list Cell :=
  [ {| value := Some (PStr (py "scan")); fill := FILL_ALERT |};
    {| value := Some (PStr []); fill := FILL_ALERT |};
    {| value := Some (PStr []); fill := FILL_ALERT |};
    {| value := Some (PInt 30); fill := FILL_ALERT |};
    {| value := Some (PStr []); fill := FILL_MISSING |};
    {| value := Some (PInt 30); fill := FILL_ALERT |};
    {| value := Some (PStr []); fill := FILL_ALERT |};
    {| value := Some (PStr (py "scan.pdf")); fill := FILL_ALERT |} ].

Definition anonymous_sheet : Sheet :=
  {| label := py "scan"; header := export_cols; body := [anonymous_row] |}.

(** Two classes of two: an id of 19 digits next to a non-numeric id, and
    two non-numeric ids whose names are in the opposite order. *)
Definition student (sid nm : string) : GradeRecord :=
  {| class_time := py "A"; name := py nm; student_id := py sid;
     q1_score := Some 10; q2_score := Some 10; total_score := 20;
     comment := []; file := py "f.pdf" |}.

Definition long_id_table : DataFrame :=
  foldl upsert empty_table [student "2000000000000000000" "x"; student "abc" "y"].

Definition same_key_table : DataFrame :=
  foldl upsert empty_table [student "b" "x"; student "a" "y"].

Definition plain (vs : list pyval) : list Cell :=
  (fun v => {| value := Some v; fill := no_fill |}) <$> vs.

Definition long_id_sheet : Sheet :=
  {| label := py "A"; header := export_cols;
     body :=
       [ plain [PStr (py "A"); PStr (py "y"); PStr (py "abc");
                PInt 10; PInt 10; PInt 20; PStr []; PStr (py "f.pdf")];
         plain [PStr (py "A"); PStr (py "x"); PStr (py "2000000000000000000");
                PInt 10; PInt 10; PInt 20; PStr []; PStr (py "f.pdf")] ] |}.

Definition same_key_sheet : Sheet :=
  {| label := py "A"; header := export_cols;
     body :=
       [ plain [PStr (py "A"); PStr (py "y"); PStr (py "a");
                PInt 10; PInt 10; PInt 20; PStr []; PStr (py "f.pdf")];
         plain [PStr (py "A"); PStr (py "x"); PStr (py "b");
                PInt 10; PInt 10; PInt 20; PStr []; PStr (py "f.pdf")] ] |}.

(** The file name of the docstring,
    [上午1-2节（830-1000）-蔡俊灏-2023151554.pdf], as code points. *)
Definition docstring_class_time : pystr :=
  [19978; 21320]%N ++ py "1-2" ++ [33410; 65288]%N ++ py "830-1000" ++ [65289]%N.

Definition docstring_name : pystr := [34081; 20426; 28751]%N.

Definition docstring_path : pystr :=
  py "submissions/" ++ docstring_class_time ++ py "-" ++ docstring_name
    ++ py "-2023151554.pdf".

(** ** Vocabulary of the further properties *)

(** The scores of a stored row agree: each score cell is empty or holds a
    number from 0 to 50, and the total is their sum, an empty cell counting
    as 0. *)
Definition row_consistent (r : gmap string pyval) : Prop :=
  exists q1 q2 : option Z,
    (forall v, q1 = Some v -> 0 <= v <= 50) /\
    (forall v, q2 = Some v -> 0 <= v <= 50) /\
    r !! "q1_score" = Some (score_cell q1) /\
    r !! "q2_score" = Some (score_cell q2) /\
    r !! "total_score" = Some (PInt (default 0 q1 + default 0 q2)).

(** The table has the eight columns, as [_load_existing_csv] leaves it. *)
Definition store_ok (d : DataFrame) : Prop := forall c, c ∈ cols -> c ∈ columns d.

(** The scores of a record agree in the same way. *)
Definition record_ok (record : GradeRecord) : Prop :=
  (forall v, q1_score record = Some v -> 0 <= v <= 50) /\
  (forall v, q2_score record = Some v -> 0 <= v <= 50) /\
  total_score record = default 0 (q1_score record) + default 0 (q2_score record).

Definition store_consistent (d : DataFrame) : Prop := Forall row_consistent (rows d).

(** The application handles the events of [events] one after the other. *)
Definition run `{U : Unicode} (st : App) (events : list event) : App :=
  foldl handle st events.

(** The stage is one of the three, and a buffer is only kept while a score
    is being typed. *)
Definition stage_ok (st : App) : Prop :=
  (_quick_stage st = 1 \/ _quick_stage st = 2 \/ _quick_stage st = 3) /\
  (_quick_stage st = 3 -> _quick_buffer st = []).

(** The entry that belongs to a stage. *)
Definition entry_of (stage : Z) (st : App) : pystr :=
  if stage =? 1 then entry_q1 st else entry_q2 st.

(** The entry that does not. *)
Definition other_entry (stage : Z) (st : App) : pystr :=
  if stage =? 1 then entry_q2 st else entry_q1 st.

(** What the entry shows for a buffer: nothing for a blank one, else the
    number it spells brought into 0..50. *)
Definition preview_text `{U : Unicode} (buffer : pystr) : pystr :=
  if bool_decide (strip buffer = []) then [] else str_of_int (quick_value buffer).

(** The labels on screen are those of the file at [idx]. *)
Definition on_screen `{U : Unicode} (st : App) : Prop :=
  exists path,
    0 <= idx st /\
    pdf_paths st !! Z.to_nat (idx st) = Some path /\
    var_file st = basename path /\
    var_class_time st = parse_filename_meta path !!! "class_time" /\
    var_name st = parse_filename_meta path !!! "name" /\
    var_student_id st = parse_filename_meta path !!! "student_id".

(** Two states show the same file of the same list. *)
Definition same_file (st st' : App) : Prop :=
  pdf_paths st' = pdf_paths st /\ idx st' = idx st /\
  var_file st' = var_file st /\ var_class_time st' = var_class_time st /\
  var_name st' = var_name st /\ var_student_id st' = var_student_id st.

(** The text of a score in an entry: its digits, or nothing. *)
Definition score_text (q : option Z) : pystr :=
  match q with
  | Some v => str_of_int v
  | None => []
  end.

(** Two states are in the same stage with the same buffer. *)
Definition same_quick (st st' : App) : Prop :=
  _quick_stage st' = _quick_stage st /\ _quick_buffer st' = _quick_buffer st.

(** The table of the interpreter has no white space among [0]..[9] and
    the minus sign. *)
Definition digits_not_space `{U : Unicode} : Prop :=
  forall c : N, (48 <= c <= 57)%N \/ c = 45%N -> isspace c = false.

(** A row of the working copy: the row with its two text columns, lines
    116-117. *)
Definition wc_row (r : gmap string pyval) : gmap string pyval :=
  let r1 := <["student_id_str" := PStr (py_str (r !! "student_id"))]> r in
  <["class_time_str" := PStr (py_str (r1 !! "class_time"))]> r1.

(** The stripped class time that the rows of a sheet have, lines 142-144. *)
Definition section_target (ct : pystr) : pystr :=
  if bool_decide (ct = ungrouped) then [] else ct.

(** The rows of a table that go to the sheet of the section [ct]. *)
Definition rows_of_section `{U : Unicode} (d : DataFrame) (ct : pystr) :
    list (gmap string pyval) :=
  filter (fun r => strip (py_str (r !! "class_time")) = section_target ct) (rows d).

(** The path of a submission named after the convention of the docstring,
    in a folder [dir] (empty, or ending in a slash). *)
Definition submission_path (dir ct nm sid : pystr) : pystr :=
  dir ++ ct ++ py "-" ++ nm ++ py "-" ++ sid ++ py ".pdf".

(** ** Further sample data *)

(** A student whose first score is 0. *)
Definition carol : GradeRecord :=
  {| class_time := py "AM1-2"; name := py "Carol"; student_id := py "2023151556";
     q1_score := Some 0; q2_score := Some 41; total_score := 41;
     comment := []; file := py "AM1-2-Carol-2023151556.pdf" |}.

Definition carol_row : list Cell :=
  [ {| value := Some (PStr (py "AM1-2")); fill := no_fill |};
    {| value := Some (PStr (py "Carol")); fill := no_fill |};
    {| value := Some (PStr (py "2023151556")); fill := no_fill |};
    {| value := Some (PInt 0); fill := FILL_MISSING |};
    {| value := Some (PInt 41); fill := no_fill |};
    {| value := Some (PInt 41); fill := no_fill |};
    {| value := Some (PStr []); fill := no_fill |};
    {| value := Some (PStr (py "AM1-2-Carol-2023151556.pdf")); fill := no_fill |} ].

Definition carol_sheet : Sheet :=
  {| label := py "AM1-2"; header := export_cols; body := [carol_row] |}.

(** A row, as a file edited by hand may have it, whose class time starts
    with a blank. *)
Definition padded : GradeRecord :=
  {| class_time := py " A"; name := py "Dan"; student_id := py "2023151557";
     q1_score := Some 10; q2_score := Some 10; total_score := 20;
     comment := []; file := py "f.pdf" |}.

Definition padded_sheet : Sheet :=
  {| label := py " A"; header := export_cols; body := [] |}.

(** ** Sheet titles, lines 128-138 *)

(** [s[:m]]: a negative [m] counts from the end. *)
Definition slice_to (s : pystr) (m : Z) : pystr :=
  if m <? 0 then take (Z.to_nat (Z.of_nat (length s) + m)) s
  else take (Z.to_nat m) s.

(** The name tried in round [k] of the loop, line 137. *)
Definition title_candidate (base_name : pystr) (k : Z) : pystr :=
  let suffix := py "_" ++ str_of_int k in
  if 31 <? Z.of_nat (length base_name) + Z.of_nat (length suffix)
  then slice_to base_name (31 - Z.of_nat (length suffix)) ++ suffix
  else base_name ++ suffix.

(** The loop of lines 135-138, for [fuel] rounds at most; [None] when the
    rounds are used up. *)
Fixpoint title_loop (fuel : nat) (sheetnames : list pystr)
    (base_name sheet_name : pystr) (k : Z) : option pystr :=
  if bool_decide (sheet_name ∈ sheetnames) then
    match fuel with
    | O => None
    | S fuel =>
        title_loop fuel sheetnames base_name (title_candidate base_name k) (k + 1)
    end
  else Some sheet_name.

(** The title asked of [create_sheet] for the section [ct], lines 128-138. *)
Definition sheet_title (fuel : nat) (sheetnames : list pystr) (ct : pystr) :
    option pystr :=
  let sheet_name := ct in
  let sheet_name :=
    if 31 <? Z.of_nat (length sheet_name) then take 31 sheet_name else sheet_name in
  let base_name := sheet_name in
  title_loop fuel sheetnames base_name sheet_name 1.

(** ** Typed columns

    The columns of a table that [read_csv] returns have a type, and
    [df.at[i, k] = v] raises [TypeError] when the type of column [k]
    rejects [v] (pandas 3; pandas 2 widens the column instead).  What was
    assigned before the raise stays.  Columns of object type take every
    value as it is, and [set_at] is the assignment on them.  Columns of
    floats, which a column of numbers with a blank has, are left out: a
    cell of this model holds a string or an integer. *)
Inductive dtype := dt_object | dt_int64 | dt_str.

Definition accepts (t : dtype) (v : pyval) : bool :=
  match t, v with
  | dt_object, _ => true
  | dt_int64, PInt n => bool_decide (- 2 ^ 63 <= n < 2 ^ 63)
  | dt_str, PStr _ => true
  | _, _ => false
  end.

(** The loop of lines 676-677 over typed columns: [inl] the table when
    every assignment went through, [inr] the table as the raise leaves
    it. *)
Fixpoint set_items_typed (types : string -> dtype) (d : DataFrame) (i : nat)
    (kvs : list (string * pyval)) : DataFrame + DataFrame :=
  match kvs with
  | [] => inl d
  | kv :: rest =>
      if accepts (types kv.1) kv.2
      then set_items_typed types (set_at d i kv.1 kv.2) i rest
      else inr d
  end.

(** Lines 671-681 of [save_current] over typed columns. *)
Definition upsert_typed (types : string -> dtype) (df : DataFrame)
    (record : GradeRecord) : DataFrame + DataFrame :=
  let sid := student_id record in
  if bool_decide (sid <> []) then
    match last_match sid (rows df) with
    | Some last_idx => set_items_typed types df last_idx (items record)
    | None => inl (concat_record df (items record))
    end
  else inl (concat_record df (items record)).

(** ** Callbacks that raise

    A method that Tk calls either returns or is left by an exception; the
    window keeps what was assigned before. *)
Inductive outcome :=
  | Returned (st : App)
  | Raised (st : App).

Section Rendering.
Context `{U : Unicode}.

(** [_load_pdf(i)] with its call of [_render_page].  [render_state] tells
    whether the constructor assigned [_last_render_key] (lines 236-239); it
    returns before it does when it finds no PDF (lines 206-226), and
    nothing else assigns it before line 444 reads it.  Where the attribute
    is absent line 444 raises [AttributeError], after the labels and the
    entries are set and before [_reset_quick]. *)
Definition _load_pdf_rendering (render_state : bool) (st : App) (i : Z) : outcome :=
  match pdf_paths st with
  | [] => Returned st
  | _ =>
      let i := Z.max 0 (Z.min i (Z.of_nat (length (pdf_paths st)) - 1)) in
      let path : pystr := pdf_paths st !!! Z.to_nat i in
      let meta := parse_filename_meta path in
      let st := with_file st i (meta !!! "class_time") (meta !!! "name")
                  (meta !!! "student_id") (basename path) in
      let st := _populate_existing st (meta !!! "student_id") in
      if render_state then Returned (_reset_quick st 1) else Raised st
  end.

(** [save_and_next] *)
Definition save_and_next_rendering (render_state : bool) (st : App) : outcome :=
  let '(ok, st) := save_current st in
  if negb ok then Returned st
  else if idx st <? Z.of_nat (length (pdf_paths st)) - 1
  then _load_pdf_rendering render_state st (idx st + 1)
  else Returned (with_dialog st InfoLastFile).

(** [_on_enter] *)
Definition _on_enter_rendering (render_state : bool) (st : App) : outcome :=
  if focus_in_comment st then Returned st
  else if _quick_stage st =? 1 then
    Returned (with_quick (_commit_quick_buffer st) 2 [])
  else if _quick_stage st =? 2 then
    Returned (with_quick (_commit_quick_buffer st) 3 [])
  else
    match save_and_next_rendering render_state st with
    | Returned st => Returned (_reset_quick st 1)
    | Raised st => Raised st
    end.

End Rendering.

(** ** Tables of a session

    The table of a session that began without a grade file: the empty
    table of [_load_existing_csv] (line 256) after some saves.  Its cells
    hold what the saves put there, strings and integers as they are.  A
    table read from a file has typed columns, which can reject a value or
    turn an integer into a float, and blanks that are missing values. *)
Definition session_table (d : DataFrame) : Prop :=
  exists records, d = foldl upsert empty_table records.

(** No row lacks its class time.  A missing class time, as a blank of the
    file is, is read as [nan] by [astype(str)] of pandas 2 and as a blank
    by pandas 3. *)
Definition class_times_present (d : DataFrame) : Prop :=
  Forall (fun r : gmap string pyval => is_Some (r !! "class_time")) (rows d).

(** ** Sample data of the failing runs *)

(** The grade file with one row, read back: [read_csv] types the columns
    of numbers [int64] and the others [str]. *)
Definition reloaded_table : DataFrame :=
  {| columns := cols;
     rows := [ {[ "class_time" := PStr (py "AM1-2");
                  "name" := PStr (py "Alice");
                  "student_id" := PInt 2023151554;
                  "q1_score" := PInt 30;
                  "q2_score" := PInt 40;
                  "total_score" := PInt 70;
                  "comment" := PStr (py "fine");
                  "file" := PStr (py "AM1-2-Alice-2023151554.pdf") ]} ] |}.

Definition reloaded_types (c : string) : dtype :=
  if bool_decide (c ∈ ["student_id"; "q1_score"; "q2_score"; "total_score"])
  then dt_int64 else dt_str.

(** The same student from a file that was renamed to another class time,
    graded again. *)
Definition alice_moved : GradeRecord :=
  {| class_time := py "PM5-6"; name := py "Alice"; student_id := py "2023151554";
     q1_score := Some 45; q2_score := Some 50; total_score := 95;
     comment := py "better"; file := py "PM5-6-Alice-2023151554.pdf" |}.

(** The row of [reloaded_table] with the class time of [alice_moved] and
    everything else as it was. *)
Definition half_written_table : DataFrame :=
  {| columns := cols;
     rows := [ {[ "class_time" := PStr (py "PM5-6");
                  "name" := PStr (py "Alice");
                  "student_id" := PInt 2023151554;
                  "q1_score" := PInt 30;
                  "q2_score" := PInt 40;
                  "total_score" := PInt 70;
                  "comment" := PStr (py "fine");
                  "file" := PStr (py "AM1-2-Alice-2023151554.pdf") ]} ] |}.

(** The grade file after a save with q1 = 30 and no q2, read back: the
    blank q2 and the blank comment are missing values. *)
Definition blank_reloaded_table : DataFrame :=
  {| columns := cols;
     rows := [ {[ "class_time" := PStr (py "AM1-2");
                  "name" := PStr (py "Alice");
                  "student_id" := PInt 2023151554;
                  "q1_score" := PInt 30;
                  "total_score" := PInt 30;
                  "file" := PStr (py "AM1-2-Alice-2023151554.pdf") ]} ] |}.

Definition blank_reloaded_row : list Cell :=
  [ {| value := Some (PStr (py "AM1-2")); fill := no_fill |};
    {| value := Some (PStr (py "Alice")); fill := no_fill |};
    {| value := Some (PInt 2023151554); fill := no_fill |};
    {| value := Some (PInt 30); fill := no_fill |};
    {| value := None; fill := no_fill |};
    {| value := Some (PInt 30); fill := no_fill |};
    {| value := None; fill := no_fill |};
    {| value := Some (PStr (py "AM1-2-Alice-2023151554.pdf")); fill := no_fill |} ].

Definition blank_reloaded_sheet : Sheet :=
  {| label := py "AM1-2"; header := export_cols; body := [blank_reloaded_row] |}.

(** The first of two submissions with both scores committed, ready to
    save. *)
Definition ready_to_save : App := sample_quick 3 [] (py "30") (py "7").

(** * Properties *)

(** ** Strings *)

Section TextFacts.
Context `{U : Unicode}.

Lemma split_on_cons_inv sep s : exists p ps, split_on sep s = p :: ps.
Proof.
  induction s as [|c r [p [ps IH]]]; simpl; [by eexists _, _|].
  destruct (c =? sep)%N; [by eexists _, _|].
  rewrite IH. by eexists _, _.
Qed.

Lemma join_cons sep p q qs : join sep (p :: q :: qs) = p ++ sep ++ join sep (q :: qs).
Proof. done. Qed.

(** Splitting and joining again gives the string back. *)
Lemma join_split_on sep s : join [sep] (split_on sep s) = s.
Proof.
  induction s as [|c r IH]; [done|]. cbn [split_on].
  destruct (split_on_cons_inv sep r) as [p [ps Hs]]. rewrite Hs in IH |- *.
  destruct (c =? sep)%N eqn:E.
  - apply N.eqb_eq in E as ->. by rewrite join_cons, IH.
  - destruct ps as [|q qs]; [by simpl in *; subst|].
    rewrite join_cons in IH |- *. by rewrite <- IH.
Qed.

(** No segment contains the separator. *)
Lemma split_on_no_sep sep s : Forall (fun p => sep ∉ p) (split_on sep s).
Proof.
  induction s as [|c r IH]; simpl.
  - repeat constructor. apply not_elem_of_nil.
  - destruct (c =? sep)%N eqn:E.
    + constructor; [apply not_elem_of_nil | done].
    + destruct (split_on_cons_inv sep r) as [p [ps Hs]].
      rewrite Hs in IH |- *. inversion IH as [|? ? Hp Hps]; subst.
      constructor; [|done]. apply N.eqb_neq in E.
      rewrite elem_of_cons. intros [->|?]; done.
Qed.

Lemma take_drop_while p s : take_while p s ++ drop_while p s = s.
Proof. induction s as [|c r IH]; simpl; [done|]. destruct (p c); simpl; by rewrite ?IH. Qed.

Lemma take_while_Forall p s : Forall (fun c => p c = true) (take_while p s).
Proof.
  induction s as [|c r IH]; simpl; [constructor|].
  destruct (p c) eqn:E; by constructor.
Qed.

Lemma drop_while_head p s c r : drop_while p s = c :: r -> p c = false.
Proof.
  induction s as [|x s IH]; simpl; [done|].
  destruct (p x) eqn:E; [done|]. by intros [= <- <-].
Qed.

(** A prefix of digits is inside the run of digits that starts there. *)
Lemma take_while_prefix_length p d s :
  Forall (fun c => p c = true) d -> d `prefix_of` s ->
  (length d <= length (take_while p s))%nat.
Proof.
  intros Hd [k ->]. induction Hd as [|c d Hc _ IH]; simpl; [lia|].
  rewrite Hc. simpl. lia.
Qed.

End TextFacts.

(** ** Filename Parser *)

Section ParserFacts.
Context `{U : Unicode}.

Lemma isdecimal_true c : isdecimal c = true <-> decimal c.
Proof. unfold isdecimal, decimal. apply bool_decide_eq_true. Qed.

Lemma digits8_at_run s :
  digits8_at s 0 -> (8 <= length (take_while isdecimal s))%nat.
Proof.
  intros (d & Hlen & Hd & Hpre). rewrite <- Hlen.
  apply take_while_prefix_length; [|done].
  eapply Forall_impl; [exact Hd|]. intros c. apply isdecimal_true.
Qed.

Lemma search_digits8_Some s run :
  search_digits8 s = Some run -> first_run8 s run.
Proof.
  induction s as [|c r IH]; [done|].
  cbn [search_digits8].
  pose proof (take_drop_while isdecimal (c :: r)) as Happ.
  pose proof (take_while_Forall isdecimal (c :: r)) as Hall.
  pose proof (drop_while_head isdecimal (c :: r)) as Hhead.
  pose proof (digits8_at_run (c :: r)) as H8.
  remember (take_while isdecimal (c :: r)) as run0 eqn:Hrun0.
  remember (drop_while isdecimal (c :: r)) as post0 eqn:Hpost0.
  clear Hrun0 Hpost0.
  destruct (8 <=? length run0)%nat eqn:E.
  - intros [= <-]. apply Nat.leb_le in E.
    exists [], post0. repeat split.
    + by rewrite app_nil_l.
    + done.
    + eapply Forall_impl; [exact Hall|]. intros x. apply isdecimal_true.
    + intros x t -> Hdec. specialize (Hhead x t eq_refl).
      apply isdecimal_true in Hdec. congruence.
    + simpl. lia.
  - intros Hr. destruct (IH Hr) as (pre & post & -> & Hlen & Hrun & Hpost & Hfirst).
    exists (c :: pre), post. repeat split; try done.
    intros [|i] Hi.
    + intros H0. apply H8 in H0. apply Nat.leb_gt in E. lia.
    + simpl in Hi. apply (Hfirst i); lia.
Qed.

Lemma search_digits8_None s :
  search_digits8 s = None -> forall i, ~ digits8_at s i.
Proof.
  induction s as [|c r IH]; cbn [search_digits8].
  - intros _ i (d & Hlen & _ & Hpre). rewrite drop_nil in Hpre.
    apply prefix_nil_inv in Hpre. subst. done.
  - destruct (8 <=? length (take_while isdecimal (c :: r)))%nat eqn:E; [done|].
    intros Hr [|i].
    + intros H0. apply digits8_at_run in H0. apply Nat.leb_gt in E. lia.
    + apply (IH Hr i).
Qed.

(** With three or more segments, the
    last is the student id, the one before is the name and the segments
    before it, joined with hyphens, are the class time, each stripped of
    surrounding white space. *)
Lemma parse_filename_meta_segments filepath pre nm sid :
  split_on 45%N (stem filepath) = pre ++ [nm; sid] -> pre <> [] ->
  parse_filename_meta filepath !! "student_id" = Some (strip sid) /\
  parse_filename_meta filepath !! "name" = Some (strip nm) /\
  parse_filename_meta filepath !! "class_time" = Some (strip (join (py "-") pre)).
Proof.
  intros Hs Hpre. unfold parse_filename_meta. rewrite Hs.
  assert (Hn : length (pre ++ [nm; sid]) = S (S (length pre))).
  { rewrite length_app. simpl. lia. }
  rewrite Hn.
  destruct pre as [|p0 pre]; [done|]. cbn [length Nat.leb].
  replace (S (S (S (length pre))) - 1)%nat with (length (p0 :: pre) + 1)%nat
    by (simpl; lia).
  replace (S (S (S (length pre))) - 2)%nat with (length (p0 :: pre) + 0)%nat
    by (simpl; lia).
  rewrite !lookup_total_app_r by lia.
  replace (length (p0 :: pre) + 1 - length (p0 :: pre))%nat with 1%nat by lia.
  replace (length (p0 :: pre) + 0 - length (p0 :: pre))%nat with 0%nat by lia.
  rewrite Nat.add_0_r, take_app_length.
  repeat split; by simplify_map_eq.
Qed.

(** With fewer than three segments the class time is
    the stripped stem, the name is empty and the student id is the first
    run of eight or more digits, or empty when there is none. *)
Lemma parse_filename_meta_fallback filepath :
  (length (split_on 45%N (stem filepath)) < 3)%nat ->
  parse_filename_meta filepath !! "class_time" = Some (strip (stem filepath)) /\
  parse_filename_meta filepath !! "name" = Some [] /\
  ((exists run, first_run8 (stem filepath) run /\
                parse_filename_meta filepath !! "student_id" = Some run) \/
   ((forall i, ~ digits8_at (stem filepath) i) /\
    parse_filename_meta filepath !! "student_id" = Some [])).
Proof.
  intros Hlt. unfold parse_filename_meta.
  destruct (3 <=? length (split_on 45%N (stem filepath)))%nat eqn:E;
    [apply Nat.leb_le in E; lia|].
  destruct (search_digits8 (stem filepath)) as [run|] eqn:Hrun.
  - repeat split; [by simplify_map_eq..|].
    left. exists run. split; [by apply search_digits8_Some|by simplify_map_eq].
  - repeat split; [by simplify_map_eq..|].
    right. split; [by apply search_digits8_None|by simplify_map_eq].
Qed.

(** C6 (amended): [parse_filename_meta] on a stem with at least three
    hyphen-separated segments returns the last segment as student id, the
    one before as name and the rest, joined with hyphens, as class time,
    each stripped; on a stem with fewer segments it returns the stripped
    stem as class time, an empty name, and as student id the first run of
    eight or more digits, or the empty string. *)
Theorem parse_filename_meta_spec (filepath : pystr) :
  (forall pre nm sid,
      split_on 45%N (stem filepath) = pre ++ [nm; sid] -> pre <> [] ->
      parse_filename_meta filepath !! "student_id" = Some (strip sid) /\
      parse_filename_meta filepath !! "name" = Some (strip nm) /\
      parse_filename_meta filepath !! "class_time"
        = Some (strip (join (py "-") pre))) /\
  ((length (split_on 45%N (stem filepath)) < 3)%nat ->
      parse_filename_meta filepath !! "class_time" = Some (strip (stem filepath)) /\
      parse_filename_meta filepath !! "name" = Some [] /\
      ((exists run, first_run8 (stem filepath) run /\
                    parse_filename_meta filepath !! "student_id" = Some run) \/
       ((forall i, ~ digits8_at (stem filepath) i) /\
        parse_filename_meta filepath !! "student_id" = Some []))).
Proof.
  split.
  - intros pre nm sid. apply parse_filename_meta_segments.
  - apply parse_filename_meta_fallback.
Qed.

End ParserFacts.

(** The stem [" a"] keeps its leading blank; the class time does not. *)
Lemma parse_filename_meta_full_stem_counterexample :
  (length (split_on 45%N (stem (py " a.pdf"))) < 3)%nat /\
  parse_filename_meta (py " a.pdf") !! "class_time" <> Some (stem (py " a.pdf")).
Proof. split; [vm_compute; lia | vm_compute; discriminate]. Qed.

Lemma parse_filename_meta_spec_witness :
  (parse_filename_meta (py "sub/AM1-2(830-1000)-Cai-2023151554.pdf") !! "student_id"
     = Some (py "2023151554") /\
   parse_filename_meta (py "sub/AM1-2(830-1000)-Cai-2023151554.pdf") !! "name"
     = Some (py "Cai") /\
   parse_filename_meta (py "sub/AM1-2(830-1000)-Cai-2023151554.pdf") !! "class_time"
     = Some (py "AM1-2(830-1000)")) /\
  parse_filename_meta (py "hw_20231554.pdf") !! "class_time" = Some (py "hw_20231554").
Proof.
  split.
  - pose proof (proj1 (parse_filename_meta_spec
                         (py "sub/AM1-2(830-1000)-Cai-2023151554.pdf"))
                  [py "AM1"; py "2(830"; py "1000)"] (py "Cai") (py "2023151554")
                  eq_refl ltac:(discriminate)) as H.
    vm_compute in H |- *. exact H.
  - assert (Hlt : (length (split_on 45%N (stem (py "hw_20231554.pdf"))) < 3)%nat)
      by (vm_compute; lia).
    pose proof (proj1 (proj2 (parse_filename_meta_spec (py "hw_20231554.pdf")) Hlt)) as H.
    vm_compute in H |- *. exact H.
Defined.

Example parse_filename_meta_docstring :
  parse_filename_meta docstring_path !! "class_time" = Some docstring_class_time /\
  parse_filename_meta docstring_path !! "name" = Some docstring_name /\
  parse_filename_meta docstring_path !! "student_id" = Some (py "2023151554").
Proof. vm_compute. done. Qed.

Example parse_filename_meta_short :
  parse_filename_meta (py "hw_20231554.pdf") !! "class_time" = Some (py "hw_20231554") /\
  parse_filename_meta (py "hw_20231554.pdf") !! "name" = Some [] /\
  parse_filename_meta (py "hw_20231554.pdf") !! "student_id" = Some (py "20231554").
Proof. vm_compute. done. Qed.

(** ** Record Store *)

Section TableFacts.

Lemma last_match_Some sid rs i :
  last_match sid rs = Some i ->
  exists r, rs !! i = Some r /\ sid_of r = sid /\
    forall j r', (i < j)%nat -> rs !! j = Some r' -> sid_of r' <> sid.
Proof.
  revert i. induction rs as [|r rest IH]; intros i; simpl; [done|].
  destruct (last_match sid rest) as [k|] eqn:Hk.
  - intros [= <-]. destruct (IH k eq_refl) as (r0 & Hr0 & Hs & Hafter).
    exists r0. repeat split; [done..|].
    intros [|j] r' Hj; [lia|]. simpl. apply Hafter. lia.
  - case_bool_decide as Hsid; [|done]. intros [= <-].
    exists r. repeat split; [done|].
    intros [|j] r' Hj; [lia|]. simpl. intros Hr' Heq.
    clear IH Hsid. revert j Hj Hr'. induction rest as [|x rest IHr]; intros j Hj Hr'.
    + done.
    + simpl in Hk. destruct (last_match sid rest) eqn:Hl; [done|].
      case_bool_decide as Hx; [done|].
      destruct j as [|j]; simpl in Hr'.
      * injection Hr' as ->. done.
      * destruct j as [|j]; [|apply (IHr eq_refl (S j)); [lia|done]].
        destruct rest; [done|]. simpl in Hr'. injection Hr' as ->.
        simpl in Hl. destruct (last_match sid rest); [done|].
        by case_bool_decide.
Qed.

Lemma last_match_None sid rs :
  last_match sid rs = None <-> sid ∉ sid_of <$> rs.
Proof.
  induction rs as [|r rest IH]; simpl.
  - split; [intros _; apply not_elem_of_nil | done].
  - rewrite not_elem_of_cons.
    destruct (last_match sid rest) as [k|].
    + split; [done|]. intros [_ Hn]. by apply IH in Hn.
    + case_bool_decide as Hsid.
      * split; [done|]. intros [Hne _]. by destruct Hne.
      * split; [|done]. intros _. split; [done|]. by apply IH.
Qed.

(** The search looks at the ids only. *)
Lemma last_match_ids sid rs rs' :
  sid_of <$> rs = sid_of <$> rs' -> last_match sid rs = last_match sid rs'.
Proof.
  revert rs'. induction rs as [|r rest IH]; intros [|r' rest']; simpl; try done.
  intros [= Hr Hrest]. rewrite (IH rest' Hrest).
  unfold sid_of in Hr. by rewrite Hr.
Qed.

Lemma last_match_snoc sid rs r :
  sid_of r = sid -> last_match sid (rs ++ [r]) = Some (length rs).
Proof.
  intros Hr. induction rs as [|x rest IH]; simpl.
  - unfold sid_of in Hr. by rewrite bool_decide_eq_true_2.
  - by rewrite IH.
Qed.

Lemma foldl_set_at_rows (l : list (string * pyval)) df i :
  rows (foldl (fun d kv => set_at d i kv.1 kv.2) df l)
  = alter (fun r => foldl (fun m kv => <[kv.1 := kv.2]> m) r l) i (rows df).
Proof.
  revert df. induction l as [|[k v] l IH]; intros df; simpl.
  - symmetry. apply list_alter_id. done.
  - rewrite IH. simpl. by rewrite list_alter_alter_eq.
Qed.

Lemma foldl_set_at_columns (l : list (string * pyval)) df i :
  columns (foldl (fun d kv => set_at d i kv.1 kv.2) df l)
  = foldl (fun cols kv => add_label kv.1 cols) (columns df) l.
Proof. revert df. induction l as [|[k v] l IH]; intros df; simpl; [done|]. by rewrite IH. Qed.

Lemma foldl_insert_union (l : list (string * pyval)) (m : gmap string pyval) :
  NoDup l.*1 ->
  foldl (fun m kv => <[kv.1 := kv.2]> m) m l = list_to_map l ∪ m.
Proof.
  revert m. induction l as [|[k v] l IH]; intros m Hnd; simpl.
  - by rewrite (left_id_L ∅ (∪)).
  - inversion Hnd as [|? ? Hk Hl]; subst. rewrite IH by done.
    rewrite <- insert_union_l. symmetry. apply insert_union_r.
    by apply not_elem_of_list_to_map_1.
Qed.

Lemma items_NoDup record : NoDup (items record).*1.
Proof. apply (bool_decide_unpack _). by vm_compute. Qed.

Lemma set_at_items_overwrite record (row : gmap string pyval) :
  foldl (fun m kv => <[kv.1 := kv.2]> m) row (items record) = overwrite record row.
Proof. apply foldl_insert_union, items_NoDup. Qed.

(** The columns after a save: the labels of the record are added where
    they were absent, whichever branch is taken. *)
Lemma upsert_columns df record :
  columns (upsert df record)
  = foldl (fun cols kv => add_label kv.1 cols) (columns df) (items record).
Proof.
  unfold upsert. case_bool_decide; [|done].
  destruct (last_match _ _); [|done]. apply foldl_set_at_columns.
Qed.

Lemma upsert_rows df record :
  rows (upsert df record)
  = if bool_decide (student_id record <> []) then
      match last_match (student_id record) (rows df) with
      | Some i => alter (overwrite record) i (rows df)
      | None => rows df ++ [list_to_map (items record)]
      end
    else rows df ++ [list_to_map (items record)].
Proof.
  unfold upsert. case_bool_decide; [|done].
  destruct (last_match _ _); [|done].
  rewrite foldl_set_at_rows. apply list_alter_ext; [|done..].
  intros. apply set_at_items_overwrite.
Qed.

Lemma sid_of_record record : sid_of (list_to_map (items record)) = student_id record.
Proof. unfold sid_of. simpl. by simplify_map_eq. Qed.

Lemma sid_of_overwrite record row : sid_of (overwrite record row) = student_id record.
Proof.
  assert (H : (list_to_map (items record) : gmap string pyval) !! "student_id"
              = Some (PStr (student_id record))) by (simpl; by simplify_map_eq).
  unfold sid_of, overwrite. by rewrite (lookup_union_Some_l _ row _ _ H).
Qed.

Lemma overwrite_idemp record row :
  overwrite record (overwrite record row) = overwrite record row.
Proof. unfold overwrite. by rewrite (assoc_L (∪)), (idemp_L (∪)). Qed.

Lemma overwrite_record record :
  overwrite record (list_to_map (items record)) = list_to_map (items record).
Proof. unfold overwrite. by rewrite (idemp_L (∪)). Qed.

End TableFacts.

Section UpsertFacts.

Lemma DataFrame_eq (a b : DataFrame) :
  columns a = columns b -> rows a = rows b -> a = b.
Proof. destruct a, b. simpl. by intros -> ->. Qed.

Lemma alter_lookup_insert {A} (f : A -> A) (l : list A) i x :
  l !! i = Some x -> alter f i l = <[i := f x]> l.
Proof.
  intros Hx. apply list_eq. intros j.
  destruct (decide (i = j)) as [<-|Hne].
  - rewrite list_lookup_alter_eq, Hx, list_lookup_insert_eq; [done|].
    by eapply lookup_lt_Some.
  - by rewrite list_lookup_alter_ne, list_lookup_insert_ne.
Qed.

(** The last matching row is the one that matches and has no match below. *)
Lemma last_match_intro sid rs i r :
  rs !! i = Some r -> sid_of r = sid ->
  (forall j r', (i < j)%nat -> rs !! j = Some r' -> sid_of r' <> sid) ->
  last_match sid rs = Some i.
Proof.
  intros Hi Hr Hafter.
  destruct (last_match sid rs) as [k|] eqn:Hk.
  - destruct (last_match_Some _ _ _ Hk) as (rk & Hrk & Hsk & Hk_after).
    destruct (Nat.lt_trichotomy i k) as [Hlt|[->|Hgt]]; [|done|].
    + by destruct (Hafter k rk Hlt Hrk).
    + by destruct (Hk_after i r Hgt Hi).
  - apply last_match_None in Hk. destruct Hk.
    apply list_elem_of_fmap. exists r. split; [done|].
    by eapply list_elem_of_lookup_2.
Qed.

Lemma ids_alter_overwrite df record i :
  last_match (student_id record) (rows df) = Some i ->
  sid_of <$> alter (overwrite record) i (rows df) = sid_of <$> rows df.
Proof.
  intros Hi. destruct (last_match_Some _ _ _ Hi) as (r & Hr & Hs & _).
  apply list_eq. intros j. rewrite !list_lookup_fmap.
  destruct (decide (i = j)) as [<-|Hne].
  - rewrite list_lookup_alter_eq, Hr. simpl. by rewrite sid_of_overwrite, Hs.
  - by rewrite list_lookup_alter_ne.
Qed.

(** What a save does to the list of ids: nothing when a row is
    overwritten, one more id at the end otherwise. *)
Lemma ids_upsert df record :
  ids (upsert df record)
  = if bool_decide (student_id record <> []) then
      match last_match (student_id record) (rows df) with
      | Some _ => ids df
      | None => ids df ++ [student_id record]
      end
    else ids df ++ [student_id record].
Proof.
  unfold ids. rewrite upsert_rows.
  case_bool_decide.
  - destruct (last_match _ _) eqn:Hm.
    + by apply ids_alter_overwrite.
    + by rewrite fmap_app, <- (sid_of_record record).
  - by rewrite fmap_app, <- (sid_of_record record).
Qed.

Lemma unique_ids_snoc df df' s :
  ids df' = ids df ++ [s] -> (s = [] \/ s ∉ ids df) ->
  unique_ids df -> unique_ids df'.
Proof.
  intros Hids Hs Hu i j t Hi Hj Ht. rewrite Hids in Hi, Hj.
  apply lookup_snoc_Some in Hi as [[Hil Hi]|[Hil <-]];
    apply lookup_snoc_Some in Hj as [[Hjl Hj]|[Hjl Hjt]].
  - by apply (Hu i j t).
  - subst t. destruct Hs as [->|Hs]; [done|].
    destruct Hs. by eapply list_elem_of_lookup_2.
  - destruct Hs as [->|Hs]; [done|].
    destruct Hs. by eapply list_elem_of_lookup_2.
  - lia.
Qed.

Lemma upsert_unique_ids df record :
  unique_ids df -> unique_ids (upsert df record).
Proof.
  intros Hu. pose proof (ids_upsert df record) as Hids.
  case_bool_decide as Hsid.
  - destruct (last_match _ _) eqn:Hm.
    + unfold unique_ids. by rewrite Hids.
    + apply (unique_ids_snoc df _ _ Hids); [|done].
      right. by apply last_match_None.
  - apply (unique_ids_snoc df _ _ Hids); [|done].
    left. destruct (decide (student_id record = [])); [done|]. by destruct Hsid.
Qed.

Lemma add_label_mono k x cols : x ∈ cols -> x ∈ add_label k cols.
Proof. unfold add_label. case_bool_decide; set_solver. Qed.

Lemma add_label_elem k cols : k ∈ add_label k cols.
Proof. unfold add_label. case_bool_decide; set_solver. Qed.

Lemma foldl_add_label_mono (l : list (string * pyval)) cols x :
  x ∈ cols -> x ∈ foldl (fun cols kv => add_label kv.1 cols) cols l.
Proof.
  revert cols. induction l as [|kv l IH]; intros cols Hx; simpl; [done|].
  by apply IH, add_label_mono.
Qed.

Lemma foldl_add_label_elem (l : list (string * pyval)) cols k :
  k ∈ l.*1 -> k ∈ foldl (fun cols kv => add_label kv.1 cols) cols l.
Proof.
  revert cols. induction l as [|kv l IH]; intros cols; simpl.
  - by intros ?%elem_of_nil.
  - intros [->|Hk]%elem_of_cons; [|by apply IH].
    apply foldl_add_label_mono, add_label_elem.
Qed.

Lemma foldl_add_label_id (l : list (string * pyval)) cols :
  (forall k, k ∈ l.*1 -> k ∈ cols) ->
  foldl (fun cols kv => add_label kv.1 cols) cols l = cols.
Proof.
  induction l as [|kv l IH]; intros Hin; simpl; [done|].
  unfold add_label. rewrite bool_decide_eq_true_2 by (apply Hin, elem_of_cons; by left).
  apply IH. intros k Hk. apply Hin, elem_of_cons. by right.
Qed.

(** C2 (amended): for every record with a non-empty student id, saving it
    twice in a row gives the same table as saving it once. *)
Theorem upsert_twice (df : DataFrame) (record : GradeRecord) :
  student_id record <> [] ->
  upsert (upsert df record) record = upsert df record.
Proof.
  intros Hsid. apply DataFrame_eq.
  - rewrite !upsert_columns. apply foldl_add_label_id.
    intros k Hk. by apply foldl_add_label_elem.
  - rewrite (upsert_rows (upsert df record)), bool_decide_eq_true_2 by done.
    rewrite (upsert_rows df), bool_decide_eq_true_2 by done.
    destruct (last_match (student_id record) (rows df)) as [i|] eqn:Hm.
    + rewrite (last_match_ids _ _ (rows df)) by (by apply ids_alter_overwrite).
      rewrite Hm, list_alter_alter_eq.
      apply list_alter_ext; [|done]. intros x _. apply overwrite_idemp.
    + rewrite last_match_snoc by apply sid_of_record.
      rewrite alter_app_r_alt by lia. rewrite Nat.sub_diag. simpl.
      by rewrite overwrite_record.
Qed.

End UpsertFacts.

(** *** The store on sample records *)

Lemma unique_ids_empty_table : unique_ids empty_table.
Proof. intros i j s Hi. by destruct i. Qed.

Lemma session_table_unique df : session_table df -> unique_ids df.
Proof.
  intros [records ->].
  assert (H : forall d, unique_ids d -> unique_ids (foldl upsert d records)).
  { induction records as [|r rs IH]; intros d Hd; simpl; [done|].
    by apply IH, upsert_unique_ids. }
  apply H, unique_ids_empty_table.
Qed.

Lemma session_table_upsert df record :
  session_table df -> session_table (upsert df record).
Proof. intros [records ->]. exists (records ++ [record]). by rewrite foldl_app. Qed.

(** X24: in a session that began without a grade file the table never
    has two rows with the same non-empty student id, and stays such a
    table with every save; a save whose non-empty id is already there
    overwrites the fields of the row with that id in place, all other rows
    and the order staying as they are; a record with an empty id is
    appended as a new row. *)
Theorem session_one_row_per_id (df : DataFrame) :
  session_table df ->
  unique_ids df /\
  (forall record, session_table (upsert df record)) /\
  (forall record i row,
      student_id record <> [] ->
      rows df !! i = Some row -> sid_of row = student_id record ->
      rows (upsert df record) = <[i := overwrite record row]> (rows df)) /\
  (forall record,
      student_id record = [] ->
      rows (upsert df record) = rows df ++ [list_to_map (items record)]).
Proof.
  intros Hs. pose proof (session_table_unique _ Hs) as Hu.
  split; [done|]. split; [intros; by apply session_table_upsert|]. split.
  - intros record i row Hsid Hrow Hmatch.
    rewrite upsert_rows, bool_decide_eq_true_2 by done.
    rewrite (last_match_intro _ _ i row Hrow Hmatch).
    + by apply alter_lookup_insert.
    + intros j r' Hlt Hj Heq.
      assert (Hij : i = j); [|lia].
      apply (Hu i j (student_id record)); [| |done]; unfold ids.
      * rewrite list_lookup_fmap, Hrow. simpl. by rewrite Hmatch.
      * rewrite list_lookup_fmap, Hj. simpl. by rewrite Heq.
  - intros record Hsid.
    rewrite upsert_rows, bool_decide_eq_false_2; [done|].
    intros Hne. by apply Hne.
Qed.

Lemma session_one_row_per_id_witness :
  unique_ids (foldl upsert empty_table [alice; bob]) /\
  rows (upsert (foldl upsert empty_table [alice; bob]) alice_again)
    = <[0%nat := overwrite alice_again (list_to_map (items alice))]>
        (rows (foldl upsert empty_table [alice; bob])) /\
  rows (upsert (foldl upsert empty_table [alice; bob]) anonymous)
    = rows (foldl upsert empty_table [alice; bob]) ++ [list_to_map (items anonymous)].
Proof.
  destruct (session_one_row_per_id (foldl upsert empty_table [alice; bob]))
    as (Hu & _ & Hover & Happ).
  - by exists [alice; bob].
  - split; [exact Hu|]. split.
    + apply (Hover alice_again 0%nat (list_to_map (items alice)));
        [discriminate|reflexivity|reflexivity].
    + apply Happ. reflexivity.
Defined.

(** A record without student id, saved twice, is in the table twice. *)
Lemma upsert_twice_empty_id_counterexample :
  upsert (upsert empty_table anonymous) anonymous <> upsert empty_table anonymous /\
  length (rows (upsert (upsert empty_table anonymous) anonymous)) = 2%nat /\
  length (rows (upsert empty_table anonymous)) = 1%nat.
Proof.
  split; [|split; reflexivity].
  intros H. apply (f_equal (fun d => length (rows d))) in H. discriminate.
Qed.

Lemma upsert_twice_witness :
  upsert (upsert (upsert empty_table bob) alice) alice
  = upsert (upsert empty_table bob) alice.
Proof. apply upsert_twice. discriminate. Defined.

(** ** Saving *)

Section SaveFacts.
Context `{U : Unicode}.

Lemma clamp_int_range s v : clamp_int s 0 50 None = Some v -> 0 <= v <= 50.
Proof.
  unfold clamp_int. destruct (py_int (strip s)) as [n|]; [|done].
  destruct (n <? 0) eqn:E1; [intros [= <-]; lia|].
  destruct (n >? 50) eqn:E2; intros [= <-]; lia.
Qed.

Lemma clamp_int_None s : clamp_int s 0 50 None = None <-> py_int (strip s) = None.
Proof.
  unfold clamp_int. destruct (py_int (strip s)) as [n|]; [|done].
  destruct (n <? 0); [done|]. destruct (n >? 50); done.
Qed.

(** The saved record is in the table afterwards: some row carries all its
    fields. *)
Lemma upsert_stored df record :
  exists i row,
    rows (upsert df record) !! i = Some row /\
    forall k v, (list_to_map (items record) : gmap string pyval) !! k = Some v ->
                row !! k = Some v.
Proof.
  rewrite upsert_rows.
  assert (Happ : exists i row,
    (rows df ++ [list_to_map (items record)]) !! i = Some row /\
    forall k v, (list_to_map (items record) : gmap string pyval) !! k = Some v ->
                row !! k = Some v).
  { exists (length (rows df)), (list_to_map (items record)).
    split; [|done]. by rewrite lookup_app_r, Nat.sub_diag. }
  case_bool_decide; [|done].
  destruct (last_match _ _) as [i|] eqn:Hm; [|done].
  destruct (last_match_Some _ _ _ Hm) as (r & Hr & _).
  exists i, (overwrite record r). split.
  - by rewrite list_lookup_alter_eq, Hr.
  - intros k v Hk. by apply lookup_union_Some_l.
Qed.

(** C4: when neither entry holds an integer, [save_current] returns
    [False] after the warning box; the table is the one it was and nothing
    is handed to [to_csv]. *)
Theorem save_current_both_absent (st : App) :
  py_int (strip (entry_q1 st)) = None ->
  py_int (strip (entry_q2 st)) = None ->
  (save_current st).1 = false /\
  dialogs (save_current st).2 = dialogs st ++ [WarnNoScore] /\
  df (save_current st).2 = df st /\
  csv_writes (save_current st).2 = csv_writes st.
Proof.
  intros H1 H2. unfold save_current, _compute_total.
  apply clamp_int_None in H1, H2. by rewrite H1, H2.
Qed.

(** C7: after a successful save, the row of the record holds the two
    scores read from the entries, each absent (an empty cell) or between 0
    and 50, and their sum with an absent score counted as 0; the same table
    is what was written to the file. *)
Theorem save_current_total (st : App) :
  (save_current st).1 = true ->
  exists (q1 q2 : option Z) (i : nat) (row : gmap string pyval),
    q1 = clamp_int (entry_q1 st) 0 50 None /\
    q2 = clamp_int (entry_q2 st) 0 50 None /\
    (forall v, q1 = Some v -> 0 <= v <= 50) /\
    (forall v, q2 = Some v -> 0 <= v <= 50) /\
    rows (df (save_current st).2) !! i = Some row /\
    row !! "q1_score" = Some (score_cell q1) /\
    row !! "q2_score" = Some (score_cell q2) /\
    row !! "total_score" = Some (PInt (default 0 q1 + default 0 q2)) /\
    row !! "student_id" = Some (PStr (strip (var_student_id st))) /\
    row !! "file" = Some (PStr (var_file st)) /\
    last (csv_writes (save_current st).2) = Some (df (save_current st).2).
Proof.
  intros Hok.
  exists (clamp_int (entry_q1 st) 0 50 None), (clamp_int (entry_q2 st) 0 50 None).
  unfold save_current, _compute_total in *.
  set (q1 := clamp_int (entry_q1 st) 0 50 None) in *.
  set (q2 := clamp_int (entry_q2 st) 0 50 None) in *.
  pose proof (clamp_int_range (entry_q1 st)) as Hq1.
  pose proof (clamp_int_range (entry_q2 st)) as Hq2.
  fold q1 in Hq1. fold q2 in Hq2.
  set (record := {| class_time := var_class_time st; name := var_name st;
                    student_id := strip (var_student_id st);
                    q1_score := q1; q2_score := q2;
                    total_score := default 0 q1 + default 0 q2;
                    comment := strip (text_comment st ++ [10%N]);
                    file := var_file st |}).
  destruct (upsert_stored (df st) record) as (i & row & Hrow & Hfields).
  exists i, row.
  assert (Hsaved :
    rows (upsert (df st) record) !! i = Some row /\
    row !! "q1_score" = Some (score_cell q1) /\
    row !! "q2_score" = Some (score_cell q2) /\
    row !! "total_score" = Some (PInt (default 0 q1 + default 0 q2)) /\
    row !! "student_id" = Some (PStr (strip (var_student_id st))) /\
    row !! "file" = Some (PStr (var_file st)) /\
    last (csv_writes st ++ [upsert (df st) record]) = Some (upsert (df st) record)).
  { split; [done|].
    repeat split; try (apply Hfields; simpl; by simplify_map_eq).
    apply last_snoc. }
  destruct q1 as [v1|], q2 as [v2|]; simpl in *; try done;
    (split; [done|]); (split; [done|]); (split; [done|]); (split; [done|]);
    exact Hsaved.
Qed.

End SaveFacts.

Lemma save_current_both_absent_witness :
  (save_current (sample_app [] (py "abc"))).1 = false /\
  dialogs (save_current (sample_app [] (py "abc"))).2 = [WarnNoScore] /\
  df (save_current (sample_app [] (py "abc"))).2 = empty_table /\
  csv_writes (save_current (sample_app [] (py "abc"))).2 = [].
Proof.
  apply (save_current_both_absent (sample_app [] (py "abc"))); reflexivity.
Defined.

(** The example of the specification: q1 = 30 and q2 absent give 30. *)
Lemma save_current_total_witness :
  exists (q1 q2 : option Z) (i : nat) (row : gmap string pyval),
    q1 = Some 30 /\
    q2 = None /\
    (forall v, q1 = Some v -> 0 <= v <= 50) /\
    (forall v, q2 = Some v -> 0 <= v <= 50) /\
    rows (df (save_current (sample_app (py "30") [])).2) !! i = Some row /\
    row !! "q1_score" = Some (score_cell q1) /\
    row !! "q2_score" = Some (score_cell q2) /\
    row !! "total_score" = Some (PInt (default 0 q1 + default 0 q2)) /\
    row !! "student_id" = Some (PStr (py "2023151554")) /\
    row !! "file" = Some (PStr (py "AM1-2-Alice-2023151554.pdf")) /\
    last (csv_writes (save_current (sample_app (py "30") [])).2)
      = Some (df (save_current (sample_app (py "30") [])).2).
Proof.
  exact (save_current_total (sample_app (py "30") []) eq_refl).
Defined.

(** ** Score State Machine *)

Section QuickFacts.
Context `{U : Unicode}.

Lemma commit_value_range buffer : 0 <= commit_value buffer <= 50.
Proof. unfold commit_value. lia. Qed.

Lemma commit_value_empty : commit_value [] = 0.
Proof. done. Qed.

Lemma commit_value_int buffer n :
  strip buffer <> [] -> py_int buffer = Some n ->
  commit_value buffer = Z.max 0 (Z.min 50 n).
Proof.
  intros Hs Hn. unfold commit_value.
  by rewrite bool_decide_eq_false_2, Hn.
Qed.

Lemma commit_stage1 st :
  _quick_stage st = 1 ->
  _commit_quick_buffer st
  = with_inputs st (str_of_int (commit_value (_quick_buffer st)))
      (entry_q2 st) (text_comment st).
Proof. intros Hs. unfold _commit_quick_buffer, set_entry. by rewrite Hs. Qed.

Lemma commit_stage2 st :
  _quick_stage st = 2 ->
  _commit_quick_buffer st
  = with_inputs st (entry_q1 st)
      (str_of_int (commit_value (_quick_buffer st))) (text_comment st).
Proof. intros Hs. unfold _commit_quick_buffer, set_entry. by rewrite Hs. Qed.

(** X25: outside the comment box, Enter in stage 1 puts the committed
    value (0 for an empty buffer, always within 0..50) in the q1 entry,
    empties the buffer and moves to stage 2; in stage 2 it does the same
    with the q2 entry and moves to stage 3; neither touches the other
    entry, the table or the file. *)
Theorem on_enter_commits (st : App) :
  focus_in_comment st = false ->
  (_quick_stage st = 1 ->
     entry_q1 (_on_enter st) = str_of_int (commit_value (_quick_buffer st)) /\
     entry_q2 (_on_enter st) = entry_q2 st /\
     _quick_buffer (_on_enter st) = [] /\
     _quick_stage (_on_enter st) = 2 /\
     df (_on_enter st) = df st /\
     csv_writes (_on_enter st) = csv_writes st) /\
  (_quick_stage st = 2 ->
     entry_q2 (_on_enter st) = str_of_int (commit_value (_quick_buffer st)) /\
     entry_q1 (_on_enter st) = entry_q1 st /\
     _quick_buffer (_on_enter st) = [] /\
     _quick_stage (_on_enter st) = 3 /\
     df (_on_enter st) = df st /\
     csv_writes (_on_enter st) = csv_writes st) /\
  0 <= commit_value (_quick_buffer st) <= 50 /\
  commit_value [] = 0.
Proof.
  intros Hfocus. unfold _on_enter. rewrite Hfocus.
  split; [|split; [|split]].
  - intros Hs. rewrite Hs. simpl. by rewrite commit_stage1.
  - intros Hs. rewrite Hs. simpl. by rewrite commit_stage2.
  - apply commit_value_range.
  - apply commit_value_empty.
Qed.

End QuickFacts.

Lemma on_enter_commits_witness :
  (entry_q1 (_on_enter (sample_quick 1 (py "30") (py "30") [])) = py "30" /\
   _quick_stage (_on_enter (sample_quick 1 (py "30") (py "30") [])) = 2) /\
  (entry_q2 (_on_enter (sample_quick 2 (py "99") (py "30") (py "50"))) = py "50" /\
   _quick_stage (_on_enter (sample_quick 2 (py "99") (py "30") (py "50"))) = 3).
Proof.
  split.
  - destruct (on_enter_commits (sample_quick 1 (py "30") (py "30") []) eq_refl)
      as (H1 & _). destruct (H1 eq_refl) as (Hq & _ & _ & Hs & _).
    split; [exact Hq | exact Hs].
  - destruct (on_enter_commits (sample_quick 2 (py "99") (py "30") (py "50")) eq_refl)
      as (_ & H2 & _). destruct (H2 eq_refl) as (Hq & _ & _ & Hs & _).
    split; [exact Hq | exact Hs].
Defined.

Example quick_entry_session :
  rows (df session_end) = [list_to_map (items
     {| class_time := py "AM1-2"; name := py "Alice";
        student_id := py "2023151554";
        q1_score := Some 30; q2_score := Some 7; total_score := 37;
        comment := []; file := py "AM1-2-Alice-2023151554.pdf" |})] /\
  csv_writes session_end = [df session_end] /\
  idx session_end = 1 /\ var_name session_end = py "Bob" /\
  _quick_stage session_end = 1 /\ _quick_buffer session_end = [].
Proof.
  refine (conj _ (conj _ (conj _ (conj _ (conj _ _)))));
    vm_compute; reflexivity.
Qed.

Section BufferFacts.
Context `{U : Unicode}.

Lemma c_digit_range c d : c_digit c = Some d -> 0 <= d <= 9.
Proof.
  unfold c_digit.
  destruct (48 <=? c)%N eqn:H1; destruct (c <=? 57)%N eqn:H2; simpl; try done.
  intros [= <-]. apply N.leb_le in H1, H2. lia.
Qed.

(** A run of digits of length [k] spells a number below [10 ^ k]. *)
Lemma digits_acc_bound s : forall acc b m,
  0 <= acc -> digits_acc acc b s = Some m ->
  0 <= m < (acc + 1) * 10 ^ Z.of_nat (length s).
Proof.
  induction s as [|c r IH]; intros acc b m Hacc; simpl digits_acc.
  - destruct b; [done|]. intros [= <-]. simpl. lia.
  - assert (Hpow : 10 ^ Z.of_nat (length (c :: r)) = 10 * 10 ^ Z.of_nat (length r)).
    { simpl length. rewrite Nat2Z.inj_succ, Z.pow_succ_r; lia. }
    assert (Hpos : 0 < 10 ^ Z.of_nat (length r)) by (apply Z.pow_pos_nonneg; lia).
    rewrite Hpow.
    destruct (c =? 95)%N.
    + destruct b; [done|]. intros Hm. apply IH in Hm; [|done]. nia.
    + destruct (c_digit c) as [d|] eqn:Hd; [|done].
      apply c_digit_range in Hd. intros Hm. apply IH in Hm; [|lia]. nia.
Qed.

Lemma length_drop_while p s : (length (drop_while p s) <= length s)%nat.
Proof. induction s as [|c r IH]; simpl; [lia|]. destruct (p c); simpl; lia. Qed.

Lemma length_rdrop_while p s : (length (rdrop_while p s) <= length s)%nat.
Proof.
  unfold rdrop_while. rewrite length_reverse.
  etrans; [apply length_drop_while|]. by rewrite length_reverse.
Qed.

Lemma long_from_ascii_bound s n :
  long_from_ascii s = Some n ->
  - 10 ^ Z.of_nat (length s) < n < 10 ^ Z.of_nat (length s).
Proof.
  unfold long_from_ascii.
  pose proof (length_drop_while c_isspace s) as H1.
  set (s1 := drop_while c_isspace s) in *.
  assert (Hsign : forall neg s2,
    (length s2 <= length s1)%nat ->
    match rdrop_while c_isspace s2 with
    | [] => None
    | c :: r =>
        if (c =? 95)%N then None
        else (fun n => if neg : bool then - n else n) <$> digits_acc 0 false (c :: r)
    end = Some n ->
    - 10 ^ Z.of_nat (length s) < n < 10 ^ Z.of_nat (length s)).
  { intros neg s2 H2. pose proof (length_rdrop_while c_isspace s2) as H3.
    destruct (rdrop_while c_isspace s2) as [|c r]; [done|].
    destruct (c =? 95)%N; [done|].
    destruct (digits_acc 0 false (c :: r)) as [m|] eqn:Hm; [|done].
    apply digits_acc_bound in Hm; [|lia].
    assert (10 ^ Z.of_nat (length (c :: r)) <= 10 ^ Z.of_nat (length s))
      by (apply Z.pow_le_mono_r; lia).
    simpl. intros [= <-]. destruct neg; lia. }
  destruct s1 as [|c r]; [by apply (Hsign false [])|].
  destruct (c =? 45)%N; [apply (Hsign true r); simpl; lia|].
  destruct (c =? 43)%N; [apply (Hsign false r); simpl; lia|].
  by apply (Hsign false (c :: r)).
Qed.

(** [int(s)] of a string of [k] characters is below [10 ^ k] in absolute
    value. *)
Lemma py_int_bound s n :
  py_int s = Some n -> - 10 ^ Z.of_nat (length s) < n < 10 ^ Z.of_nat (length s).
Proof.
  unfold py_int. intros H. apply long_from_ascii_bound in H.
  by rewrite length_fmap in H.
Qed.

End BufferFacts.

Section ReachFacts.
Context `{U : Unicode}.

Lemma buffer_set_entry st stage s :
  _quick_buffer (set_entry st stage s) = _quick_buffer st.
Proof. unfold set_entry. by destruct (stage =? 1). Qed.

Lemma stage_set_entry st stage s :
  _quick_stage (set_entry st stage s) = _quick_stage st.
Proof. unfold set_entry. by destruct (stage =? 1). Qed.

Lemma buffer_preview st stage :
  _quick_buffer (_preview_quick_value st stage) = _quick_buffer st.
Proof.
  unfold _preview_quick_value.
  destruct (negb _); [done|]. case_bool_decide; apply buffer_set_entry.
Qed.

Lemma buffer_save_current st :
  _quick_buffer (save_current st).2 = _quick_buffer st.
Proof.
  unfold save_current, _compute_total.
  by destruct (clamp_int (entry_q1 st) 0 50 None),
              (clamp_int (entry_q2 st) 0 50 None).
Qed.

Lemma buffer_load_pdf st i :
  _quick_buffer (_load_pdf st i) = _quick_buffer st \/
  _quick_buffer (_load_pdf st i) = [].
Proof. unfold _load_pdf. destruct (pdf_paths st); [by left | by right]. Qed.

Lemma buffer_save_and_next st :
  _quick_buffer (save_and_next st) = _quick_buffer st \/
  _quick_buffer (save_and_next st) = [].
Proof.
  unfold save_and_next. pose proof (buffer_save_current st) as Hs.
  destruct (save_current st) as [ok st']. simpl in Hs.
  destruct ok; simpl; [|by left].
  destruct (idx st' <? _); [|by left].
  destruct (buffer_load_pdf st' (idx st' + 1)) as [->| ->]; [by left | by right].
Qed.

Lemma buffer_export_excel st :
  _quick_buffer (export_excel st) = _quick_buffer st.
Proof.
  unfold export_excel. pose proof (buffer_save_current st) as Hs.
  destruct (export_gradebook _) as [d [wb|]]; simpl; exact Hs.
Qed.

(** The buffer after a key press: unchanged when the key is not taken,
    the character alone after two characters, appended otherwise. *)
Lemma buffer_on_keypress st ch :
  _quick_buffer (_on_keypress st ch) = _quick_buffer st \/
  (str_isdigit ch = true /\
   _quick_buffer (_on_keypress st ch)
   = if (2 <=? length (_quick_buffer st))%nat then ch else _quick_buffer st ++ ch).
Proof.
  unfold _on_keypress.
  destruct (focus_in_comment st); [by left|].
  destruct (negb _); [by left|].
  destruct (str_isdigit ch) eqn:Hd; [|left; by rewrite orb_true_r].
  case_bool_decide; [by left|]. simpl. right. split; [done|].
  by rewrite buffer_preview.
Qed.

Lemma buffer_on_backspace st :
  _quick_buffer (_on_backspace st) = _quick_buffer st \/
  _quick_buffer (_on_backspace st)
  = take (length (_quick_buffer st) - 1) (_quick_buffer st).
Proof.
  unfold _on_backspace.
  destruct (focus_in_comment st); [by left|].
  destruct (negb _); [by left|].
  right. by rewrite buffer_preview.
Qed.

Lemma buffer_on_enter st :
  _quick_buffer (_on_enter st) = _quick_buffer st \/ _quick_buffer (_on_enter st) = [].
Proof.
  unfold _on_enter.
  destruct (focus_in_comment st); [by left|].
  destruct (_quick_stage st =? 1); [by right|].
  destruct (_quick_stage st =? 2); by right.
Qed.

Lemma str_isdigit_Forall ch :
  str_isdigit ch = true -> Forall (fun c => isdigit c = true) ch.
Proof.
  unfold str_isdigit. destruct ch as [|c r]; [done|].
  intros H. apply Forall_forall. intros x Hx.
  rewrite forallb_forall in H. apply H. by apply list_elem_of_In.
Qed.

Lemma buffer_ok_nil : buffer_ok [].
Proof. split; [simpl; lia | constructor]. Qed.

Lemma handle_buffer_ok st e :
  keystroke e -> buffer_ok (_quick_buffer st) -> buffer_ok (_quick_buffer (handle st e)).
Proof.
  intros He [Hlen Hdig].
  assert (Hor : forall b, b = _quick_buffer st \/ b = [] -> buffer_ok b).
  { intros b [->| ->]; [done | apply buffer_ok_nil]. }
  destruct e as [ch| | | | | | | |]; unfold handle, keystroke in *.
  - destruct (buffer_on_keypress st ch) as [->|[Hd ->]]; [done|].
    apply str_isdigit_Forall in Hd.
    destruct (2 <=? length (_quick_buffer st))%nat eqn:E.
    + split; [lia | done].
    + apply Nat.leb_gt in E. split.
      * rewrite length_app. lia.
      * by apply Forall_app.
  - apply Hor, buffer_on_enter.
  - destruct (buffer_on_backspace st) as [->| ->]; [done|].
    split; [rewrite length_take; lia | by apply Forall_take].
  - unfold _on_escape. destruct (focus_in_comment st); [done | apply buffer_ok_nil].
  - unfold prev_pdf. destruct (0 <? idx st); [|done]. apply Hor, buffer_load_pdf.
  - unfold next_pdf. destruct (idx st <? _); [|done]. apply Hor, buffer_load_pdf.
  - by rewrite buffer_save_current.
  - apply Hor, buffer_save_and_next.
  - by rewrite buffer_export_excel.
Qed.

Lemma reachable_buffer_ok st : reachable st -> buffer_ok (_quick_buffer st).
Proof.
  induction 1 as [st Hst|st e _ IH He].
  - rewrite Hst. apply buffer_ok_nil.
  - by apply handle_buffer_ok.
Qed.

(** C9: a digit typed in stage 1 or 2 replaces a buffer of two characters
    and is appended to a shorter one; the buffer therefore never holds more
    than two digits, and the number it spells is below 100. *)
Theorem quick_buffer_two_digits :
  (forall st c,
      focus_in_comment st = false ->
      _quick_stage st = 1 \/ _quick_stage st = 2 ->
      isdigit c = true ->
      _quick_buffer (_on_keypress st [c])
      = if (2 <=? length (_quick_buffer st))%nat then [c]
        else _quick_buffer st ++ [c]) /\
  (forall st,
      reachable st ->
      (length (_quick_buffer st) <= 2)%nat /\
      Forall (fun c => isdigit c = true) (_quick_buffer st) /\
      forall n, py_int (_quick_buffer st) = Some n -> n < 100).
Proof.
  split.
  - intros st c Hfocus Hstage Hc. unfold _on_keypress. rewrite Hfocus.
    assert (Hs : negb ((_quick_stage st =? 1) || (_quick_stage st =? 2)) = false)
      by (destruct Hstage as [-> | ->]; done).
    rewrite Hs. simpl. rewrite Hc. simpl. by rewrite buffer_preview.
  - intros st Hst. destruct (reachable_buffer_ok st Hst) as [Hlen Hdig].
    repeat split; [done..|].
    intros n Hn. apply py_int_bound in Hn.
    assert (10 ^ Z.of_nat (length (_quick_buffer st)) <= 10 ^ 2)
      by (apply Z.pow_le_mono_r; lia).
    lia.
Qed.

End ReachFacts.

(** The example of the specification: "99" and then 5 give "5". *)
Lemma quick_buffer_two_digits_witness :
  _quick_buffer (_on_keypress (sample_quick 1 (py "99") (py "50") []) (py "5"))
    = py "5" /\
  _quick_buffer (_on_keypress (sample_quick 2 (py "4") (py "50") (py "4")) (py "2"))
    = py "42" /\
  (length (_quick_buffer
     (foldl handle (sample_app [] []) [Key (py "9"); Key (py "9"); Key (py "5")]))
   <= 2)%nat.
Proof.
  destruct quick_buffer_two_digits as [Hstep Hreach].
  split; [|split].
  - apply (Hstep (sample_quick 1 (py "99") (py "50") []) 53%N);
      [reflexivity | by left | reflexivity].
  - apply (Hstep (sample_quick 2 (py "4") (py "50") (py "4")) 50%N);
      [reflexivity | by right | reflexivity].
  - apply Hreach. cbn [foldl].
    repeat (apply reachable_handle; [|unfold keystroke; simpl length; lia]).
    by apply reachable_start.
Defined.

(** ** Gradebook Exporter *)

Section SortFacts.
Context {A : Type} (le : A -> A -> bool).
Hypothesis le_total : forall x y, le x y = true \/ le y x = true.
Hypothesis le_trans : forall x y z, le x y = true -> le y z = true -> le x z = true.

Lemma insert_sorted_Forall (P : A -> Prop) x l :
  P x -> Forall P l -> Forall P (insert_sorted le x l).
Proof.
  intros Hx Hl. induction Hl as [|y r Hy Hr IH]; simpl.
  - by repeat constructor.
  - destruct (le x y); by repeat constructor.
Qed.

Lemma sort_stable_Forall (P : A -> Prop) l :
  Forall P l -> Forall P (sort_stable le l).
Proof.
  induction 1 as [|x l Hx Hl IH]; simpl; [constructor|].
  by apply insert_sorted_Forall.
Qed.

Lemma insert_sorted_Permutation x l : insert_sorted le x l ≡ₚ x :: l.
Proof.
  induction l as [|y r IH]; simpl; [done|].
  destruct (le x y); [done|]. rewrite IH. apply Permutation_swap.
Qed.

(** The sorted list has the same rows, each as often as before. *)
Lemma sort_stable_Permutation l : sort_stable le l ≡ₚ l.
Proof.
  induction l as [|x l IH]; simpl; [done|].
  by rewrite insert_sorted_Permutation, IH.
Qed.

Lemma insert_sorted_StronglySorted x l :
  StronglySorted (fun a b => le a b = true) l ->
  StronglySorted (fun a b => le a b = true) (insert_sorted le x l).
Proof.
  induction 1 as [|y r Hr IH Hy]; simpl.
  - by repeat constructor.
  - destruct (le x y) eqn:E.
    + constructor; [by constructor|]. constructor; [done|].
      eapply Forall_impl; [exact Hy|]. intros z Hz. by eapply le_trans.
    + constructor; [done|]. apply insert_sorted_Forall; [|done].
      destruct (le_total x y); congruence.
Qed.

Lemma sort_stable_StronglySorted l :
  StronglySorted (fun a b => le a b = true) (sort_stable le l).
Proof.
  induction l as [|x l IH]; simpl; [constructor|].
  by apply insert_sorted_StronglySorted.
Qed.

End SortFacts.

Lemma StronglySorted_lookup {A} (R : A -> A -> Prop) l i j a b :
  StronglySorted R l -> (i < j)%nat -> l !! i = Some a -> l !! j = Some b -> R a b.
Proof.
  intros Hs. revert i j. induction Hs as [|x l Hl IH Hx]; intros i j Hij Hi Hj.
  - done.
  - destruct j as [|j]; [lia|]. destruct i as [|i]; simpl in *.
    + injection Hi as ->. rewrite Forall_forall in Hx. apply Hx.
      by eapply list_elem_of_lookup_2.
    + apply (IH i j); [lia|done..].
Qed.

Section OrderFacts.

Lemma str_le_total a b : str_le a b = true \/ str_le b a = true.
Proof.
  revert b. induction a as [|x a IH]; intros [|y b]; simpl; auto.
  destruct (x <? y)%N eqn:E1; [by left|].
  destruct (y <? x)%N eqn:E2; [by right|]. apply IH.
Qed.

Lemma str_le_trans a b c :
  str_le a b = true -> str_le b c = true -> str_le a c = true.
Proof.
  revert b c. induction a as [|x a IH]; intros [|y b] [|z c]; simpl; try done.
  destruct (x <? y)%N eqn:E1.
  - intros _. destruct (y <? z)%N eqn:E2.
    + intros _. apply N.ltb_lt in E1, E2.
      by rewrite (proj2 (N.ltb_lt x z)) by lia.
    + destruct (z <? y)%N eqn:E3; [done|]. intros _.
      apply N.ltb_lt in E1. apply N.ltb_ge in E2, E3.
      by rewrite (proj2 (N.ltb_lt x z)) by lia.
  - destruct (y <? x)%N eqn:E2; [done|]. intros Hab.
    apply N.ltb_ge in E1, E2. assert (x = y) as -> by lia.
    destruct (y <? z)%N; [done|]. destruct (z <? y)%N; [done|]. by apply IH.
Qed.

Lemma cell_le_total a b : cell_le a b = true \/ cell_le b a = true.
Proof.
  destruct a as [[x|x]|], b as [[y|y]|]; simpl; auto using str_le_total.
  destruct (Z.leb_spec x y); [by left|]. right. apply Z.leb_le. lia.
Qed.

Lemma cell_le_trans a b c :
  cell_le a b = true -> cell_le b c = true -> cell_le a c = true.
Proof.
  destruct a as [[x|x]|], b as [[y|y]|], c as [[z|z]|]; simpl; try done.
  - apply str_le_trans.
  - rewrite !Z.leb_le. lia.
Qed.

(** What [row_le] says: a smaller key, or the same key and a smaller id
    cell, or the same key, id cells of the same rank and the name not
    larger. *)
Lemma row_le_spec (a b : keyed) :
  row_le a b = true <->
  a.1 < b.1 \/
  (a.1 = b.1 /\
   (cell_le (b.2 !! "student_id") (a.2 !! "student_id") = false \/
    (cell_le (a.2 !! "student_id") (b.2 !! "student_id") = true /\
     cell_le (b.2 !! "student_id") (a.2 !! "student_id") = true /\
     cell_le (a.2 !! "name") (b.2 !! "name") = true))).
Proof.
  unfold row_le.
  destruct (Z.ltb_spec a.1 b.1); [split; [by left | done]|].
  destruct (Z.ltb_spec b.1 a.1).
  { split; [done|]. intros [?|[? _]]; lia. }
  destruct (cell_le (b.2 !! "student_id") (a.2 !! "student_id")) eqn:E1; simpl.
  - destruct (cell_le (a.2 !! "student_id") (b.2 !! "student_id")) eqn:E2; simpl.
    + split.
      * intros Hn. right. split; [lia|]. by right.
      * intros [?|[_ [?|(_ & _ & ?)]]]; [lia|done..].
    + split; [done|]. intros [?|[_ [?|(? & _)]]]; [lia|done..].
  - split; [|done]. intros _. right. split; [lia|]. by left.
Qed.

Lemma row_le_total a b : row_le a b = true \/ row_le b a = true.
Proof.
  rewrite !row_le_spec.
  destruct (Z.lt_trichotomy a.1 b.1) as [?|[Heq|?]]; [left; by left| |right; by left].
  destruct (cell_le (b.2 !! "student_id") (a.2 !! "student_id")) eqn:E1;
    [|left; right; split; [done|by left]].
  destruct (cell_le (a.2 !! "student_id") (b.2 !! "student_id")) eqn:E2;
    [|right; right; split; [done|by left]].
  destruct (cell_le_total (a.2 !! "name") (b.2 !! "name")).
  - left. right. split; [done|]. by right.
  - right. right. split; [done|]. by right.
Qed.

Lemma row_le_trans a b c :
  row_le a b = true -> row_le b c = true -> row_le a c = true.
Proof.
  rewrite !row_le_spec.
  intros [Hab|[Hab Hsab]] [Hbc|[Hbc Hsbc]]; [left; lia..|].
  right. split; [lia|].
  set (sa := a.2 !! "student_id") in *. set (sb := b.2 !! "student_id") in *.
  set (sc := c.2 !! "student_id") in *.
  destruct (cell_le sc sa) eqn:Hca; [|by left]. right.
  destruct Hsab as [Hba|(Hab1 & Hba1 & Hn1)].
  - destruct (cell_le_total sa sb) as [Hab1|?]; [|congruence].
    assert (cell_le sc sb = true) by (by eapply cell_le_trans).
    destruct Hsbc as [?|(Hbc1 & _ & _)]; [congruence|].
    assert (cell_le sb sa = true) by (by eapply cell_le_trans). congruence.
  - destruct Hsbc as [Hcb|(Hbc1 & Hcb1 & Hn2)].
    + assert (cell_le sc sb = true) by (by eapply cell_le_trans). congruence.
    + repeat split; [by eapply cell_le_trans | by eapply cell_le_trans].
Qed.

End OrderFacts.

Section SheetFacts.
Context `{U : Unicode}.

Lemma Forall2_zip_keys {A B} (P : A -> B -> Prop) (l : list A) (k : list B) :
  Forall2 P l k -> Forall (fun kr => P kr.2 kr.1) (zip k l).
Proof. induction 1; simpl; by constructor. Qed.

(** What a sheet is made of: the rows of its section, each with its key,
    in the order of [row_le], written out and styled. *)
Lemma build_sheet_inv df2 ct sheet :
  build_sheet df2 ct = Some sheet ->
  exists sorted : list keyed,
    label sheet = ct /\
    header sheet = export_cols /\
    body sheet = (fun kr => style_row (sheet_row kr.2)) <$> sorted /\
    StronglySorted (fun a b => row_le a b = true) sorted /\
    Forall (fun kr => sort_key_sid (kr.2 !! "student_id") = Some kr.1) sorted /\
    sorted.*2 ≡ₚ section_rows df2 ct.
Proof.
  unfold build_sheet.
  destruct (mapM _ (section_rows df2 ct)) as [keys|] eqn:Hkeys; [|done].
  simpl. intros [= <-]. apply mapM_Some_1 in Hkeys.
  exists (sort_stable row_le (zip keys (section_rows df2 ct))).
  repeat split.
  - simpl. by rewrite <- list_fmap_compose.
  - apply sort_stable_StronglySorted; [apply row_le_total | apply row_le_trans].
  - apply sort_stable_Forall.
    exact (Forall2_zip_keys
             (fun (r : gmap string pyval) k => sort_key_sid (r !! "student_id") = Some k)
             _ _ Hkeys).
  - rewrite sort_stable_Permutation. rewrite snd_zip; [done|].
    apply Forall2_length in Hkeys. lia.
Qed.

Lemma export_gradebook_table df : (export_gradebook df).1 = ensure_columns df.
Proof. reflexivity. Qed.

Lemma export_gradebook_sheets df :
  (export_gradebook df).2
  = match class_times (working_copy (ensure_columns df)) with
    | [] => None
    | _ => mapM (build_sheet (working_copy (ensure_columns df)))
             (class_times (working_copy (ensure_columns df)))
    end.
Proof. reflexivity. Qed.

Lemma export_gradebook_sheet df wb sheet :
  (export_gradebook df).2 = Some wb -> sheet ∈ wb ->
  exists ct, build_sheet (working_copy (ensure_columns df)) ct = Some sheet.
Proof.
  rewrite export_gradebook_sheets.
  destruct (class_times _) as [|ct0 cts] eqn:Hcts; [done|].
  intros Hwb Hin. apply mapM_Some_1 in Hwb.
  apply list_elem_of_lookup in Hin as [i Hi].
  destruct (Forall2_lookup_r _ _ _ _ _ Hwb Hi) as (ct & _ & Hct).
  by exists ct.
Qed.

(** The styled row, cell by cell. *)
Lemma style_sheet_row (r : gmap string pyval) :
  style_row (sheet_row r) =
  let alert :=
    if bool_decide (cell_text (r !! "name") = [])
       || bool_decide (cell_text (r !! "student_id") = [])
    then FILL_ALERT else no_fill in
  [ {| value := r !! "class_time"; fill := alert |};
    {| value := r !! "name"; fill := alert |};
    {| value := r !! "student_id"; fill := alert |};
    {| value := r !! "q1_score";
       fill := if bool_decide (cell_text (r !! "q1_score") = [])
               then FILL_MISSING else alert |};
    {| value := r !! "q2_score";
       fill := if bool_decide (cell_text (r !! "q2_score") = [])
               then FILL_MISSING else alert |};
    {| value := r !! "total_score"; fill := alert |};
    {| value := r !! "comment"; fill := alert |};
    {| value := r !! "file"; fill := alert |} ].
Proof.
  unfold style_row, sheet_row, export_cols, cols. simpl.
  destruct (bool_decide (cell_text (r !! "name") = []));
    destruct (bool_decide (cell_text (r !! "student_id") = []));
    destruct (bool_decide (cell_text (r !! "q1_score") = []));
    destruct (bool_decide (cell_text (r !! "q2_score") = [])); reflexivity.
Qed.

End SheetFacts.

(** *** The columns added to the table of the caller *)

Section EnsureFacts.

Lemma fill_absent_nil present r : fill_absent present [] r = r.
Proof. done. Qed.

Lemma fill_absent_cons present c l r :
  fill_absent present (c :: l) r
  = fill_absent present l
      (if bool_decide (c ∈ present) then r else <[c := PStr []]> r).
Proof. done. Qed.

Lemma fill_absent_lookup present l r k :
  fill_absent present l r !! k
  = if bool_decide (k ∈ l /\ k ∉ present) then Some (PStr []) else r !! k.
Proof.
  revert r. induction l as [|c l IH]; intros r.
  - rewrite fill_absent_nil, bool_decide_eq_false_2; [done|].
    intros [H _]. by apply elem_of_nil in H.
  - rewrite fill_absent_cons, IH.
    destruct (decide (k ∈ l /\ k ∉ present)) as [[Hl Hp]|Hn].
    + rewrite (bool_decide_eq_true_2 (k ∈ l /\ k ∉ present)) by done.
      rewrite (bool_decide_eq_true_2 (k ∈ c :: l /\ k ∉ present)); [done|].
      split; [by right|done].
    + rewrite (bool_decide_eq_false_2 _ Hn).
      destruct (decide (k = c)) as [->|Hkc].
      * destruct (decide (c ∈ present)) as [Hc|Hc].
        -- rewrite (bool_decide_eq_true_2 _ Hc).
           rewrite bool_decide_eq_false_2; [done|]. by intros [_ ?].
        -- rewrite (bool_decide_eq_false_2 _ Hc).
           rewrite bool_decide_eq_true_2 by (split; [by left|done]).
           by rewrite lookup_insert_eq.
      * rewrite (bool_decide_eq_false_2 (k ∈ c :: l /\ k ∉ present)).
        -- destruct (bool_decide (c ∈ present)); [done|]. by rewrite lookup_insert_ne.
        -- intros [Hin Hp]. apply elem_of_cons in Hin as [?|?]; [done|].
           by apply Hn.
Qed.

Lemma ensure_fold df (l : list string) : forall d,
  NoDup l ->
  (forall c, c ∈ l -> c ∈ columns d <-> c ∈ columns df) ->
  columns (foldl ensure_step d l)
    = columns d ++ filter (fun c => c ∉ columns df) l /\
  rows (foldl ensure_step d l) = fill_absent (columns df) l <$> rows d.
Proof.
  induction l as [|c l IH]; intros d Hnd Hcols; simpl.
  - rewrite app_nil_r. split; [done|]. by rewrite list_fmap_id.
  - inversion Hnd as [|? ? Hc Hl]; subst.
    assert (Hiff := Hcols c ltac:(by left)).
    unfold ensure_step at 2 4. case_bool_decide as Hin.
    + destruct (IH d Hl) as [IHc IHr].
      { intros c' Hc'. apply Hcols. by right. }
      rewrite IHc, IHr. split.
      * by rewrite filter_cons_False by (intros Hn; apply Hn; by apply Hiff).
      * apply list_fmap_ext. intros _ r _. unfold fill_absent. simpl.
        by rewrite bool_decide_eq_true_2 by (by apply Hiff).
    + destruct (IH (set_column d c (PStr [])) Hl) as [IHc IHr].
      { intros c' Hc'. simpl. unfold add_label.
        rewrite bool_decide_eq_false_2 by done.
        rewrite elem_of_app, list_elem_of_singleton.
        rewrite <- (Hcols c') by (by right).
        split; [|by left]. intros [?| ->]; [done|]. by destruct Hc. }
      rewrite IHc, IHr. simpl. unfold add_label at 1.
      rewrite bool_decide_eq_false_2 by done.
      assert (Hnot : c ∉ columns df) by (intros ?; by apply Hin, Hiff).
      split.
      * rewrite filter_cons_True by done. by rewrite <- app_assoc.
      * rewrite <- list_fmap_compose. apply list_fmap_ext. intros _ r _.
        unfold fill_absent. simpl. by rewrite bool_decide_eq_false_2.
Qed.

Lemma cols_NoDup : NoDup cols.
Proof. apply (bool_decide_unpack _). by vm_compute. Qed.

Lemma ensure_columns_spec df :
  columns (ensure_columns df)
    = columns df ++ filter (fun c => c ∉ columns df) cols /\
  rows (ensure_columns df) = fill_absent (columns df) cols <$> rows df.
Proof. apply (ensure_fold df cols df cols_NoDup). done. Qed.

Lemma ensure_columns_present df :
  (forall c, c ∈ cols -> c ∈ columns df) -> ensure_columns df = df.
Proof.
  unfold ensure_columns. generalize cols.
  induction l as [|c l IH]; intros Hall; simpl; [done|].
  rewrite bool_decide_eq_true_2 by (apply Hall; by left).
  apply IH. intros c' Hc'. apply Hall. by right.
Qed.

End EnsureFacts.

Section ExportTheorems.
Context `{U : Unicode}.

(** C10: [export_gradebook] changes the table it is given: each of the
    eight columns that is absent is added to it, after the columns it
    has, with an empty string in every row, and the working copy is taken
    from the table so changed; no other cell changes, and a table that has
    the eight columns is left as it is. *)
Theorem export_gradebook_adds_columns (df : DataFrame) :
  columns (export_gradebook df).1
    = columns df ++ filter (fun c => c ∉ columns df) cols /\
  length (rows (export_gradebook df).1) = length (rows df) /\
  (forall i row k,
      rows df !! i = Some row ->
      exists row',
        rows (export_gradebook df).1 !! i = Some row' /\
        row' !! k = if bool_decide (k ∈ cols /\ k ∉ columns df)
                    then Some (PStr []) else row !! k) /\
  (export_gradebook df).2
    = (match class_times (working_copy (export_gradebook df).1) with
       | [] => None
       | _ => mapM (build_sheet (working_copy (export_gradebook df).1))
                (class_times (working_copy (export_gradebook df).1))
       end) /\
  ((forall c, c ∈ cols -> c ∈ columns df) -> (export_gradebook df).1 = df).
Proof.
  rewrite export_gradebook_table.
  destruct (ensure_columns_spec df) as [Hc Hr].
  split; [done|]. split; [by rewrite Hr, length_fmap|].
  split; [|split].
  - intros i row k Hrow. exists (fill_absent (columns df) cols row). split.
    + by rewrite Hr, list_lookup_fmap, Hrow.
    + apply fill_absent_lookup.
  - apply export_gradebook_sheets.
  - apply ensure_columns_present.
Qed.

End ExportTheorems.

Lemma export_gradebook_adds_columns_witness :
  columns (export_gradebook two_column_table).1
    = ["student_id"; "name"; "class_time"; "q1_score"; "q2_score";
       "total_score"; "comment"; "file"] /\
  (exists row',
      rows (export_gradebook two_column_table).1 !! 0%nat = Some row' /\
      row' !! "comment" = Some (PStr [])) /\
  (export_gradebook (upsert empty_table alice)).1 = upsert empty_table alice.
Proof.
  split; [|split].
  - exact (proj1 (export_gradebook_adds_columns two_column_table)).
  - destruct (export_gradebook_adds_columns two_column_table)
      as (_ & _ & Hcell & _).
    destruct (Hcell 0%nat _ "comment" eq_refl) as (row' & Hrow & Hc).
    exists row'. split; [exact Hrow | exact Hc].
  - apply (export_gradebook_adds_columns (upsert empty_table alice)).
    intros c Hc. exact Hc.
Defined.

(** *** Highlights *)

Section HighlightFacts.
Context `{U : Unicode}.

Lemma export_row_inv df wb sheet row :
  (export_gradebook df).2 = Some wb -> sheet ∈ wb -> row ∈ body sheet ->
  header sheet = export_cols /\
  exists r : gmap string pyval, row = style_row (sheet_row r).
Proof.
  intros Hwb Hsheet Hrow.
  destruct (export_gradebook_sheet _ _ _ Hwb Hsheet) as [ct Hct].
  destruct (build_sheet_inv _ _ _ Hct) as (sorted & _ & Hh & Hb & _).
  split; [done|]. rewrite Hb in Hrow.
  apply list_elem_of_fmap in Hrow as (kr & -> & _). by exists kr.2.
Qed.

(** X23: in every exported sheet, with empty meaning what the styling
    tests, [str(value or "").strip() == ""] (the empty string, white space
    and the number 0, not a missing value): a data row whose name or
    student id is empty has the alert fill in every cell except an empty
    q1 or q2 cell; an empty q1 cell has the missing fill, and so has an
    empty q2 cell, whether or not the row is an alert row. *)
Theorem export_highlights df wb sheet row :
  (export_gradebook df).2 = Some wb -> sheet ∈ wb -> row ∈ body sheet ->
  header sheet = cols /\
  length row = 8%nat /\
  (cell_empty row 3 -> fill <$> row !! 3%nat = Some FILL_MISSING) /\
  (cell_empty row 4 -> fill <$> row !! 4%nat = Some FILL_MISSING) /\
  (cell_empty row 1 \/ cell_empty row 2 ->
   forall j c, row !! j = Some c ->
     fill c = FILL_ALERT \/
     (j = 3%nat /\ cell_empty row 3 /\ fill c = FILL_MISSING) \/
     (j = 4%nat /\ cell_empty row 4 /\ fill c = FILL_MISSING)).
Proof.
  intros Hwb Hsheet Hrow.
  destruct (export_row_inv _ _ _ _ Hwb Hsheet Hrow) as [Hh [r ->]].
  split; [done|]. rewrite style_sheet_row. unfold cell_empty, row_value.
  set (vn := r !! "name"). set (vs := r !! "student_id").
  set (v1 := r !! "q1_score"). set (v2 := r !! "q2_score").
  cbn [lookup list_lookup mbind option_bind value fmap option_fmap option_map
       fill length].
  split; [done|].
  split; [intros H3; by rewrite bool_decide_eq_true_2|].
  split; [intros H4; by rewrite bool_decide_eq_true_2|].
  intros Halert.
  assert (Ha : bool_decide (cell_text vn = []) || bool_decide (cell_text vs = [])
               = true).
  { destruct Halert as [H|H]; rewrite (bool_decide_eq_true_2 _ H);
      [done | apply orb_true_r]. }
  rewrite Ha.
  intros j c Hc.
  destruct j as [|[|[|[|[|[|[|[|j]]]]]]]]; cbn in Hc; [| | | | | | | |done];
    injection Hc as <-; cbn [fill]; try (by left).
  - destruct (bool_decide (cell_text v1 = [])) eqn:E; [|by left].
    apply bool_decide_eq_true in E. right. by left.
  - destruct (bool_decide (cell_text v2 = [])) eqn:E; [|by left].
    apply bool_decide_eq_true in E. right. by right.
Qed.

End HighlightFacts.

Lemma export_anonymous :
  (export_gradebook (upsert empty_table anonymous)).2 = Some [anonymous_sheet].
Proof. vm_compute. reflexivity. Qed.

Lemma export_highlights_witness :
  fill <$> anonymous_row !! 4%nat = Some FILL_MISSING /\
  (forall j c, anonymous_row !! j = Some c ->
     fill c = FILL_ALERT \/
     (j = 3%nat /\ cell_empty anonymous_row 3 /\ fill c = FILL_MISSING) \/
     (j = 4%nat /\ cell_empty anonymous_row 4 /\ fill c = FILL_MISSING)).
Proof.
  destruct (export_highlights (upsert empty_table anonymous)
              [anonymous_sheet] anonymous_sheet anonymous_row
              export_anonymous ltac:(by left) ltac:(by left))
    as (_ & _ & _ & H4 & Halert).
  split.
  - apply H4. reflexivity.
  - apply Halert. left. reflexivity.
Defined.

(** *** Order of the rows *)

Section OrderTheorems.
Context `{U : Unicode}.

Lemma row_value_styled_id (r : gmap string pyval) :
  row_value (style_row (sheet_row r)) 2 = r !! "student_id".
Proof. by rewrite style_sheet_row. Qed.

Lemma row_value_styled_name (r : gmap string pyval) :
  row_value (style_row (sheet_row r)) 1 = r !! "name".
Proof. by rewrite style_sheet_row. Qed.

Lemma sheet_key_cases row k :
  sheet_key row = Some k ->
  (numeric_id row = true /\ py_int (id_text row) = Some k) \/
  (numeric_id row = false /\ k = 10 ^ 18).
Proof.
  unfold sheet_key, sort_key_sid, numeric_id, id_text.
  destruct (str_isdigit _); [by left|]. intros [= <-]. by right.
Qed.

Lemma export_rows_code_order df wb sheet i j ri rj :
  (export_gradebook df).2 = Some wb -> sheet ∈ wb ->
  (i < j)%nat -> body sheet !! i = Some ri -> body sheet !! j = Some rj ->
  code_order ri rj.
Proof.
  intros Hwb Hsheet Hij Hi Hj.
  destruct (export_gradebook_sheet _ _ _ Hwb Hsheet) as [ct Hct].
  destruct (build_sheet_inv _ _ _ Hct) as (sorted & _ & _ & Hb & Hs & Hk & _).
  rewrite Hb in Hi, Hj.
  apply list_lookup_fmap_Some in Hi as (a & -> & Ha).
  apply list_lookup_fmap_Some in Hj as (b & -> & Hb').
  pose proof (StronglySorted_lookup _ _ _ _ _ _ Hs Hij Ha Hb') as Hle.
  apply row_le_spec in Hle.
  rewrite Forall_lookup in Hk.
  pose proof (Hk _ _ Ha) as Hka. pose proof (Hk _ _ Hb') as Hkb.
  simpl in Hka, Hkb.
  exists a.1, b.1. unfold sheet_key.
  rewrite !row_value_styled_id, !row_value_styled_name. done.
Qed.

(** C3 (amended): in every sheet of the export the data rows are in
    ascending order of the key, the integer value of a purely numeric id
    and 10^18 for any other id; rows with equal keys are ordered by the
    id cell and then by the name.  So numeric ids are in ascending order,
    and every numeric id below 10^18 comes before every non-numeric id. *)
Theorem export_rows_sorted df wb sheet :
  (export_gradebook df).2 = Some wb -> sheet ∈ wb ->
  (forall i j ri rj,
      (i < j)%nat -> body sheet !! i = Some ri -> body sheet !! j = Some rj ->
      code_order ri rj) /\
  (forall i j ri rj ni nj,
      (i < j)%nat -> body sheet !! i = Some ri -> body sheet !! j = Some rj ->
      numeric_id ri = true -> numeric_id rj = true ->
      py_int (id_text ri) = Some ni -> py_int (id_text rj) = Some nj ->
      ni <= nj) /\
  (forall i j ri rj ni,
      body sheet !! i = Some ri -> body sheet !! j = Some rj ->
      numeric_id ri = true -> py_int (id_text ri) = Some ni -> ni < 10 ^ 18 ->
      numeric_id rj = false ->
      (i < j)%nat).
Proof.
  intros Hwb Hsheet. split; [|split].
  - intros i j ri rj. by apply (export_rows_code_order df wb sheet).
  - intros i j ri rj ni nj Hij Hi Hj Hni Hnj Hvi Hvj.
    destruct (export_rows_code_order _ _ _ _ _ _ _ Hwb Hsheet Hij Hi Hj)
      as (ki & kj & Hki & Hkj & Hle).
    apply sheet_key_cases in Hki as [[_ Hki]|[? _]]; [|congruence].
    apply sheet_key_cases in Hkj as [[_ Hkj]|[? _]]; [|congruence].
    assert (ki = ni) by congruence. assert (kj = nj) by congruence. lia.
  - intros i j ri rj ni Hi Hj Hni Hvi Hlt Hnj.
    destruct (Nat.lt_trichotomy i j) as [?|[->|Hji]]; [done| |].
    + congruence.
    + destruct (export_rows_code_order _ _ _ _ _ _ _ Hwb Hsheet Hji Hj Hi)
        as (kj & ki & Hkj & Hki & Hle).
      apply sheet_key_cases in Hki as [[_ Hki]|[? _]]; [|congruence].
      apply sheet_key_cases in Hkj as [[? _]|[_ Hkj]]; [congruence|].
      assert (ki = ni) by congruence. lia.
Qed.

End OrderTheorems.

Lemma export_long_id : (export_gradebook long_id_table).2 = Some [long_id_sheet].
Proof. vm_compute. reflexivity. Qed.

Lemma export_same_key : (export_gradebook same_key_table).2 = Some [same_key_sheet].
Proof. vm_compute. reflexivity. Qed.

(** The non-numeric id [abc] is in the row above the numeric id
    2000000000000000000; and of two rows with the key 10^18 the one named
    [y] is above the one named [x]. *)
Lemma export_rows_sorted_counterexample :
  ((export_gradebook long_id_table).2 = Some [long_id_sheet] /\
   ~ spec_sorted long_id_sheet) /\
  ((export_gradebook same_key_table).2 = Some [same_key_sheet] /\
   ~ spec_sorted same_key_sheet).
Proof.
  split; (split; [first [exact export_long_id | exact export_same_key]|]).
  - intros H. specialize (H 0%nat 1%nat _ _ ltac:(lia) eq_refl eq_refl).
    vm_compute in H. discriminate.
  - intros H. specialize (H 0%nat 1%nat _ _ ltac:(lia) eq_refl eq_refl).
    vm_compute in H. discriminate.
Qed.

Lemma export_rows_sorted_witness :
  (forall i j ri rj,
      (i < j)%nat ->
      body same_key_sheet !! i = Some ri -> body same_key_sheet !! j = Some rj ->
      code_order ri rj) /\
  (forall i j ri rj ni nj,
      (i < j)%nat ->
      body same_key_sheet !! i = Some ri -> body same_key_sheet !! j = Some rj ->
      numeric_id ri = true -> numeric_id rj = true ->
      py_int (id_text ri) = Some ni -> py_int (id_text rj) = Some nj ->
      ni <= nj) /\
  (forall i j ri rj ni,
      body same_key_sheet !! i = Some ri -> body same_key_sheet !! j = Some rj ->
      numeric_id ri = true -> py_int (id_text ri) = Some ni -> ni < 10 ^ 18 ->
      numeric_id rj = false ->
      (i < j)%nat).
Proof.
  apply (export_rows_sorted same_key_table [same_key_sheet] same_key_sheet
           export_same_key).
  by left.
Defined.

(** * Further properties *)

(** ** Record Store: counting, framing, finding *)

Section StoreMore.

Lemma length_ids df : length (ids df) = length (rows df).
Proof. unfold ids. apply length_fmap. Qed.

(** X1: a save adds exactly one row when the id of the record is empty or
    not yet in the table, and none when the id is there. *)
Theorem upsert_length (df : DataFrame) (record : GradeRecord) :
  length (rows (upsert df record))
  = if bool_decide (student_id record <> [] /\ student_id record ∈ ids df)
    then length (rows df) else S (length (rows df)).
Proof.
  rewrite <- !length_ids, ids_upsert.
  destruct (decide (student_id record = [])) as [He|Hne].
  - rewrite bool_decide_eq_false_2 by (intros H; by apply H).
    rewrite bool_decide_eq_false_2 by (by intros [? _]).
    rewrite length_app. simpl. lia.
  - rewrite (bool_decide_eq_true_2 _ Hne).
    destruct (last_match _ _) eqn:Hm.
    + rewrite bool_decide_eq_true_2; [done|]. split; [done|].
      destruct (decide (student_id record ∈ ids df)) as [|Hn]; [done|].
      apply last_match_None in Hn. congruence.
    + apply last_match_None in Hm.
      rewrite bool_decide_eq_false_2 by (by intros [_ ?]).
      rewrite length_app. simpl. lia.
Qed.

(** X2: a save leaves every row of another student as it is and where it
    is; a record without id changes no row at all. *)
Theorem upsert_other_rows (df : DataFrame) (record : GradeRecord)
    (j : nat) (row : gmap string pyval) :
  rows df !! j = Some row ->
  student_id record = [] \/ sid_of row <> student_id record ->
  rows (upsert df record) !! j = Some row.
Proof.
  intros Hrow Hother. rewrite upsert_rows.
  assert (Happ : (rows df ++ [list_to_map (items record)]) !! j = Some row)
    by (by apply lookup_app_l_Some).
  case_bool_decide as Hsid; [|done].
  destruct Hother as [?|Hother]; [done|].
  destruct (last_match _ _) as [i|] eqn:Hm; [|done].
  destruct (last_match_Some _ _ _ Hm) as (r & Hr & Hs & _).
  rewrite list_lookup_alter_ne; [done|]. intros ->. congruence.
Qed.

Lemma upsert_find (df : DataFrame) (record : GradeRecord) :
  student_id record <> [] ->
  exists i row,
    last_match (student_id record) (rows (upsert df record)) = Some i /\
    rows (upsert df record) !! i = Some row /\
    forall k v, (list_to_map (items record) : gmap string pyval) !! k = Some v ->
                row !! k = Some v.
Proof.
  intros Hsid. rewrite upsert_rows, bool_decide_eq_true_2 by done.
  destruct (last_match (student_id record) (rows df)) as [i|] eqn:Hm.
  - destruct (last_match_Some _ _ _ Hm) as (r & Hr & Hs & _).
    exists i, (overwrite record r). split; [|split].
    + rewrite (last_match_ids _ _ (rows df)); [done|].
      by apply ids_alter_overwrite.
    + by rewrite list_lookup_alter_eq, Hr.
    + intros k v Hk. by apply lookup_union_Some_l.
  - exists (length (rows df)), (list_to_map (items record)). split; [|split].
    + apply last_match_snoc, sid_of_record.
    + by rewrite lookup_app_r, Nat.sub_diag.
    + done.
Qed.

(** X3: in a session that began without a grade file, after a save with
    a non-empty id the search for that id finds a row that carries every
    field of the record. *)
Theorem upsert_then_find (df : DataFrame) (record : GradeRecord) :
  session_table df ->
  student_id record <> [] ->
  exists i row,
    last_match (student_id record) (rows (upsert df record)) = Some i /\
    rows (upsert df record) !! i = Some row /\
    forall k v, (list_to_map (items record) : gmap string pyval) !! k = Some v ->
                row !! k = Some v.
Proof. intros _. apply upsert_find. Qed.

End StoreMore.

Lemma upsert_other_rows_witness :
  rows (upsert (foldl upsert empty_table [alice; bob]) alice_again) !! 1%nat
    = Some (list_to_map (items bob)).
Proof.
  apply (upsert_other_rows (foldl upsert empty_table [alice; bob]) alice_again
           1%nat (list_to_map (items bob)) eq_refl).
  right. discriminate.
Defined.

Lemma upsert_then_find_witness :
  exists i row,
    last_match (py "2023151554")
      (rows (upsert (foldl upsert empty_table [alice; bob]) alice_again)) = Some i /\
    rows (upsert (foldl upsert empty_table [alice; bob]) alice_again) !! i = Some row /\
    forall k v,
      (list_to_map (items alice_again) : gmap string pyval) !! k = Some v ->
      row !! k = Some v.
Proof.
  apply (upsert_then_find (foldl upsert empty_table [alice; bob]) alice_again).
  - by exists [alice; bob].
  - discriminate.
Defined.

(** ** What the handlers do to the table and to the file *)

Section HandlerStore.
Context `{U : Unicode}.

Lemma populate_df st sid : df (_populate_existing st sid) = df st.
Proof.
  unfold _populate_existing. case_bool_decide; [done|].
  by destruct (last_match _ _).
Qed.

Lemma populate_csv st sid : csv_writes (_populate_existing st sid) = csv_writes st.
Proof.
  unfold _populate_existing. case_bool_decide; [done|].
  by destruct (last_match _ _).
Qed.

Lemma load_pdf_df st i : df (_load_pdf st i) = df st.
Proof.
  unfold _load_pdf. destruct (pdf_paths st); [done|].
  unfold _reset_quick. cbn [df with_quick]. by rewrite populate_df.
Qed.

Lemma load_pdf_csv st i : csv_writes (_load_pdf st i) = csv_writes st.
Proof.
  unfold _load_pdf. destruct (pdf_paths st); [done|].
  unfold _reset_quick. cbn [csv_writes with_quick]. by rewrite populate_csv.
Qed.

Lemma set_entry_df st stage s : df (set_entry st stage s) = df st.
Proof. unfold set_entry. by destruct (stage =? 1). Qed.

Lemma set_entry_csv st stage s : csv_writes (set_entry st stage s) = csv_writes st.
Proof. unfold set_entry. by destruct (stage =? 1). Qed.

Lemma preview_df st stage : df (_preview_quick_value st stage) = df st.
Proof.
  unfold _preview_quick_value. destruct (negb _); [done|].
  case_bool_decide; apply set_entry_df.
Qed.

Lemma preview_csv st stage :
  csv_writes (_preview_quick_value st stage) = csv_writes st.
Proof.
  unfold _preview_quick_value. destruct (negb _); [done|].
  case_bool_decide; apply set_entry_csv.
Qed.

Lemma commit_df st : df (_commit_quick_buffer st) = df st.
Proof. unfold _commit_quick_buffer. destruct (negb _); [done|]. apply set_entry_df. Qed.

Lemma commit_csv st : csv_writes (_commit_quick_buffer st) = csv_writes st.
Proof. unfold _commit_quick_buffer. destruct (negb _); [done|]. apply set_entry_csv. Qed.

(** The two ways [save_current] ends. *)
Lemma save_current_cases st :
  save_current st = (false, with_dialog st WarnNoScore) \/
  exists record,
    record_ok record /\
    student_id record = strip (var_student_id st) /\
    file record = var_file st /\
    save_current st
    = (true, with_store st (upsert (df st) record)
               (csv_writes st ++ [upsert (df st) record])).
Proof.
  unfold save_current, _compute_total.
  pose proof (clamp_int_range (entry_q1 st)) as H1.
  pose proof (clamp_int_range (entry_q2 st)) as H2.
  destruct (clamp_int (entry_q1 st) 0 50 None) as [v1|],
           (clamp_int (entry_q2 st) 0 50 None) as [v2|];
    [right..|by left];
    (eexists; split; [|split; [|split; [|reflexivity]]]; [|done..]);
    (split; [|split]; simpl; [| |done]; intros v [= <-]; auto).
Qed.

(** The record of a successful save. *)
Lemma save_current_record st :
  (save_current st).1 = true ->
  exists record,
    q1_score record = clamp_int (entry_q1 st) 0 50 None /\
    q2_score record = clamp_int (entry_q2 st) 0 50 None /\
    total_score record = default 0 (q1_score record) + default 0 (q2_score record) /\
    student_id record = strip (var_student_id st) /\
    comment record = strip (text_comment st ++ [10%N]) /\
    (save_current st).2
    = with_store st (upsert (df st) record)
        (csv_writes st ++ [upsert (df st) record]).
Proof.
  intros Hok.
  exists {| class_time := var_class_time st; name := var_name st;
            student_id := strip (var_student_id st);
            q1_score := clamp_int (entry_q1 st) 0 50 None;
            q2_score := clamp_int (entry_q2 st) 0 50 None;
            total_score := default 0 (clamp_int (entry_q1 st) 0 50 None)
                           + default 0 (clamp_int (entry_q2 st) 0 50 None);
            comment := strip (text_comment st ++ [10%N]);
            file := var_file st |}.
  revert Hok. unfold save_current, _compute_total.
  destruct (clamp_int (entry_q1 st) 0 50 None) as [v1|],
           (clamp_int (entry_q2 st) 0 50 None) as [v2|]; [..|done];
    intros _; split_and!; reflexivity.
Qed.

Lemma upsert_store_ok_columns d record : store_ok d -> store_ok (upsert d record).
Proof.
  intros Hok c Hc. rewrite upsert_columns. by apply foldl_add_label_mono, Hok.
Qed.

Lemma export_excel_df st :
  store_ok (df (save_current st).2) -> df (export_excel st) = df (save_current st).2.
Proof.
  intros H1. unfold export_excel. cbv zeta.
  pose proof (export_gradebook_table (df (save_current st).2)) as Ht.
  rewrite (ensure_columns_present _ H1) in Ht.
  destruct (export_gradebook (df (save_current st).2)) as [d [wb|]];
    simpl in Ht; by subst d.
Qed.

Lemma export_excel_csv st :
  csv_writes (export_excel st) = csv_writes (save_current st).2.
Proof.
  unfold export_excel. cbv zeta.
  by destruct (export_gradebook (df (save_current st).2)) as [d [wb|]].
Qed.

(** A handler leaves the table and the file alone, or makes one save:
    the record goes into the table and the new table into the file. *)
Lemma handle_store st e :
  store_ok (df st) ->
  (df (handle st e) = df st /\ csv_writes (handle st e) = csv_writes st) \/
  exists record,
    record_ok record /\
    df (handle st e) = upsert (df st) record /\
    csv_writes (handle st e) = csv_writes st ++ [upsert (df st) record].
Proof.
  intros Hok.
  assert (Hsave : forall st',
    (df (save_current st').2 = df st' /\
     csv_writes (save_current st').2 = csv_writes st') \/
    exists record,
      record_ok record /\
      df (save_current st').2 = upsert (df st') record /\
      csv_writes (save_current st').2
      = csv_writes st' ++ [upsert (df st') record]).
  { intros st'. destruct (save_current_cases st') as [->|(r & Hr & _ & _ & ->)];
      [by left|]. right. by exists r. }
  assert (Hnext : forall st',
    df (save_and_next st') = df (save_current st').2 /\
    csv_writes (save_and_next st') = csv_writes (save_current st').2).
  { intros st'. unfold save_and_next. destruct (save_current st') as [ok s1].
    destruct ok; simpl; [|done].
    destruct (idx s1 <? _); [|done]. by rewrite load_pdf_df, load_pdf_csv. }
  destruct e as [ch| | | | | | | |]; unfold handle.
  - left. unfold _on_keypress.
    destruct (focus_in_comment st); [done|]. destruct (negb _); [done|].
    destruct (_ || _); [done|]. by rewrite preview_df, preview_csv.
  - unfold _on_enter. destruct (focus_in_comment st); [by left|].
    destruct (_quick_stage st =? 1).
    { left. cbn [df csv_writes with_quick]. by rewrite commit_df, commit_csv. }
    destruct (_quick_stage st =? 2).
    { left. cbn [df csv_writes with_quick]. by rewrite commit_df, commit_csv. }
    unfold _reset_quick. cbn [df csv_writes with_quick].
    destruct (Hnext st) as [-> ->]. apply Hsave.
  - left. unfold _on_backspace.
    destruct (focus_in_comment st); [done|]. destruct (negb _); [done|].
    by rewrite preview_df, preview_csv.
  - left. unfold _on_escape. by destruct (focus_in_comment st).
  - left. unfold prev_pdf. destruct (0 <? idx st); [|done].
    by rewrite load_pdf_df, load_pdf_csv.
  - left. unfold next_pdf. destruct (idx st <? _); [|done].
    by rewrite load_pdf_df, load_pdf_csv.
  - apply Hsave.
  - destruct (Hnext st) as [-> ->]. apply Hsave.
  - pose proof (upsert_store_ok_columns (df st)) as Hup.
    destruct (Hsave st) as [[Hd Hc]|(r & Hr & Hd & Hc)].
    + left. rewrite export_excel_df, export_excel_csv by (by rewrite Hd). done.
    + right. exists r. split; [done|].
      rewrite export_excel_df, export_excel_csv; [done|].
      rewrite Hd. by apply Hup.
Qed.

Lemma record_row_consistent record (r : gmap string pyval) :
  record_ok record ->
  (forall k v, (list_to_map (items record) : gmap string pyval) !! k = Some v ->
               r !! k = Some v) ->
  row_consistent r.
Proof.
  intros (H1 & H2 & Ht) Hr.
  exists (q1_score record), (q2_score record).
  split; [done|]. split; [done|].
  repeat split; apply Hr; simpl; [by simplify_map_eq..|].
  rewrite <- Ht. by simplify_map_eq.
Qed.

Lemma upsert_store_consistent d record :
  record_ok record -> store_consistent d -> store_consistent (upsert d record).
Proof.
  intros Hr Hd. unfold store_consistent. rewrite upsert_rows.
  assert (Happ : Forall row_consistent (rows d ++ [list_to_map (items record)])).
  { apply Forall_app. split; [done|]. constructor; [|constructor].
    by apply (record_row_consistent record). }
  case_bool_decide; [|done].
  destruct (last_match _ _) as [i|]; [|done].
  apply Forall_alter; [done|]. intros r _ _.
  apply (record_row_consistent record); [done|].
  intros k v Hk. by apply lookup_union_Some_l.
Qed.

Lemma session_table_store_ok d : session_table d -> store_ok d.
Proof.
  intros [records ->].
  assert (H : forall d, store_ok d -> store_ok (foldl upsert d records)).
  { induction records as [|r rs IH]; intros d Hd; simpl; [done|].
    by apply IH, upsert_store_ok_columns. }
  apply H. intros c Hc. exact Hc.
Qed.

(** X4: in a session that began without a grade file, whatever the user
    does, the table changes only by the save of one record, and the table
    so changed is written to the file at once; the table stays a table of
    the session. *)
Theorem handle_persists (st : App) (e : event) :
  session_table (df st) ->
  session_table (df (handle st e)) /\
  ((df (handle st e) = df st /\ csv_writes (handle st e) = csv_writes st) \/
   (exists record,
       df (handle st e) = upsert (df st) record /\
       csv_writes (handle st e) = csv_writes st ++ [df (handle st e)])).
Proof.
  intros Hs.
  destruct (handle_store st e (session_table_store_ok _ Hs))
    as [[Hd Hc]|(r & _ & Hd & Hc)].
  - split; [by rewrite Hd|by left].
  - split; [rewrite Hd; by apply session_table_upsert|].
    right. exists r. by rewrite Hc, Hd.
Qed.

(** X5: in a session that began without a grade file, a table whose rows
    all have a total equal to the sum of their scores, each score empty or
    from 0 to 50, is such a table after every sequence of events, and has
    the eight columns. *)
Theorem run_store_consistent (st : App) (events : list event) :
  session_table (df st) -> store_consistent (df st) ->
  store_ok (df (run st events)) /\ store_consistent (df (run st events)).
Proof.
  unfold run. revert st. induction events as [|e es IH]; intros st Hs Hc.
  { split; [by apply session_table_store_ok|done]. }
  cbn [foldl].
  destruct (handle_store st e (session_table_store_ok _ Hs))
    as [[Hd _]|(r & Hr & Hd & _)].
  - apply IH; by rewrite Hd.
  - apply IH; rewrite Hd;
      [by apply session_table_upsert | by apply upsert_store_consistent].
Qed.

End HandlerStore.

(** ** Quick entry: ignored keys, preview, backspace *)

Section QuickMore.
Context `{U : Unicode}.

(** X6: while the comment box has the focus, none of the four key
    handlers changes anything, Escape included; in stage 3 a key press and
    Backspace change nothing; a key that is not a digit changes nothing. *)
Theorem keys_ignored (st : App) :
  (focus_in_comment st = true ->
     (forall ch, _on_keypress st ch = st) /\
     _on_enter st = st /\ _on_backspace st = st /\ _on_escape st = st) /\
  (_quick_stage st <> 1 -> _quick_stage st <> 2 ->
     (forall ch, _on_keypress st ch = st) /\ _on_backspace st = st) /\
  (forall ch, str_isdigit ch = false -> _on_keypress st ch = st).
Proof.
  split; [|split].
  - intros Hf. unfold _on_keypress, _on_enter, _on_backspace, _on_escape.
    by rewrite Hf.
  - intros H1 H2.
    assert (Hs : negb ((_quick_stage st =? 1) || (_quick_stage st =? 2)) = true).
    { destruct (Z.eqb_spec (_quick_stage st) 1); [done|].
      by destruct (Z.eqb_spec (_quick_stage st) 2). }
    unfold _on_keypress, _on_backspace. rewrite Hs.
    by destruct (focus_in_comment st).
  - intros ch Hd. unfold _on_keypress. rewrite Hd.
    destruct (focus_in_comment st); [done|]. destruct (negb _); [done|].
    by rewrite orb_true_r.
Qed.

Lemma entry_of_set_entry st stage s :
  stage = 1 \/ stage = 2 -> entry_of stage (set_entry st stage s) = s.
Proof. unfold entry_of, set_entry. by intros [-> | ->]. Qed.

Lemma other_entry_set_entry st stage s :
  other_entry stage (set_entry st stage s) = other_entry stage st.
Proof. unfold other_entry, set_entry. by destruct (stage =? 1). Qed.

Lemma focus_set_entry st stage s :
  focus_in_comment (set_entry st stage s) = focus_in_comment st.
Proof. unfold set_entry. by destruct (stage =? 1). Qed.

Lemma stage_12 (stage : Z) :
  stage = 1 \/ stage = 2 -> negb ((stage =? 1) || (stage =? 2)) = false.
Proof. by intros [-> | ->]. Qed.

(** A preview on a state in stage 1 or 2 sets the entry of the stage. *)
Lemma preview_eq st :
  _quick_stage st = 1 \/ _quick_stage st = 2 ->
  _preview_quick_value st (_quick_stage st)
  = set_entry st (_quick_stage st) (preview_text (_quick_buffer st)).
Proof.
  intros Hs. unfold _preview_quick_value, preview_text.
  rewrite (stage_12 _ Hs). by case_bool_decide.
Qed.

Lemma on_keypress_digit st c :
  focus_in_comment st = false ->
  _quick_stage st = 1 \/ _quick_stage st = 2 ->
  isdigit c = true ->
  _on_keypress st [c]
  = let buffer := if (2 <=? length (_quick_buffer st))%nat then [c]
                  else _quick_buffer st ++ [c] in
    set_entry (with_quick st (_quick_stage st) buffer) (_quick_stage st)
      (preview_text buffer).
Proof.
  intros Hf Hs Hc. unfold _on_keypress. rewrite Hf, (stage_12 _ Hs).
  cbn [str_isdigit forallb bool_decide decide_rel]. rewrite Hc.
  cbn [andb negb orb]. cbv zeta.
  rewrite bool_decide_eq_false_2 by done. cbn [orb].
  by rewrite (preview_eq (with_quick st (_quick_stage st) _)).
Qed.

Lemma on_backspace_eq st :
  focus_in_comment st = false ->
  _quick_stage st = 1 \/ _quick_stage st = 2 ->
  _on_backspace st
  = let buffer := take (length (_quick_buffer st) - 1) (_quick_buffer st) in
    set_entry (with_quick st (_quick_stage st) buffer) (_quick_stage st)
      (preview_text buffer).
Proof.
  intros Hf Hs. unfold _on_backspace. rewrite Hf, (stage_12 _ Hs). cbv zeta.
  by rewrite (preview_eq (with_quick st (_quick_stage st) _)).
Qed.

(** X7: the number shown while typing is the number Enter commits: after a
    digit the entry of the stage shows the buffer's number brought into
    0..50, the other entry and the table are as before, and Enter leaves
    both entries as they are. *)
Theorem preview_is_committed (st : App) (c : N) :
  focus_in_comment st = false ->
  _quick_stage st = 1 \/ _quick_stage st = 2 ->
  isdigit c = true ->
  strip (_quick_buffer (_on_keypress st [c])) <> [] ->
  entry_of (_quick_stage st) (_on_keypress st [c])
    = str_of_int (quick_value (_quick_buffer (_on_keypress st [c]))) /\
  0 <= quick_value (_quick_buffer (_on_keypress st [c])) <= 50 /\
  other_entry (_quick_stage st) (_on_keypress st [c])
    = other_entry (_quick_stage st) st /\
  df (_on_keypress st [c]) = df st /\
  entry_q1 (_on_enter (_on_keypress st [c])) = entry_q1 (_on_keypress st [c]) /\
  entry_q2 (_on_enter (_on_keypress st [c])) = entry_q2 (_on_keypress st [c]).
Proof.
  intros Hf Hs Hc. rewrite (on_keypress_digit st c Hf Hs Hc). cbv zeta.
  set (buffer := if (2 <=? length (_quick_buffer st))%nat then [c]
                 else _quick_buffer st ++ [c]).
  rewrite buffer_set_entry. cbn [_quick_buffer with_quick]. intros Hb.
  assert (Hp : preview_text buffer = str_of_int (quick_value buffer)).
  { unfold preview_text. by rewrite bool_decide_eq_false_2. }
  split; [by rewrite entry_of_set_entry, Hp|].
  split; [unfold quick_value; lia|].
  split; [by rewrite other_entry_set_entry|].
  split; [by rewrite set_entry_df|].
  unfold _on_enter. rewrite focus_set_entry. cbn [focus_in_comment with_quick].
  rewrite Hf, stage_set_entry. cbn [_quick_stage with_quick].
  unfold _commit_quick_buffer.
  rewrite stage_set_entry, buffer_set_entry. cbn [_quick_stage _quick_buffer with_quick].
  rewrite (stage_12 _ Hs), bool_decide_eq_false_2 by done.
  fold (quick_value buffer). rewrite <- Hp.
  destruct Hs as [Hs|Hs]; rewrite Hs; unfold set_entry; by cbn.
Qed.

(** X8: Backspace takes the last character off the buffer and shows the
    rest; with an empty buffer it empties the entry of the stage, whatever
    it held.  The other entry, the stage and the table stay. *)
Theorem on_backspace_spec (st : App) :
  focus_in_comment st = false ->
  _quick_stage st = 1 \/ _quick_stage st = 2 ->
  _quick_buffer (_on_backspace st)
    = take (length (_quick_buffer st) - 1) (_quick_buffer st) /\
  entry_of (_quick_stage st) (_on_backspace st)
    = preview_text (_quick_buffer (_on_backspace st)) /\
  (_quick_buffer st = [] -> entry_of (_quick_stage st) (_on_backspace st) = []) /\
  other_entry (_quick_stage st) (_on_backspace st) = other_entry (_quick_stage st) st /\
  _quick_stage (_on_backspace st) = _quick_stage st /\
  df (_on_backspace st) = df st.
Proof.
  intros Hf Hs. rewrite (on_backspace_eq st Hf Hs). cbv zeta.
  rewrite buffer_set_entry, stage_set_entry, set_entry_df,
    other_entry_set_entry, (entry_of_set_entry _ _ _ Hs).
  cbn [_quick_buffer _quick_stage df with_quick].
  repeat split. intros ->. reflexivity.
Qed.

(** X9: a digit typed into a buffer of fewer than two characters and then
    taken back with Backspace leaves the buffer as it was, with its
    preview in the entry. *)
Theorem keypress_backspace (st : App) (c : N) :
  focus_in_comment st = false ->
  _quick_stage st = 1 \/ _quick_stage st = 2 ->
  isdigit c = true ->
  (length (_quick_buffer st) < 2)%nat ->
  _quick_buffer (_on_backspace (_on_keypress st [c])) = _quick_buffer st /\
  _quick_stage (_on_backspace (_on_keypress st [c])) = _quick_stage st /\
  entry_of (_quick_stage st) (_on_backspace (_on_keypress st [c]))
    = preview_text (_quick_buffer st).
Proof.
  intros Hf Hs Hc Hlen.
  pose proof (on_keypress_digit st c Hf Hs Hc) as Hk. cbv zeta in Hk.
  rewrite (proj2 (Nat.leb_gt 2 (length (_quick_buffer st)))) in Hk by lia.
  assert (Hf1 : focus_in_comment (_on_keypress st [c]) = false)
    by (by rewrite Hk, focus_set_entry).
  assert (Hs1 : _quick_stage (_on_keypress st [c]) = _quick_stage st)
    by (by rewrite Hk, stage_set_entry).
  assert (Hb1 : _quick_buffer (_on_keypress st [c]) = _quick_buffer st ++ [c])
    by (by rewrite Hk, buffer_set_entry).
  assert (Hs1' : _quick_stage (_on_keypress st [c]) = 1 \/
                 _quick_stage (_on_keypress st [c]) = 2) by (by rewrite Hs1).
  rewrite (on_backspace_eq _ Hf1 Hs1'). cbv zeta.
  rewrite buffer_set_entry, stage_set_entry, Hs1, (entry_of_set_entry _ _ _ Hs).
  cbn [_quick_buffer _quick_stage with_quick].
  rewrite Hb1, length_app. simpl length.
  replace (length (_quick_buffer st) + 1 - 1)%nat with (length (_quick_buffer st))
    by lia.
  by rewrite take_app_length.
Qed.

End QuickMore.

(** ** Navigation and the stage *)

Section NavigationMore.
Context `{U : Unicode}.

Lemma same_file_refl st : same_file st st.
Proof. by repeat split. Qed.

Lemma same_file_trans a b c : same_file a b -> same_file b c -> same_file a c.
Proof.
  intros (H1 & H2 & H3 & H4 & H5 & H6) (G1 & G2 & G3 & G4 & G5 & G6).
  repeat split; congruence.
Qed.

Lemma same_file_on_screen st st' : same_file st st' -> on_screen st -> on_screen st'.
Proof.
  intros (H1 & H2 & H3 & H4 & H5 & H6) (path & Hi & Hp & Hf & Hc & Hn & Hs).
  exists path. rewrite H1, H2, H3, H4, H5, H6. by repeat split.
Qed.

Lemma same_file_set_entry st stage s : same_file st (set_entry st stage s).
Proof. unfold set_entry. destruct (stage =? 1); by repeat split. Qed.

Lemma same_file_with_quick st stage b : same_file st (with_quick st stage b).
Proof. by repeat split. Qed.

Lemma same_file_with_dialog st d : same_file st (with_dialog st d).
Proof. by repeat split. Qed.

Lemma same_file_preview st stage : same_file st (_preview_quick_value st stage).
Proof.
  unfold _preview_quick_value. destruct (negb _); [apply same_file_refl|].
  case_bool_decide; apply same_file_set_entry.
Qed.

Lemma same_file_commit st : same_file st (_commit_quick_buffer st).
Proof.
  unfold _commit_quick_buffer. destruct (negb _); [apply same_file_refl|].
  apply same_file_set_entry.
Qed.

Lemma same_file_populate st sid : same_file st (_populate_existing st sid).
Proof.
  unfold _populate_existing. case_bool_decide; [by repeat split|].
  destruct (last_match _ _); by repeat split.
Qed.

Lemma same_file_save_current st : same_file st (save_current st).2.
Proof.
  destruct (save_current_cases st) as [->|(r & _ & _ & _ & ->)]; by repeat split.
Qed.

Lemma same_file_export_excel st : same_file st (export_excel st).
Proof.
  eapply same_file_trans; [apply same_file_save_current|].
  unfold export_excel. cbv zeta.
  destruct (export_gradebook _) as [d [wb|]]; by repeat split.
Qed.

(** Loading puts the file at the index, brought into range, on screen. *)
Lemma load_pdf_on_screen st i :
  pdf_paths st <> [] ->
  on_screen (_load_pdf st i) /\
  pdf_paths (_load_pdf st i) = pdf_paths st /\
  idx (_load_pdf st i)
  = Z.max 0 (Z.min i (Z.of_nat (length (pdf_paths st)) - 1)).
Proof.
  intros Hne. unfold _load_pdf.
  destruct (pdf_paths st) as [|p0 ps] eqn:Hp; [done|]. rewrite <- Hp.
  set (k := Z.max 0 (Z.min i (Z.of_nat (length (pdf_paths st)) - 1))).
  assert (Hk : 0 <= k < Z.of_nat (length (pdf_paths st))).
  { unfold k. rewrite Hp. simpl length. lia. }
  destruct (lookup_lt_is_Some_2 (pdf_paths st) (Z.to_nat k)) as [path Hpath]; [lia|].
  rewrite (list_lookup_total_correct _ _ _ Hpath).
  set (s1 := with_file st k _ _ _ _).
  assert (H1 : on_screen s1 /\ pdf_paths s1 = pdf_paths st /\ idx s1 = k).
  { split; [|done]. exists path.
    split_and!; [unfold s1; cbn [idx with_file]; lia | exact Hpath | reflexivity..]. }
  destruct H1 as (Hon & Hpaths & Hidx).
  pose proof (same_file_trans _ _ _ (same_file_populate s1
                (parse_filename_meta path !!! "student_id"))
                (same_file_with_quick _ 1 [])) as Hsame.
  split; [by apply (same_file_on_screen s1)|].
  destruct Hsame as (G1 & G2 & _).
  unfold _reset_quick. split; [by rewrite G1|by rewrite G2].
Qed.

Lemma load_pdf_same_paths st i : pdf_paths (_load_pdf st i) = pdf_paths st.
Proof.
  destruct (decide (pdf_paths st = [])) as [He|Hne].
  - unfold _load_pdf. by rewrite He.
  - by apply load_pdf_on_screen.
Qed.

(** A handler keeps the file that is on screen or loads another one. *)
Lemma handle_file st e :
  on_screen st -> on_screen (handle st e) /\ pdf_paths (handle st e) = pdf_paths st.
Proof.
  intros Hon.
  assert (Hne : pdf_paths st <> []).
  { destruct Hon as (path & _ & Hp & _). intros He. by rewrite He in Hp. }
  assert (Hsame : forall st', same_file st st' ->
            on_screen st' /\ pdf_paths st' = pdf_paths st).
  { intros st' Hs. split; [by apply (same_file_on_screen st)|]. by destruct Hs. }
  assert (Hload : forall s1 i, same_file st s1 ->
            on_screen (_load_pdf s1 i) /\ pdf_paths (_load_pdf s1 i) = pdf_paths st).
  { intros s1 i Hs. destruct Hs as (G1 & _).
    destruct (load_pdf_on_screen s1 i) as (? & ? & _); [by rewrite G1|].
    split; [done|congruence]. }
  assert (Hnext : forall b, (on_screen (save_and_next st) /\
              pdf_paths (save_and_next st) = pdf_paths st) /\
            same_file (save_and_next st) (with_quick (save_and_next st) 1 b)).
  { intros b. split; [|apply same_file_with_quick].
    unfold save_and_next. pose proof (same_file_save_current st) as Hs.
    destruct (save_current st) as [ok s1]. simpl in Hs.
    destruct ok; cbn [negb]; [|by apply Hsame].
    destruct (idx s1 <? _); [by apply Hload|].
    apply Hsame. eapply same_file_trans; [exact Hs|apply same_file_with_dialog]. }
  destruct e as [ch| | | | | | | |]; unfold handle.
  - apply Hsame. unfold _on_keypress.
    destruct (focus_in_comment st); [apply same_file_refl|].
    destruct (negb _); [apply same_file_refl|].
    destruct (_ || _); [apply same_file_refl|].
    eapply same_file_trans; [|apply same_file_preview]. apply same_file_with_quick.
  - unfold _on_enter. destruct (focus_in_comment st); [apply Hsame, same_file_refl|].
    destruct (_quick_stage st =? 1).
    { apply Hsame. eapply same_file_trans; [apply same_file_commit|].
      apply same_file_with_quick. }
    destruct (_quick_stage st =? 2).
    { apply Hsame. eapply same_file_trans; [apply same_file_commit|].
      apply same_file_with_quick. }
    destruct (Hnext []) as [[Ho Hp] Hs]. unfold _reset_quick.
    split; [by apply (same_file_on_screen (save_and_next st))|].
    destruct Hs as (G1 & _). congruence.
  - apply Hsame. unfold _on_backspace.
    destruct (focus_in_comment st); [apply same_file_refl|].
    destruct (negb _); [apply same_file_refl|].
    eapply same_file_trans; [|apply same_file_preview]. apply same_file_with_quick.
  - apply Hsame. unfold _on_escape.
    destruct (focus_in_comment st); [apply same_file_refl|].
    apply same_file_with_quick.
  - unfold prev_pdf. destruct (0 <? idx st); [|apply Hsame, same_file_refl].
    apply Hload, same_file_refl.
  - unfold next_pdf. destruct (idx st <? _); [|apply Hsame, same_file_refl].
    apply Hload, same_file_refl.
  - apply Hsame, same_file_save_current.
  - apply (Hnext []).
  - apply Hsame, same_file_export_excel.
Qed.

(** X10: whatever index is asked for, [_load_pdf] shows a file of the
    list, the nearest in range; and once the labels on screen belong to the
    file at the index they do so after every sequence of events, over the
    same list of files. *)
Theorem shown_file_is_current (st : App) :
  (pdf_paths st <> [] ->
   forall i, on_screen (_load_pdf st i) /\
             idx (_load_pdf st i)
             = Z.max 0 (Z.min i (Z.of_nat (length (pdf_paths st)) - 1))) /\
  (on_screen st ->
   forall events, on_screen (run st events) /\
                  pdf_paths (run st events) = pdf_paths st).
Proof.
  split.
  - intros Hne i. destruct (load_pdf_on_screen st i Hne) as (? & _ & ?). done.
  - intros Hon events. unfold run. revert st Hon.
    induction events as [|e es IH]; intros st Hon; [done|].
    cbn [foldl]. destruct (handle_file st e Hon) as [Ho Hp].
    destruct (IH _ Ho) as [? ?]. split; [done|congruence].
Qed.

End NavigationMore.

Section ReopenMore.
Context `{U : Unicode}.

(** X11: from a file that is on screen, "next" and "previous" move by one
    and stop at the ends of the list; "save and next" moves by one exactly
    when the save succeeded and a next file exists. *)
Theorem navigation_steps (st : App) :
  on_screen st ->
  idx (next_pdf st)
    = (if idx st <? Z.of_nat (length (pdf_paths st)) - 1 then idx st + 1 else idx st) /\
  idx (prev_pdf st) = (if 0 <? idx st then idx st - 1 else idx st) /\
  idx (save_and_next st)
    = (if (save_current st).1 && (idx st <? Z.of_nat (length (pdf_paths st)) - 1)
       then idx st + 1 else idx st).
Proof.
  intros (path & Hi & Hp & _).
  assert (Hlt : idx st < Z.of_nat (length (pdf_paths st))).
  { apply lookup_lt_Some in Hp. lia. }
  assert (Hne : pdf_paths st <> []).
  { intros He. rewrite He in Hlt. simpl in Hlt. lia. }
  split; [|split].
  - unfold next_pdf. destruct (Z.ltb_spec (idx st) (Z.of_nat (length (pdf_paths st)) - 1));
      [|done].
    destruct (load_pdf_on_screen st (idx st + 1) Hne) as (_ & _ & ->). lia.
  - unfold prev_pdf. destruct (Z.ltb_spec 0 (idx st)); [|done].
    destruct (load_pdf_on_screen st (idx st - 1) Hne) as (_ & _ & ->). lia.
  - unfold save_and_next. pose proof (same_file_save_current st) as (Hp1 & Hi1 & _).
    destruct (save_current st) as [ok s1]. simpl in Hp1, Hi1.
    destruct ok; cbn [negb fst andb]; [|done].
    rewrite Hp1, Hi1.
    destruct (Z.ltb_spec (idx st) (Z.of_nat (length (pdf_paths st)) - 1)); [|done].
    destruct (load_pdf_on_screen s1 (idx st + 1)) as (_ & _ & ->); [congruence|].
    rewrite Hp1. lia.
Qed.

Lemma stage_preview st stage :
  _quick_stage (_preview_quick_value st stage) = _quick_stage st.
Proof.
  unfold _preview_quick_value. destruct (negb _); [done|].
  case_bool_decide; apply stage_set_entry.
Qed.

Lemma same_quick_refl st : same_quick st st.
Proof. done. Qed.

Lemma same_quick_save_current st : same_quick st (save_current st).2.
Proof.
  destruct (save_current_cases st) as [->|(r & _ & _ & _ & ->)]; done.
Qed.

Lemma load_pdf_quick st i :
  same_quick st (_load_pdf st i) \/
  (_quick_stage (_load_pdf st i) = 1 /\ _quick_buffer (_load_pdf st i) = []).
Proof. unfold _load_pdf. destruct (pdf_paths st); [by left|by right]. Qed.

(** What a handler makes of the stage and the buffer. *)
Lemma handle_quick st e :
  same_quick st (handle st e) \/
  (_quick_buffer (handle st e) = [] /\
   (_quick_stage (handle st e) = 1 \/
    (_quick_stage st = 1 /\ _quick_stage (handle st e) = 2) \/
    (_quick_stage st = 2 /\ _quick_stage (handle st e) = 3))) \/
  (_quick_stage (handle st e) = _quick_stage st /\
   (_quick_stage st = 1 \/ _quick_stage st = 2)).
Proof.
  assert (Hload : forall s1 i, same_quick st s1 ->
    same_quick st (_load_pdf s1 i) \/
    (_quick_buffer (_load_pdf s1 i) = [] /\ _quick_stage (_load_pdf s1 i) = 1)).
  { intros s1 i [H1 H2]. destruct (load_pdf_quick s1 i) as [[G1 G2]|[G1 G2]].
    - left. split; congruence.
    - by right. }
  assert (Hnext : same_quick st (save_and_next st) \/
    (_quick_buffer (save_and_next st) = [] /\ _quick_stage (save_and_next st) = 1)).
  { unfold save_and_next. pose proof (same_quick_save_current st) as Hs.
    destruct (save_current st) as [ok s1]. simpl in Hs.
    destruct ok; cbn [negb]; [|by left].
    destruct (idx s1 <? _); [by apply Hload|by left]. }
  assert (H12 : forall z : Z,
    negb ((z =? 1) || (z =? 2)) = false -> z = 1 \/ z = 2).
  { intros z. destruct (Z.eqb_spec z 1); [by left|].
    destruct (Z.eqb_spec z 2); [by right|done]. }
  destruct e as [ch| | | | | | | |]; unfold handle.
  - unfold _on_keypress. destruct (focus_in_comment st); [by left|].
    destruct (negb _) eqn:Hs; [by left|]. apply H12 in Hs.
    destruct (_ || _); [by left|]. right. right.
    by rewrite stage_preview.
  - unfold _on_enter. destruct (focus_in_comment st); [by left|].
    destruct (Z.eqb_spec (_quick_stage st) 1) as [H1|H1].
    { right. left. split; [done|]. right. by left. }
    destruct (Z.eqb_spec (_quick_stage st) 2) as [H2|H2].
    { right. left. split; [done|]. right. by right. }
    right. left. split; [done|]. by left.
  - unfold _on_backspace. destruct (focus_in_comment st); [by left|].
    destruct (negb _) eqn:Hs; [by left|]. apply H12 in Hs.
    right. right. by rewrite stage_preview.
  - unfold _on_escape. destruct (focus_in_comment st); [by left|].
    right. left. split; [done|]. by left.
  - unfold prev_pdf. destruct (0 <? idx st); [|by left].
    destruct (Hload st (idx st - 1) (same_quick_refl st)) as [?|[? ?]];
      [by left|]. right. left. split; [done|]. by left.
  - unfold next_pdf. destruct (idx st <? _); [|by left].
    destruct (Hload st (idx st + 1) (same_quick_refl st)) as [?|[? ?]];
      [by left|]. right. left. split; [done|]. by left.
  - left. apply same_quick_save_current.
  - destruct Hnext as [?|[? ?]]; [by left|]. right. left. split; [done|]. by left.
  - left. split; [|apply buffer_export_excel].
    unfold export_excel. cbv zeta.
    destruct (same_quick_save_current st) as [Hs _].
    by destruct (export_gradebook _) as [d [wb|]].
Qed.

(** X12: the stage is always 1, 2 or 3, and in stage 3 the buffer is
    empty: what holds before an event holds after it. *)
Theorem run_stage_ok (st : App) (events : list event) :
  stage_ok st -> stage_ok (run st events).
Proof.
  unfold run. revert st. induction events as [|e es IH]; intros st Hok; [done|].
  cbn [foldl]. apply IH. destruct Hok as [Hs Hb].
  destruct (handle_quick st e) as [[H1 H2]|[[Hbuf Hst]|[H1 H2]]].
  - split; [by rewrite H1|]. rewrite H1, H2. done.
  - split; [|done]. destruct Hst as [->|[[_ ->]|[_ ->]]]; auto.
  - split; [rewrite H1; destruct H2; auto|].
    rewrite H1. intros H3. destruct H2; congruence.
Qed.

End ReopenMore.

(** ** Opening a student again *)

Section ReopenFacts.
Context `{U : Unicode}.

Lemma drop_while_keep p c r : p c = false -> drop_while p (c :: r) = c :: r.
Proof. intros H. simpl. by rewrite H. Qed.

Lemma rdrop_while_keep p s c : p c = false -> rdrop_while p (s ++ [c]) = s ++ [c].
Proof.
  intros H. unfold rdrop_while. rewrite reverse_snoc, drop_while_keep by done.
  by rewrite reverse_cons, reverse_involutive.
Qed.

(** A text that neither starts nor ends with white space is its own
    [strip()]. *)
Lemma strip_keep c s d :
  isspace c = false -> isspace d = false -> strip (c :: s ++ [d]) = c :: s ++ [d].
Proof.
  intros Hc Hd. unfold strip. rewrite drop_while_keep by done.
  by rewrite (rdrop_while_keep isspace (c :: s) d).
Qed.

Lemma strip_keep1 c : isspace c = false -> strip [c] = [c].
Proof.
  intros Hc. unfold strip. rewrite drop_while_keep by done.
  by rewrite (rdrop_while_keep isspace [] c).
Qed.

Lemma strip_keep2 c d :
  isspace c = false -> isspace d = false -> strip [c; d] = [c; d].
Proof. apply (strip_keep c [] d). Qed.

(** The text of a score from 0 to 50 reads back as that score. *)
Lemma score_text_clamp v :
  digits_not_space -> 0 <= v <= 50 ->
  clamp_int (strip (str_of_int v)) 0 50 None = Some v.
Proof.
  intros Hds Hv.
  assert (Hn : forall c : N, (48 <= c <= 57)%N -> isspace c = false)
    by (intros c Hc; apply Hds; by left).
  assert (Hall : Forall (fun v => clamp_int (strip (str_of_int v)) 0 50 None = Some v)
                   (seqZ 0 51)).
  { vm_compute seqZ.
    repeat (apply Forall_cons; split;
      [ match goal with
        | |- clamp_int (strip (str_of_int ?n)) _ _ _ = _ =>
            let l := eval vm_compute in (str_of_int n) in
            change (str_of_int n) with l
        end;
        unfold clamp_int;
        first [ rewrite !strip_keep1 by (apply Hn; lia)
              | rewrite !strip_keep2 by (apply Hn; lia) ];
        vm_compute; reflexivity
      | ]).
    apply Forall_nil_2. }
  rewrite Forall_forall in Hall. apply Hall. apply elem_of_seqZ. lia.
Qed.

Lemma score_text_clamp_option (q : option Z) :
  digits_not_space -> (forall v, q = Some v -> 0 <= v <= 50) ->
  clamp_int (strip (score_text q)) 0 50 None = q.
Proof.
  intros Hds Hq. destruct q as [v|]; [|done].
  by apply score_text_clamp; [|apply Hq].
Qed.

(** X13: in a session that began without a grade file, after a
    successful save of a student with an id, opening that student again
    fills the entries with the saved scores and the comment box with the
    saved comment; where the digits are no white space, the scores and the
    total read from the entries are those of the save. *)
Theorem reopen_after_save (st : App) :
  session_table (df st) ->
  (save_current st).1 = true ->
  strip (var_student_id st) <> [] ->
  entry_q1 (_populate_existing (save_current st).2 (var_student_id st))
    = strip (score_text (clamp_int (entry_q1 st) 0 50 None)) /\
  entry_q2 (_populate_existing (save_current st).2 (var_student_id st))
    = strip (score_text (clamp_int (entry_q2 st) 0 50 None)) /\
  text_comment (_populate_existing (save_current st).2 (var_student_id st))
    = strip (text_comment st ++ [10%N]) /\
  (digits_not_space ->
   _compute_total (_populate_existing (save_current st).2 (var_student_id st))
   = _compute_total st).
Proof.
  intros _ Hok Hsid.
  destruct (save_current_record st Hok) as (r & Hq1 & Hq2 & _ & Hr & Hc & ->).
  rewrite <- Hr in Hsid.
  destruct (upsert_find (df st) r Hsid) as (i & row & Hm & Hrow & Hfields).
  assert (H1 : row !! "q1_score" = Some (score_cell (q1_score r)))
    by (apply Hfields; simpl; by simplify_map_eq).
  assert (H2 : row !! "q2_score" = Some (score_cell (q2_score r)))
    by (apply Hfields; simpl; by simplify_map_eq).
  assert (H3 : row !! "comment" = Some (PStr (comment r)))
    by (apply Hfields; simpl; by simplify_map_eq).
  assert (Hcell : forall q, strip (py_str (Some (score_cell q))) = strip (score_text q))
    by (by intros [v|]).
  assert (Heq : _populate_existing
            (with_store st (upsert (df st) r) (csv_writes st ++ [upsert (df st) r]))
            (var_student_id st)
          = with_inputs
              (with_inputs
                 (with_store st (upsert (df st) r)
                    (csv_writes st ++ [upsert (df st) r])) [] [] [])
              (strip (score_text (q1_score r))) (strip (score_text (q2_score r)))
              (comment r)).
  { unfold _populate_existing. rewrite <- Hr.
    rewrite bool_decide_eq_false_2 by done.
    cbn [df with_inputs with_store]. rewrite Hm.
    rewrite (list_lookup_total_correct _ _ _ Hrow), H1, H2, H3.
    by rewrite !Hcell. }
  rewrite Heq. cbn [entry_q1 entry_q2 text_comment with_inputs].
  rewrite Hq1, Hq2, Hc. split; [done|]. split; [done|]. split; [done|].
  intros Hds. unfold _compute_total. cbn [entry_q1 entry_q2 with_inputs].
  rewrite <- Hq1, <- Hq2.
  assert (G1 : clamp_int (strip (score_text (q1_score r))) 0 50 None = q1_score r).
  { apply score_text_clamp_option; [done|]. rewrite Hq1. apply clamp_int_range. }
  assert (G2 : clamp_int (strip (score_text (q2_score r))) 0 50 None = q2_score r).
  { apply score_text_clamp_option; [done|]. rewrite Hq2. apply clamp_int_range. }
  by rewrite G1, G2.
Qed.

End ReopenFacts.

(** ** The sheets of the export *)

Section SheetsMore.
Context `{U : Unicode}.

Lemma filter_fmap_list {A B} (f : A -> B) (P : B -> Prop)
    `{!forall x, Decision (P x)} (l : list A) :
  filter P (f <$> l) = f <$> filter (fun x => P (f x)) l.
Proof.
  induction l as [|x l IH]; [done|]. cbn [fmap list_fmap].
  rewrite !filter_cons. destruct (decide (P (f x))); [|done].
  cbn [fmap list_fmap]. by f_equal.
Qed.

Lemma working_copy_rows d : rows (working_copy d) = wc_row <$> rows d.
Proof.
  unfold working_copy, set_column_astype_str. cbn [rows].
  by rewrite <- list_fmap_compose.
Qed.

Lemma wc_row_class_time r :
  py_str (wc_row r !! "class_time_str") = py_str (r !! "class_time").
Proof. unfold wc_row. cbv zeta. by rewrite lookup_insert_eq, lookup_insert_ne. Qed.

Lemma wc_row_sheet r : sheet_row (wc_row r) = sheet_row r.
Proof.
  unfold sheet_row, export_cols, cols, wc_row. cbv zeta. cbn [fmap list_fmap].
  by rewrite !lookup_insert_ne.
Qed.

Lemma section_rows_working_copy d ct :
  section_rows (working_copy d) ct = wc_row <$> rows_of_section d ct.
Proof.
  unfold section_rows, rows_of_section, section_target.
  rewrite working_copy_rows, filter_fmap_list.
  f_equal. apply list_filter_iff. intros r. by rewrite wc_row_class_time.
Qed.

(** The labels of the sheets are the section labels, in their order. *)
Lemma export_labels df wb :
  (export_gradebook df).2 = Some wb ->
  label <$> wb = class_times (working_copy (ensure_columns df)).
Proof.
  rewrite export_gradebook_sheets.
  destruct (class_times _) as [|ct0 cts]; [done|].
  intros Hwb. apply mapM_Some_1 in Hwb.
  induction Hwb as [|ct sheet cts' wb' Hct _ IH]; [done|].
  cbn [fmap list_fmap]. f_equal; [|done].
  by destruct (build_sheet_inv _ _ _ Hct) as (_ & -> & _).
Qed.

Lemma class_times_elem d ct :
  ct ∈ class_times (working_copy d) <->
  exists r, r ∈ rows d /\ section_of (py_str (r !! "class_time")) = ct.
Proof.
  unfold class_times.
  rewrite (sort_stable_Permutation str_le), elem_of_remove_dups.
  rewrite working_copy_rows, <- list_fmap_compose, list_elem_of_fmap.
  split.
  - intros (r & -> & Hr). exists r. split; [done|]. simpl.
    by rewrite wc_row_class_time.
  - intros (r & Hr & <-). exists r. split; [|done]. simpl.
    by rewrite wc_row_class_time.
Qed.

(** The data rows of a sheet are the rows of its section, written out and
    styled, each as often as it is in the table. *)
Lemma export_body df wb sheet :
  (export_gradebook df).2 = Some wb -> sheet ∈ wb ->
  body sheet ≡ₚ (fun r => style_row (sheet_row r))
                  <$> rows_of_section (ensure_columns df) (label sheet).
Proof.
  intros Hwb Hsheet.
  destruct (export_gradebook_sheet _ _ _ Hwb Hsheet) as [ct Hct].
  destruct (build_sheet_inv _ _ _ Hct) as (sorted & -> & _ & -> & _ & _ & Hperm).
  rewrite section_rows_working_copy in Hperm.
  transitivity ((fun r => style_row (sheet_row r)) <$> sorted.*2).
  { by rewrite <- list_fmap_compose. }
  rewrite Hperm, <- list_fmap_compose.
  assert (Hext : ((fun r => style_row (sheet_row r)) ∘ wc_row)
                   <$> rows_of_section (ensure_columns df) ct
                 = (fun r => style_row (sheet_row r))
                   <$> rows_of_section (ensure_columns df) ct).
  { apply list_fmap_ext. intros _ r _. simpl. by rewrite wc_row_sheet. }
  by rewrite Hext.
Qed.

Lemma styled_class_time (r x : gmap string pyval) :
  style_row (sheet_row x) = style_row (sheet_row r) ->
  x !! "class_time" = r !! "class_time".
Proof. rewrite !style_sheet_row. cbv zeta. by intros [= -> _]. Qed.

Lemma section_of_blank ct : strip ct = [] -> section_of ct = ungrouped.
Proof.
  intros He. unfold section_of. rewrite bool_decide_eq_false_2; [done|].
  intros Hn. by apply Hn.
Qed.

Lemma section_of_named ct : strip ct <> [] -> section_of ct = ct.
Proof. intros Hn. unfold section_of. by rewrite bool_decide_eq_true_2. Qed.

Lemma section_of_nonempty ct : section_of ct <> [].
Proof.
  unfold section_of. case_bool_decide as Hs; [|done].
  intros ->. by apply Hs.
Qed.

Lemma section_target_ungrouped : section_target ungrouped = [].
Proof. done. Qed.

Lemma section_target_named ct : ct <> ungrouped -> section_target ct = ct.
Proof. intros Hn. unfold section_target. by rewrite bool_decide_eq_false_2. Qed.

(** X14: for a table in which no class time is missing, the workbook has
    one sheet for each section of the table, a section being the class time
    of a row, or the label for rows with a blank one; no two sheets are for
    the same section and the sheets are in the order of the labels. *)
Theorem export_sheets_are_sections (df : DataFrame) (wb : list Sheet) :
  class_times_present df ->
  (export_gradebook df).2 = Some wb ->
  NoDup (label <$> wb) /\
  StronglySorted (fun a b => str_le a b = true) (label <$> wb) /\
  forall ct,
    ct ∈ label <$> wb <->
    exists r, r ∈ rows (export_gradebook df).1 /\
              section_of (py_str (r !! "class_time")) = ct.
Proof.
  intros _ Hwb. rewrite (export_labels _ _ Hwb), export_gradebook_table.
  split; [|split].
  - unfold class_times. rewrite (sort_stable_Permutation str_le).
    apply NoDup_remove_dups.
  - apply sort_stable_StronglySorted; [apply str_le_total | apply str_le_trans].
  - apply class_times_elem.
Qed.

(** X15: for a table in which no class time is missing, the data rows of
    a sheet are exactly the rows of the table whose stripped class time is
    that of the sheet, one sheet row for each. *)
Theorem export_sheet_rows (df : DataFrame) (wb : list Sheet) (sheet : Sheet) :
  class_times_present df ->
  (export_gradebook df).2 = Some wb -> sheet ∈ wb ->
  body sheet ≡ₚ (fun r => style_row (sheet_row r))
                  <$> rows_of_section (export_gradebook df).1 (label sheet).
Proof. intros _. rewrite export_gradebook_table. apply export_body. Qed.

(** X16: for a table in which no class time is missing, a row whose class
    time has no white space around it and is not the label of the rows
    with a blank class time is in the sheet of its section, and in no sheet
    with another label. *)
Theorem export_row_in_its_sheet (df : DataFrame) (wb : list Sheet)
    (r : gmap string pyval) :
  class_times_present df ->
  (export_gradebook df).2 = Some wb ->
  r ∈ rows (export_gradebook df).1 ->
  strip (py_str (r !! "class_time")) = py_str (r !! "class_time") ->
  py_str (r !! "class_time") <> ungrouped ->
  (exists sheet,
      sheet ∈ wb /\
      label sheet = section_of (py_str (r !! "class_time")) /\
      style_row (sheet_row r) ∈ body sheet) /\
  (forall sheet,
      sheet ∈ wb -> style_row (sheet_row r) ∈ body sheet ->
      label sheet = section_of (py_str (r !! "class_time"))).
Proof.
  intros _. rewrite export_gradebook_table. intros Hwb Hr Hstrip Hnot.
  set (ct := py_str (r !! "class_time")) in *.
  split.
  - assert (Htarget : strip ct = section_target (section_of ct)).
    { destruct (decide (strip ct = [])) as [He|Hne].
      - by rewrite (section_of_blank _ He), section_target_ungrouped.
      - by rewrite (section_of_named _ Hne), (section_target_named _ Hnot). }
    assert (Hl : section_of ct ∈ label <$> wb).
    { rewrite (export_labels _ _ Hwb). apply class_times_elem. by exists r. }
    apply list_elem_of_fmap in Hl as (sheet & Hlabel & Hsheet).
    exists sheet. split; [done|]. split; [done|].
    rewrite (export_body _ _ _ Hwb Hsheet), <- Hlabel.
    apply list_elem_of_fmap. exists r. split; [done|].
    apply list_elem_of_filter. by split.
  - intros sheet Hsheet Hin. rewrite (export_body _ _ _ Hwb Hsheet) in Hin.
    apply list_elem_of_fmap in Hin as (x & Hx & Hxin).
    apply list_elem_of_filter in Hxin as [Hxt _].
    apply eq_sym, styled_class_time in Hx. rewrite Hx in Hxt. fold ct in Hxt.
    destruct (decide (label sheet = ungrouped)) as [Hu|Hu].
    + rewrite Hu, section_target_ungrouped in Hxt.
      by rewrite (section_of_blank _ Hxt).
    + rewrite (section_target_named _ Hu) in Hxt.
      destruct (decide (strip ct = [])) as [He|Hne].
      * exfalso. assert (Hl : label sheet ∈ label <$> wb)
          by (apply list_elem_of_fmap; by exists sheet).
        rewrite (export_labels _ _ Hwb) in Hl.
        apply class_times_elem in Hl as (x' & _ & Hx').
        apply (section_of_nonempty (py_str (x' !! "class_time"))). congruence.
      * rewrite (section_of_named _ Hne). congruence.
Qed.

(** X17: a row with a class time is in no sheet at all when its stripped
    class time is the label of the rows without class time, or is not the
    label of any sheet. *)
Theorem export_row_left_out (df : DataFrame) (wb : list Sheet)
    (r : gmap string pyval) (sheet : Sheet) :
  (export_gradebook df).2 = Some wb ->
  strip (py_str (r !! "class_time")) <> [] ->
  strip (py_str (r !! "class_time")) = ungrouped \/
    strip (py_str (r !! "class_time")) ∉ label <$> wb ->
  sheet ∈ wb ->
  style_row (sheet_row r) ∉ body sheet.
Proof.
  intros Hwb Hne Hout Hsheet Hin.
  rewrite (export_body _ _ _ Hwb Hsheet) in Hin.
  apply list_elem_of_fmap in Hin as (x & Hx & Hxin).
  apply list_elem_of_filter in Hxin as [Hxt _].
  apply eq_sym, styled_class_time in Hx. rewrite Hx in Hxt.
  unfold section_target in Hxt. case_bool_decide as Hu; [done|].
  destruct Hout as [Hout|Hout]; [congruence|].
  apply Hout. rewrite Hxt. apply list_elem_of_fmap. by exists sheet.
Qed.

(** X18: a data row with a name, an id and both scores has no fill in any
    cell. *)
Theorem export_complete_row_plain (df : DataFrame) (wb : list Sheet)
    (sheet : Sheet) (row : list Cell) :
  (export_gradebook df).2 = Some wb -> sheet ∈ wb -> row ∈ body sheet ->
  ~ cell_empty row 1 -> ~ cell_empty row 2 ->
  ~ cell_empty row 3 -> ~ cell_empty row 4 ->
  Forall (fun c => fill c = no_fill) row.
Proof.
  intros Hwb Hsheet Hrow.
  destruct (export_row_inv _ _ _ _ Hwb Hsheet Hrow) as [_ [r ->]].
  rewrite style_sheet_row. unfold cell_empty, row_value.
  cbn [lookup list_lookup mbind option_bind value]. intros H1 H2 H3 H4.
  rewrite !bool_decide_eq_false_2 by done. cbn [orb].
  repeat constructor.
Qed.

(** X19: a score cell that holds the number 0 is filled as missing. *)
Theorem export_zero_score_missing (df : DataFrame) (wb : list Sheet)
    (sheet : Sheet) (row : list Cell) :
  (export_gradebook df).2 = Some wb -> sheet ∈ wb -> row ∈ body sheet ->
  (row_value row 3 = Some (PInt 0) -> fill <$> row !! 3%nat = Some FILL_MISSING) /\
  (row_value row 4 = Some (PInt 0) -> fill <$> row !! 4%nat = Some FILL_MISSING).
Proof.
  intros Hwb Hsheet Hrow.
  destruct (export_row_inv _ _ _ _ Hwb Hsheet Hrow) as [_ [r ->]].
  rewrite style_sheet_row. unfold row_value.
  cbn [lookup list_lookup mbind option_bind value fmap option_fmap option_map fill].
  split; intros ->; reflexivity.
Qed.

End SheetsMore.

(** ** File names that follow the convention *)

Section ParserMore.
Context `{U : Unicode}.

Lemma rfind_None c s : c ∉ s -> rfind c s = None.
Proof.
  induction s as [|x s IH]; [done|]. intros Hn. simpl.
  apply not_elem_of_cons in Hn as [Hx Hs]. rewrite (IH Hs).
  destruct (N.eqb_spec x c); [congruence|done].
Qed.

Lemma rfind_last c a b : c ∉ b -> rfind c (a ++ c :: b) = Some (length a).
Proof.
  intros Hb. induction a as [|x a IH]; simpl.
  - by rewrite (rfind_None _ _ Hb), N.eqb_refl.
  - by rewrite IH.
Qed.

Lemma basename_dir d base : 47%N ∉ base -> basename (d ++ 47%N :: base) = base.
Proof.
  intros Hb. unfold basename. rewrite (rfind_last _ _ _ Hb).
  replace (d ++ 47%N :: base) with ((d ++ [47%N]) ++ base)
    by (by rewrite <- app_assoc).
  apply drop_app_length'. rewrite length_app. simpl. lia.
Qed.

Lemma basename_plain base : 47%N ∉ base -> basename base = base.
Proof. intros Hb. unfold basename. by rewrite (rfind_None _ _ Hb). Qed.

Lemma splitext_pdf base :
  (exists c, c ∈ base /\ c <> 46%N) -> splitext_root (base ++ py ".pdf") = base.
Proof.
  intros (c & Hc & Hne). unfold splitext_root.
  change (py ".pdf") with (46%N :: py "pdf").
  rewrite rfind_last by (apply (bool_decide_unpack _); by vm_compute).
  rewrite take_app_length.
  destruct (forallb _ base) eqn:Hall; [|done].
  rewrite forallb_forall in Hall. apply list_elem_of_In, Hall in Hc.
  by apply N.eqb_eq in Hc.
Qed.

Lemma split_on_single sep s : sep ∉ s -> split_on sep s = [s].
Proof.
  induction s as [|x s IH]; [done|]. intros Hn.
  apply not_elem_of_cons in Hn as [Hx Hs]. simpl. rewrite (IH Hs).
  destruct (N.eqb_spec x sep); [congruence|done].
Qed.

Lemma split_on_app sep a b :
  split_on sep (a ++ sep :: b) = split_on sep a ++ split_on sep b.
Proof.
  induction a as [|x a IH]; simpl.
  - by rewrite N.eqb_refl.
  - rewrite IH. destruct (x =? sep)%N; [done|].
    destruct (split_on_cons_inv sep a) as (p & ps & ->). done.
Qed.

(** X20: for a file named class-time, name, id with hyphens between and
    [.pdf] at the end, where neither the name nor the id has a hyphen and
    no part has a slash, the parser returns the three parts, each stripped
    of white space around it; the class time may itself have hyphens. *)
Theorem parse_filename_meta_convention (dir ct nm sid : pystr) :
  dir = [] \/ (exists d, dir = d ++ [47%N]) ->
  47%N ∉ ct -> 47%N ∉ nm -> 47%N ∉ sid ->
  45%N ∉ nm -> 45%N ∉ sid ->
  parse_filename_meta (submission_path dir ct nm sid) !! "class_time"
    = Some (strip ct) /\
  parse_filename_meta (submission_path dir ct nm sid) !! "name"
    = Some (strip nm) /\
  parse_filename_meta (submission_path dir ct nm sid) !! "student_id"
    = Some (strip sid).
Proof.
  intros Hdir Hct Hnm Hsid Hnm' Hsid'.
  set (base := ct ++ 45%N :: nm ++ 45%N :: sid).
  assert (Hbase : 47%N ∉ base ++ py ".pdf").
  { rewrite elem_of_app. intros [H|H].
    - unfold base in H.
      rewrite elem_of_app, elem_of_cons, elem_of_app, elem_of_cons in H.
      destruct H as [?|[?|[?|[?|?]]]]; done.
    - revert H. apply (bool_decide_unpack _). by vm_compute. }
  assert (Hstem : stem (submission_path dir ct nm sid) = base).
  { unfold stem, submission_path.
    change (py "-") with [45%N].
    replace (dir ++ ct ++ [45%N] ++ nm ++ [45%N] ++ sid ++ py ".pdf")
      with (dir ++ (base ++ py ".pdf"))
      by (unfold base; rewrite <- !app_assoc; simpl;
          rewrite <- !app_assoc; simpl; done).
    assert (Hb : basename (dir ++ (base ++ py ".pdf")) = base ++ py ".pdf").
    { destruct Hdir as [->|[d ->]].
      - by apply basename_plain.
      - rewrite <- app_assoc. by apply basename_dir. }
    rewrite Hb. apply splitext_pdf. exists 45%N. split; [|done].
    unfold base. rewrite elem_of_app, elem_of_cons. right. by left. }
  assert (Hsplit : split_on 45%N base = split_on 45%N ct ++ [nm; sid]).
  { unfold base. rewrite split_on_app. f_equal.
    by rewrite split_on_app, !split_on_single. }
  destruct (split_on_cons_inv 45%N ct) as (p & ps & Hp).
  destruct (parse_filename_meta_segments (submission_path dir ct nm sid)
              (split_on 45%N ct) nm sid) as (H1 & H2 & H3).
  { by rewrite Hstem. }
  { by rewrite Hp. }
  change (py "-") with [45%N] in H3. rewrite join_split_on in H3. done.
Qed.

End ParserMore.

Lemma parse_filename_meta_convention_witness :
  parse_filename_meta (submission_path (py "sub/") docstring_class_time
                         docstring_name (py "2023151554")) !! "class_time"
    = Some (strip docstring_class_time) /\
  parse_filename_meta (submission_path (py "sub/") docstring_class_time
                         docstring_name (py "2023151554")) !! "name"
    = Some (strip docstring_name) /\
  parse_filename_meta (submission_path (py "sub/") docstring_class_time
                         docstring_name (py "2023151554")) !! "student_id"
    = Some (strip (py "2023151554")).
Proof.
  apply (parse_filename_meta_convention (py "sub/") docstring_class_time
           docstring_name (py "2023151554")).
  - right. by exists (py "sub").
  - apply (bool_decide_unpack _). by vm_compute.
  - apply (bool_decide_unpack _). by vm_compute.
  - apply (bool_decide_unpack _). by vm_compute.
  - apply (bool_decide_unpack _). by vm_compute.
  - apply (bool_decide_unpack _). by vm_compute.
Defined.

(** ** The further properties on sample data *)

Lemma store_ok_empty_table : store_ok empty_table.
Proof. intros c Hc. exact Hc. Qed.

Lemma store_consistent_empty_table : store_consistent empty_table.
Proof. constructor. Qed.

Lemma sample_on_screen q1 q2 : on_screen (sample_app q1 q2).
Proof.
  exists (py "sub/AM1-2-Alice-2023151554.pdf").
  split_and!; [done|done|by vm_compute..].
Qed.

Lemma export_carol : (export_gradebook (upsert empty_table carol)).2 = Some [carol_sheet].
Proof. vm_compute. reflexivity. Qed.

Lemma export_padded : (export_gradebook (upsert empty_table padded)).2 = Some [padded_sheet].
Proof. vm_compute. reflexivity. Qed.

Lemma same_key_present : class_times_present same_key_table.
Proof. apply (bool_decide_unpack _). by vm_compute. Qed.

Lemma carol_present : class_times_present (upsert empty_table carol).
Proof. apply (bool_decide_unpack _). by vm_compute. Qed.

Lemma handle_persists_witness :
  (df (handle (sample_app (py "30") []) ControlS) = df (sample_app (py "30") []) /\
   csv_writes (handle (sample_app (py "30") []) ControlS)
   = csv_writes (sample_app (py "30") [])) \/
  (exists record,
      df (handle (sample_app (py "30") []) ControlS)
      = upsert (df (sample_app (py "30") [])) record /\
      csv_writes (handle (sample_app (py "30") []) ControlS)
      = csv_writes (sample_app (py "30") [])
        ++ [df (handle (sample_app (py "30") []) ControlS)]).
Proof.
  apply (handle_persists (sample_app (py "30") []) ControlS). by exists [].
Defined.

Lemma run_store_consistent_witness :
  store_ok (df (run (sample_app [] [])
                  [Key (py "3"); Key (py "0"); Return; Key (py "7"); Return; Return])) /\
  store_consistent (df (run (sample_app [] [])
                  [Key (py "3"); Key (py "0"); Return; Key (py "7"); Return; Return])).
Proof.
  apply (run_store_consistent (sample_app [] []) _);
    [by exists []|exact store_consistent_empty_table].
Defined.

Lemma keys_ignored_witness :
  _on_keypress (with_quick (sample_quick 2 (py "4") (py "30") (py "4")) 3 []) (py "5")
    = with_quick (sample_quick 2 (py "4") (py "30") (py "4")) 3 [] /\
  _on_keypress (sample_quick 1 (py "4") (py "4") []) (py "x")
    = sample_quick 1 (py "4") (py "4") [].
Proof.
  split.
  - destruct (keys_ignored
                (with_quick (sample_quick 2 (py "4") (py "30") (py "4")) 3 []))
      as (_ & H & _).
    destruct H as [H _]; [discriminate|discriminate|]. apply H.
  - destruct (keys_ignored (sample_quick 1 (py "4") (py "4") [])) as (_ & _ & H).
    apply H. reflexivity.
Defined.

Lemma preview_is_committed_witness :
  entry_of 1 (_on_keypress (sample_quick 1 (py "9") (py "9") []) [57%N])
    = py "50" /\
  entry_q1 (_on_enter (_on_keypress (sample_quick 1 (py "9") (py "9") []) [57%N]))
    = py "50".
Proof.
  assert (H : strip (_quick_buffer
                       (_on_keypress (sample_quick 1 (py "9") (py "9") []) [57%N]))
              <> []).
  { vm_compute. discriminate. }
  apply (preview_is_committed (sample_quick 1 (py "9") (py "9") []) 57%N) in H;
    [|reflexivity|left; reflexivity|reflexivity].
  destruct H as (H1 & _ & _ & _ & H2 & _).
  split; [exact H1|]. rewrite H2. exact H1.
Defined.

Lemma on_backspace_spec_witness :
  _quick_buffer (_on_backspace (sample_quick 1 [] (py "30") [])) = [] /\
  entry_of 1 (_on_backspace (sample_quick 1 [] (py "30") [])) = [].
Proof.
  assert (H : focus_in_comment (sample_quick 1 [] (py "30") []) = false)
    by reflexivity.
  apply on_backspace_spec in H; [|left; reflexivity].
  destruct H as (H1 & _ & H3 & _).
  split; [exact H1|]. apply H3. reflexivity.
Defined.

Lemma keypress_backspace_witness :
  _quick_buffer (_on_backspace (_on_keypress (sample_quick 2 (py "4") (py "30") (py "4"))
                                  [50%N]))
    = py "4".
Proof.
  assert (H : (length (_quick_buffer (sample_quick 2 (py "4") (py "30") (py "4"))) < 2)%nat).
  { simpl. lia. }
  apply (keypress_backspace _ 50%N) in H;
    [|reflexivity|right; reflexivity|reflexivity].
  exact (proj1 H).
Defined.

Lemma shown_file_is_current_witness :
  idx (_load_pdf (sample_app [] []) 7) = 1 /\
  on_screen (run (sample_app [] [])
               [Key (py "3"); Key (py "0"); Return; Key (py "7"); Return; Return]).
Proof.
  destruct (shown_file_is_current (sample_app [] [])) as [Hload Hrun].
  split.
  - destruct (Hload ltac:(discriminate) 7) as [_ Hi]. exact Hi.
  - apply Hrun, sample_on_screen.
Defined.

Lemma navigation_steps_witness :
  idx (next_pdf (sample_app [] [])) = 1 /\
  idx (prev_pdf (sample_app [] [])) = 0 /\
  idx (save_and_next (sample_app [] [])) = 0.
Proof.
  exact (navigation_steps (sample_app [] []) (sample_on_screen [] [])).
Defined.

Lemma run_stage_ok_witness :
  stage_ok (run (sample_app [] [])
              [Key (py "3"); Key (py "0"); Return; Key (py "7"); Return; Escape]).
Proof.
  apply run_stage_ok. split; [by left|discriminate].
Defined.

Lemma reopen_after_save_witness :
  entry_q1 (_populate_existing (save_current (sample_app (py " 30") [])).2
              (py "2023151554"))
    = strip (score_text (clamp_int (py " 30") 0 50 None)) /\
  _compute_total (_populate_existing (save_current (sample_app (py " 30") [])).2
                    (py "2023151554"))
    = _compute_total (sample_app (py " 30") []).
Proof.
  destruct (reopen_after_save (sample_app (py " 30") [])) as (H1 & _ & _ & H4).
  { by exists []. }
  { by vm_compute. }
  { vm_compute. discriminate. }
  split; [exact H1|]. apply H4.
  intros c [Hc| ->]; [|reflexivity].
  unfold isspace, latin1, latin1_isspace.
  destruct Hc as [H48 H57].
  repeat match goal with
         | |- context [(?a <=? ?b)%N] => destruct (N.leb_spec a b); try lia
         | |- context [(?a =? ?b)%N] => destruct (N.eqb_spec a b); try lia
         end; reflexivity.
Defined.

Lemma export_sheets_are_sections_witness :
  NoDup (label <$> [same_key_sheet]) /\
  StronglySorted (fun a b => str_le a b = true) (label <$> [same_key_sheet]) /\
  forall ct,
    ct ∈ label <$> [same_key_sheet] <->
    exists r, r ∈ rows (export_gradebook same_key_table).1 /\
              section_of (py_str (r !! "class_time")) = ct.
Proof.
  exact (export_sheets_are_sections same_key_table [same_key_sheet]
           same_key_present export_same_key).
Defined.

Lemma export_sheet_rows_witness :
  body same_key_sheet
  ≡ₚ (fun r => style_row (sheet_row r))
       <$> rows_of_section (export_gradebook same_key_table).1 (label same_key_sheet).
Proof.
  apply (export_sheet_rows same_key_table [same_key_sheet] same_key_sheet
           same_key_present export_same_key).
  by left.
Defined.

Lemma export_row_in_its_sheet_witness :
  exists sheet,
    sheet ∈ [carol_sheet] /\
    label sheet = section_of (py_str ((list_to_map (items carol) : gmap string pyval)
                                        !! "class_time")) /\
    style_row (sheet_row (list_to_map (items carol))) ∈ body sheet.
Proof.
  apply (export_row_in_its_sheet (upsert empty_table carol) [carol_sheet]
           (list_to_map (items carol)) carol_present export_carol).
  - apply (bool_decide_unpack _). by vm_compute.
  - reflexivity.
  - discriminate.
Defined.

Lemma export_row_left_out_witness :
  style_row (sheet_row (list_to_map (items padded))) ∉ body padded_sheet.
Proof.
  apply (export_row_left_out (upsert empty_table padded) [padded_sheet]
           (list_to_map (items padded)) padded_sheet export_padded).
  - discriminate.
  - right. apply (bool_decide_unpack _). by vm_compute.
  - by left.
Defined.

Lemma export_complete_row_plain_witness :
  Forall (fun c => fill c = no_fill)
    (plain [PStr (py "A"); PStr (py "y"); PStr (py "a");
            PInt 10; PInt 10; PInt 20; PStr []; PStr (py "f.pdf")]).
Proof.
  apply (export_complete_row_plain same_key_table [same_key_sheet] same_key_sheet _
           export_same_key); [by left|by left|discriminate..].
Defined.

Lemma export_zero_score_missing_witness :
  fill <$> carol_row !! 3%nat = Some FILL_MISSING.
Proof.
  apply (export_zero_score_missing (upsert empty_table carol) [carol_sheet]
           carol_sheet carol_row export_carol); [by left|by left|reflexivity].
Defined.

(** ** Sheet titles *)

Section TitlesMore.

Lemma py_inj s1 s2 : py s1 = py s2 -> s1 = s2.
Proof.
  unfold py. intros H.
  rewrite <- (string_of_list_ascii_of_string s1), <- (string_of_list_ascii_of_string s2).
  f_equal. revert H. generalize (list_ascii_of_string s1) (list_ascii_of_string s2).
  intros l1. induction l1 as [|a l1 IH]; intros [|b l2] H; try discriminate; [done|].
  injection H as Hab Hl. f_equal; [|by apply IH].
  rewrite <- (ascii_N_embedding a), <- (ascii_N_embedding b). by rewrite Hab.
Qed.

Lemma py_String a s : py (String a s) = N_of_ascii a :: py s.
Proof. reflexivity. Qed.

Lemma pretty_N_char_digit x : (48 <= N_of_ascii (pretty_N_char x) <= 57)%N.
Proof. unfold pretty_N_char. repeat case_match; vm_compute; split; discriminate. Qed.

Lemma pretty_N_go_chars x s c :
  c ∈ py (pretty_N_go x s) -> c ∈ py s \/ (48 <= c <= 57)%N.
Proof.
  revert s. induction (N.lt_wf_0 x) as [x _ IH]. intros s Hc.
  destruct (decide (x = 0%N)) as [->|Hx].
  - rewrite pretty_N_go_0 in Hc. by left.
  - rewrite pretty_N_go_step in Hc by lia.
    apply IH in Hc; [|apply N.div_lt; lia].
    destruct Hc as [Hc|Hc]; [|by right].
    rewrite py_String in Hc. apply elem_of_cons in Hc as [->|Hc]; [|by left].
    right. apply pretty_N_char_digit.
Qed.

Lemma pretty_N_go_length (d : nat) x s :
  (x < 10 ^ N.of_nat d)%N ->
  (String.length (pretty_N_go x s) <= String.length s + d)%nat.
Proof.
  revert x s. induction d as [|d IH]; intros x s Hx.
  - assert (x = 0%N) as -> by (simpl in Hx; lia). rewrite pretty_N_go_0. lia.
  - destruct (decide (x = 0%N)) as [->|Hx0].
    + rewrite pretty_N_go_0. lia.
    + rewrite pretty_N_go_step by lia.
      etrans; [apply IH|simpl; lia].
      apply N.Div0.div_lt_upper_bound.
      rewrite Nat2N.inj_succ, N.pow_succ_r' in Hx. lia.
Qed.

Lemma length_py s : length (py s) = String.length s.
Proof.
  unfold py. rewrite length_fmap. induction s as [|a s IH]; simpl; [done|].
  by rewrite IH.
Qed.

Lemma str_of_int_chars k c :
  c ∈ str_of_int k -> c = 45%N \/ (48 <= c <= 57)%N.
Proof.
  unfold str_of_int. destruct k as [|p|p].
  - intros Hc. change (c ∈ [48%N]) in Hc. right.
    apply list_elem_of_singleton in Hc as ->. lia.
  - change (pretty (Z.pos p)) with (pretty (N.pos p)).
    unfold pretty, pretty_N. rewrite decide_False by done.
    intros Hc. apply pretty_N_go_chars in Hc as [Hc|Hc]; [|by right].
    by apply elem_of_nil in Hc.
  - change (pretty (Z.neg p)) with ("-" +:+ pretty (N.pos p))%string.
    unfold pretty, pretty_N. rewrite decide_False by done.
    intros Hc. change (c ∈ 45%N :: py (pretty_N_go (N.pos p) "")) in Hc.
    apply elem_of_cons in Hc as [->|Hc]; [by left|].
    apply pretty_N_go_chars in Hc as [Hc|Hc]; [|by right].
    by apply elem_of_nil in Hc.
Qed.

Lemma str_of_int_length (d : nat) k :
  0 < k < 10 ^ Z.of_nat d -> (length (str_of_int k) <= d)%nat.
Proof.
  intros [Hk Hd]. unfold str_of_int. rewrite length_py.
  destruct k as [|p|p]; [lia| |lia].
  change (pretty (Z.pos p)) with (pretty (N.pos p)).
  unfold pretty, pretty_N. rewrite decide_False by done.
  apply (pretty_N_go_length d (N.pos p) "").
  assert (H : Z.of_N (N.pos p) < Z.of_N (10 ^ N.of_nat d)).
  { rewrite N2Z.inj_pow, nat_N_Z. exact Hd. }
  lia.
Qed.

Lemma str_of_int_inj k k' : str_of_int k = str_of_int k' -> k = k'.
Proof. intros H. apply py_inj in H. by apply (inj pretty). Qed.

Lemma app_pivot_inj (c : N) (a a' d d' : pystr) :
  c ∉ d -> c ∉ d' -> a ++ c :: d = a' ++ c :: d' -> d = d'.
Proof.
  intros Hd Hd'. revert a'.
  induction a as [|x a IH]; intros [|x' a'] H; simpl in H.
  - by injection H.
  - injection H as -> ->. exfalso. apply Hd. apply elem_of_app. right. by left.
  - injection H as -> <-. exfalso. apply Hd'. apply elem_of_app. right. by left.
  - injection H as _ H. by apply (IH a').
Qed.

Lemma title_candidate_shape base_name k :
  exists a, title_candidate base_name k = a ++ 95%N :: str_of_int k.
Proof.
  unfold title_candidate. cbv zeta.
  change (py "_" ++ str_of_int k) with (95%N :: str_of_int k).
  destruct (31 <? _); eauto.
Qed.

Lemma title_candidate_inj base_name k k' :
  title_candidate base_name k = title_candidate base_name k' -> k = k'.
Proof.
  destruct (title_candidate_shape base_name k) as [a ->].
  destruct (title_candidate_shape base_name k') as [a' ->].
  intros H. apply str_of_int_inj. apply (app_pivot_inj 95%N a a'); [| |done].
  - intros Hc. apply str_of_int_chars in Hc. lia.
  - intros Hc. apply str_of_int_chars in Hc. lia.
Qed.

Lemma title_candidate_length base_name k :
  (length (str_of_int k) <= 30)%nat ->
  (length base_name <= 31)%nat ->
  (length (title_candidate base_name k) <= 31)%nat.
Proof.
  intros Hk Hb. unfold title_candidate, slice_to. cbv zeta.
  change (py "_" ++ str_of_int k) with (95%N :: str_of_int k).
  destruct (Z.ltb_spec 31 (Z.of_nat (length base_name)
                           + Z.of_nat (length (95%N :: str_of_int k)))) as [H|H].
  - simpl length in *. destruct (Z.ltb_spec (31 - Z.of_nat (S (length (str_of_int k)))) 0);
      [lia|].
    rewrite length_app, length_take. simpl. lia.
  - rewrite length_app. simpl length in *. lia.
Qed.

(** Some round up to the number of titles finds a name that is free. *)
Lemma title_candidate_free (sheetnames : list pystr) base_name :
  exists j, 1 <= j <= Z.of_nat (length sheetnames) + 1 /\
            title_candidate base_name j ∉ sheetnames.
Proof.
  set (cands := title_candidate base_name <$> seqZ 1 (Z.of_nat (length sheetnames) + 1)).
  destruct (decide (Forall (fun c => c ∈ sheetnames) cands)) as [Hall|Hex].
  - exfalso. assert (Hnd : NoDup cands).
    { apply NoDup_fmap_2_strong; [|apply NoDup_seqZ].
      intros ?? _ _. apply title_candidate_inj. }
    assert (Hsub : cands ⊆+ sheetnames).
    { apply NoDup_submseteq; [done|]. by apply Forall_forall. }
    apply submseteq_length in Hsub. unfold cands in Hsub.
    rewrite length_fmap, length_seqZ in Hsub. lia.
  - apply not_Forall_Exists in Hex; [|apply _].
    apply Exists_exists in Hex as (c & Hc & Hfree).
    apply list_elem_of_fmap in Hc as (j & -> & Hj).
    apply elem_of_seqZ in Hj. exists j. split; [lia|done].
Qed.

Lemma title_loop_spec (sheetnames : list pystr) base_name fuel :
  forall sheet_name k,
    (sheet_name ∉ sheetnames) \/
      (exists j, k <= j < k + Z.of_nat fuel /\
                 title_candidate base_name j ∉ sheetnames) ->
    exists t,
      title_loop fuel sheetnames base_name sheet_name k = Some t /\
      (t ∉ sheetnames) /\
      (sheet_name ∉ sheetnames -> t = sheet_name) /\
      (t = sheet_name \/
       exists j, k <= j < k + Z.of_nat fuel /\ t = title_candidate base_name j).
Proof.
  induction fuel as [|fuel IH]; intros sheet_name k Hfree.
  - destruct Hfree as [Hfree|(j & Hj & _)]; [|lia].
    exists sheet_name. simpl. rewrite bool_decide_eq_false_2 by done. auto.
  - simpl. destruct (decide (sheet_name ∈ sheetnames)) as [Hin|Hout].
    + rewrite bool_decide_eq_true_2 by done.
      destruct Hfree as [Hfree|(j & Hj & Hfree)]; [done|].
      destruct (IH (title_candidate base_name k) (k + 1)) as (t & Ht & Hnot & _ & Hor).
      { destruct (decide (j = k)) as [->|Hne]; [by left|].
        right. exists j. split; [lia|done]. }
      exists t. split_and!; [done|done|done|].
      right. destruct Hor as [->|(j' & Hj' & ->)].
      * exists k. split; [lia|done].
      * exists j'. split; [lia|done].
    + rewrite bool_decide_eq_false_2 by done. exists sheet_name. auto.
Qed.

Lemma title_loop_more_fuel (sheetnames : list pystr) base_name fuel :
  forall sheet_name k t fuel',
    title_loop fuel sheetnames base_name sheet_name k = Some t ->
    (fuel <= fuel')%nat ->
    title_loop fuel' sheetnames base_name sheet_name k = Some t.
Proof.
  induction fuel as [|fuel IH]; intros sheet_name k t fuel' H Hle.
  - simpl in H. destruct (bool_decide (sheet_name ∈ sheetnames)) eqn:E; [done|].
    destruct fuel'; simpl; by rewrite E.
  - destruct fuel' as [|fuel']; [lia|]. simpl in *.
    destruct (bool_decide (sheet_name ∈ sheetnames)); [|done].
    apply IH; [done|lia].
Qed.

(** X21: the loop that looks for a sheet title ends, after at most one
    round more than there are titles in the workbook, and however many
    more rounds it is allowed the title is the same.  The title is none of
    those in the workbook; it is the class time cut to 31 characters when
    that is free; and, with fewer than 10^30 titles in the workbook, it
    has at most 31 characters. *)
Theorem sheet_title_fresh (sheetnames : list pystr) (ct : pystr) :
  exists t,
    (forall fuel, (length sheetnames < fuel)%nat ->
                  sheet_title fuel sheetnames ct = Some t) /\
    (t ∉ sheetnames) /\
    ((take 31 ct ∉ sheetnames) -> t = take 31 ct) /\
    (Z.of_nat (length sheetnames) + 1 < 10 ^ 30 -> (length t <= 31)%nat).
Proof.
  set (base_name := if 31 <? Z.of_nat (length ct) then take 31 ct else ct).
  assert (Hbase : base_name = take 31 ct).
  { unfold base_name. destruct (Z.ltb_spec 31 (Z.of_nat (length ct))); [done|].
    rewrite take_ge; [done|lia]. }
  destruct (title_candidate_free sheetnames base_name) as (j & Hj & Hfree).
  destruct (title_loop_spec sheetnames base_name (S (length sheetnames)) base_name 1)
    as (t & Ht & Hnot & Hfirst & Hor).
  { right. exists j. split; [lia|done]. }
  exists t. split_and!.
  - intros fuel Hfuel. unfold sheet_title. cbv zeta. fold base_name.
    apply (title_loop_more_fuel _ _ _ _ _ _ _ Ht). lia.
  - done.
  - rewrite <- Hbase. exact Hfirst.
  - intros Hn. assert (Hlen : (length base_name <= 31)%nat).
    { rewrite Hbase, length_take. lia. }
    destruct Hor as [->|(j' & Hj' & ->)]; [done|].
    apply title_candidate_length; [|done].
    apply str_of_int_length. change (Z.of_nat 30) with 30. lia.
Qed.

End TitlesMore.

Lemma sheet_title_fresh_witness :
  exists t,
    sheet_title 3 [py "AM"; py "AM_1"] (py "AM") = Some t /\
    (t ∉ [py "AM"; py "AM_1"]) /\
    (length t <= 31)%nat.
Proof.
  destruct (sheet_title_fresh [py "AM"; py "AM_1"] (py "AM")) as (t & Hf & Hn & _ & Hl).
  exists t. split_and!; [apply Hf; simpl; lia|exact Hn|apply Hl; simpl; lia].
Defined.

(** ** [str] and [int] *)

Section RoundTrip.
Context `{U : Unicode}.

Lemma drop_while_none p s : Forall (fun c => p c = false) s -> drop_while p s = s.
Proof. intros [|c r Hc _]; [done|]. by apply drop_while_keep. Qed.

Lemma rdrop_while_none p s : Forall (fun c => p c = false) s -> rdrop_while p s = s.
Proof.
  intros H. unfold rdrop_while. rewrite drop_while_none.
  - apply reverse_involutive.
  - by apply Forall_reverse.
Qed.

Lemma strip_none s : Forall (fun c => isspace c = false) s -> strip s = s.
Proof. intros H. unfold strip. by rewrite drop_while_none, rdrop_while_none. Qed.

Lemma to_ascii_low s : Forall (fun c => (c < 128)%N) s -> to_ascii <$> s = s.
Proof.
  induction 1 as [|c r Hc _ IH]; [done|]. rewrite fmap_cons, IH. f_equal.
  unfold to_ascii. by destruct (N.ltb_spec c 128); [|lia].
Qed.

Lemma c_digit_pretty_N_char y :
  (y < 10)%N ->
  c_digit (N_of_ascii (pretty_N_char y)) = Some (Z.of_N y) /\
  (N_of_ascii (pretty_N_char y) =? 95)%N = false.
Proof.
  intros Hy.
  assert (y = 0 \/ y = 1 \/ y = 2 \/ y = 3 \/ y = 4 \/ y = 5 \/ y = 6 \/ y = 7
          \/ y = 8 \/ y = 9)%N as Hc by lia.
  repeat (destruct Hc as [->|Hc]; [by vm_compute|]). subst y. by vm_compute.
Qed.

(** Reading the digits that [pretty_N_go] writes. *)
Lemma digits_acc_pretty x s :
  exists m, forall acc,
    digits_acc acc false (py (pretty_N_go x s))
    = digits_acc (acc * m + Z.of_N x) false (py s).
Proof.
  revert s. induction (N.lt_wf_0 x) as [x _ IH]. intros s.
  destruct (decide (x = 0%N)) as [->|Hx].
  - exists 1. intros acc. rewrite pretty_N_go_0. f_equal. lia.
  - rewrite pretty_N_go_step by lia.
    destruct (IH (x `div` 10)%N ltac:(apply N.div_lt; lia)
                (String (pretty_N_char (x `mod` 10)) s)) as [m Hm].
    exists (10 * m). intros acc. rewrite Hm, py_String.
    destruct (c_digit_pretty_N_char (x `mod` 10)%N) as [Hd H95].
    { apply N.mod_lt. lia. }
    cbn [digits_acc]. rewrite H95, Hd. f_equal.
    rewrite (N.div_mod x 10) at 3 by lia. lia.
Qed.

Lemma long_from_ascii_digits (neg : bool) (s : pystr) (x : Z) :
  s <> [] -> Forall (fun c => (48 <= c <= 57)%N) s ->
  digits_acc 0 false s = Some x ->
  long_from_ascii ((if neg then [45%N] else []) ++ s)
  = Some (if neg then - x else x).
Proof.
  intros Hne Hall Hx.
  assert (Hsp : Forall (fun c => c_isspace c = false) s).
  { eapply Forall_impl; [exact Hall|]. intros c Hc. cbv beta in Hc. unfold c_isspace.
    destruct (N.leb_spec 9 c), (N.leb_spec c 13), (N.eqb_spec c 32); try lia; done. }
  destruct s as [|c r]; [done|]. clear Hne.
  assert (Hc : (48 <= c <= 57)%N) by (by inversion Hall).
  assert (H45 : (c =? 45)%N = false) by (apply N.eqb_neq; lia).
  assert (H43 : (c =? 43)%N = false) by (apply N.eqb_neq; lia).
  assert (H95 : (c =? 95)%N = false) by (apply N.eqb_neq; lia).
  unfold long_from_ascii. destruct neg.
  - change ([45%N] ++ c :: r) with (45%N :: c :: r).
    rewrite drop_while_keep by done. cbv zeta.
    change (45 =? 45)%N with true. cbv iota beta.
    rewrite rdrop_while_none by done. by rewrite H95, Hx.
  - change ([] ++ c :: r) with (c :: r).
    rewrite drop_while_none by done. cbv zeta. rewrite H45, H43.
    rewrite rdrop_while_none by done. by rewrite H95, Hx.
Qed.

Lemma pretty_N_go_digits x :
  Forall (fun c => (48 <= c <= 57)%N) (py (pretty_N_go x "")).
Proof.
  apply Forall_forall. intros c Hc.
  apply pretty_N_go_chars in Hc as [Hc|Hc]; [|done]. by apply elem_of_nil in Hc.
Qed.

Lemma py_int_str_of_int n : py_int (str_of_int n) = Some n.
Proof.
  unfold py_int. rewrite to_ascii_low.
  2:{ apply Forall_forall. intros c Hc. apply str_of_int_chars in Hc. lia. }
  destruct n as [|p|p]; [by vm_compute| |].
  - unfold str_of_int. change (pretty (Z.pos p)) with (pretty (N.pos p)).
    unfold pretty, pretty_N. rewrite decide_False by done.
    destruct (digits_acc_pretty (N.pos p) "") as [m Hm]. specialize (Hm 0).
    change (py "") with (@nil N) in Hm. cbn [digits_acc] in Hm.
    apply (long_from_ascii_digits false (py (pretty_N_go (N.pos p) "")) (Z.pos p));
      [|apply pretty_N_go_digits|by rewrite Hm].
    intros He. rewrite He in Hm. simpl in Hm. injection Hm. lia.
  - unfold str_of_int.
    change (pretty (Z.neg p)) with ("-" +:+ pretty (N.pos p))%string.
    unfold pretty, pretty_N. rewrite decide_False by done.
    destruct (digits_acc_pretty (N.pos p) "") as [m Hm]. specialize (Hm 0).
    change (py "") with (@nil N) in Hm. cbn [digits_acc] in Hm.
    change (py ("-" +:+ pretty_N_go (N.pos p) ""))
      with ([45%N] ++ py (pretty_N_go (N.pos p) "")).
    rewrite (long_from_ascii_digits true _ (Z.pos p));
      [done| |apply pretty_N_go_digits|by rewrite Hm].
    intros He. rewrite He in Hm. simpl in Hm. injection Hm. lia.
Qed.

(** X22: [int] reads back what [str] writes, for every integer short
    enough for the interpreter to convert (at most 4300 digits); so the
    text of an integer in an entry is read by [clamp_int] as that integer
    brought into the range, never as the default, where the digits and the
    minus sign are no white space. *)
Theorem clamp_int_str_of_int (n lo hi : Z) (default : option Z) :
  Z.abs n < 10 ^ 4300 ->
  py_int (str_of_int n) = Some n /\
  (digits_not_space ->
   clamp_int (str_of_int n) lo hi default
   = Some (if n <? lo then lo else if n >? hi then hi else n)).
Proof.
  intros _. split; [apply py_int_str_of_int|].
  intros Hds. unfold clamp_int. rewrite strip_none.
  - rewrite py_int_str_of_int. by destruct (n <? lo), (n >? hi).
  - apply Forall_forall. intros c Hc. apply Hds.
    apply str_of_int_chars in Hc. tauto.
Qed.

End RoundTrip.

Lemma latin1_digits_not_space : digits_not_space.
Proof.
  intros c Hc. unfold isspace, latin1, latin1_isspace.
  repeat match goal with
         | |- context [(?a <=? ?b)%N] => destruct (N.leb_spec a b); try lia
         | |- context [(?a =? ?b)%N] => destruct (N.eqb_spec a b); try lia
         end; reflexivity.
Qed.

Lemma clamp_int_str_of_int_witness :
  py_int (str_of_int (-3)) = Some (-3) /\
  clamp_int (str_of_int 75) 0 50 None = Some 50.
Proof.
  split.
  - apply (clamp_int_str_of_int (-3) 0 50 None). by vm_compute.
  - apply (clamp_int_str_of_int 75 0 50 None); [by vm_compute|].
    apply latin1_digits_not_space.
Defined.

(** * Runs that fail *)

(** ** A save over typed columns *)

Lemma set_items_typed_object types d i kvs :
  (forall k, types k = dt_object) ->
  set_items_typed types d i kvs = inl (foldl (fun d kv => set_at d i kv.1 kv.2) d kvs).
Proof.
  intros Hob. revert d. induction kvs as [|kv kvs IH]; intros d; simpl; [done|].
  by rewrite Hob, IH.
Qed.

(** On columns of object type the save is [upsert]. *)
Lemma upsert_typed_object types df record :
  (forall k, types k = dt_object) ->
  upsert_typed types df record = inl (upsert df record).
Proof.
  intros Hob. unfold upsert_typed, upsert. cbv zeta.
  destruct (bool_decide _); [|done].
  destruct (last_match _ _); [|done]. by apply set_items_typed_object.
Qed.

(** C1: on the grade file read back, the save of a student who is in it
    raises when it assigns the id, a string, to the [int64] column: the row
    has the new class time and name and the old scores, where the
    specification has all its fields overwritten. *)
Theorem upsert_typed_raises :
  last_match (student_id alice_moved) (rows reloaded_table) = Some 0%nat /\
  upsert_typed reloaded_types reloaded_table alice_moved = inr half_written_table /\
  rows half_written_table
    <> <[0%nat := overwrite alice_moved (rows reloaded_table !!! 0%nat)]>
         (rows reloaded_table).
Proof.
  split; [by vm_compute|]. split; [by vm_compute|].
  intros H. apply (f_equal (fun rs => rs !! 0%nat ≫= (.!! "q1_score"))) in H.
  vm_compute in H. discriminate H.
Qed.

(** ** Enter in a window that cannot draw *)

Section RenderingFacts.
Context `{U : Unicode}.

(** With the attributes of the constructor, the methods are those of the
    properties above. *)
Lemma load_pdf_rendering_true st i :
  _load_pdf_rendering true st i = Returned (_load_pdf st i).
Proof. unfold _load_pdf_rendering, _load_pdf. by destruct (pdf_paths st). Qed.

Lemma save_and_next_rendering_true st :
  save_and_next_rendering true st = Returned (save_and_next st).
Proof.
  unfold save_and_next_rendering, save_and_next.
  destruct (save_current st) as [ok st']. destruct (negb ok); [done|].
  destruct (idx st' <? _); [apply load_pdf_rendering_true|done].
Qed.

Lemma on_enter_rendering_true st :
  _on_enter_rendering true st = Returned (_on_enter st).
Proof.
  unfold _on_enter_rendering, _on_enter.
  destruct (focus_in_comment st); [done|].
  destruct (_quick_stage st =? 1); [done|].
  destruct (_quick_stage st =? 2); [done|].
  by rewrite save_and_next_rendering_true.
Qed.

Lemma populate_keeps st sid :
  _quick_stage (_populate_existing st sid) = _quick_stage st /\
  _quick_buffer (_populate_existing st sid) = _quick_buffer st /\
  idx (_populate_existing st sid) = idx st.
Proof.
  unfold _populate_existing. case_bool_decide; [done|].
  by destruct (last_match _ _).
Qed.

(** C5: in a window that found no PDF when it was built, Enter in stage 3
    saves the record and writes the file, goes to the next submission, and
    is then left by the exception of [_render_page]: the stage is still 3,
    where the specification has the machine back in stage 1. *)
Theorem on_enter_stage3_raises (st : App) :
  focus_in_comment st = false ->
  _quick_stage st <> 1 -> _quick_stage st <> 2 ->
  (save_current st).1 = true ->
  0 <= idx st < Z.of_nat (length (pdf_paths st)) - 1 ->
  exists st',
    _on_enter_rendering false st = Raised st' /\
    _quick_stage st' = _quick_stage st /\
    _quick_buffer st' = _quick_buffer st /\
    df st' = df (save_current st).2 /\
    csv_writes st' = csv_writes (save_current st).2 /\
    idx st' = idx st + 1.
Proof.
  intros Hf H1 H2 Hok Hidx.
  destruct (same_file_save_current st) as (Hp & Hi & _).
  destruct (same_quick_save_current st) as (Hs & Hb).
  unfold _on_enter_rendering, save_and_next_rendering. rewrite Hf.
  destruct (Z.eqb_spec (_quick_stage st) 1) as [|_]; [done|].
  destruct (Z.eqb_spec (_quick_stage st) 2) as [|_]; [done|].
  destruct (save_current st) as [ok st1].
  cbn [fst snd] in *. subst ok. cbn [negb].
  rewrite Hp, Hi.
  destruct (Z.ltb_spec (idx st) (Z.of_nat (length (pdf_paths st)) - 1)); [|lia].
  unfold _load_pdf_rendering. rewrite Hp. revert Hidx.
  destruct (pdf_paths st) as [|p ps]; intros Hidx; [simpl in Hidx; lia|].
  cbv zeta. eexists. split; [reflexivity|].
  destruct (populate_keeps
              (with_file st1
                 (Z.max 0 (Z.min (idx st + 1) (Z.of_nat (length (p :: ps)) - 1)))
                 (parse_filename_meta
                    ((p :: ps) !!! Z.to_nat
                       (Z.max 0 (Z.min (idx st + 1) (Z.of_nat (length (p :: ps)) - 1))))
                    !!! "class_time")
                 (parse_filename_meta
                    ((p :: ps) !!! Z.to_nat
                       (Z.max 0 (Z.min (idx st + 1) (Z.of_nat (length (p :: ps)) - 1))))
                    !!! "name")
                 (parse_filename_meta
                    ((p :: ps) !!! Z.to_nat
                       (Z.max 0 (Z.min (idx st + 1) (Z.of_nat (length (p :: ps)) - 1))))
                    !!! "student_id")
                 (basename
                    ((p :: ps) !!! Z.to_nat
                       (Z.max 0 (Z.min (idx st + 1) (Z.of_nat (length (p :: ps)) - 1))))))
              (parse_filename_meta
                 ((p :: ps) !!! Z.to_nat
                    (Z.max 0 (Z.min (idx st + 1) (Z.of_nat (length (p :: ps)) - 1))))
                 !!! "student_id"))
    as (Ks & Kb & Ki).
  rewrite Ks, Kb, Ki, populate_df, populate_csv.
  cbn [_quick_stage _quick_buffer idx df csv_writes with_file].
  split_and!; [done|done|done|done|lia].
Qed.

End RenderingFacts.

Lemma on_enter_stage3_raises_witness :
  exists st',
    _on_enter_rendering false ready_to_save = Raised st' /\
    _quick_stage st' = 3 /\
    idx st' = 1.
Proof.
  destruct (on_enter_stage3_raises ready_to_save) as (st' & H & Hs & _ & _ & _ & Hi).
  - reflexivity.
  - discriminate.
  - discriminate.
  - by vm_compute.
  - by vm_compute.
  - exists st'. split; [exact H|]. split; [exact Hs|exact Hi].
Defined.

(** ** The export of a grade file read back *)

(** C8: in the export of the grade file read back, the q2 cell of a
    student without q2 has no value and no fill, where the specification
    has it filled as missing. *)
Theorem export_blank_score_unmarked :
  (export_gradebook blank_reloaded_table).2 = Some [blank_reloaded_sheet] /\
  body blank_reloaded_sheet = [blank_reloaded_row] /\
  row_value blank_reloaded_row 4 = None /\
  cell_text (row_value blank_reloaded_row 4) = py "nan" /\
  fill <$> blank_reloaded_row !! 4%nat = Some no_fill.
Proof. split; [by vm_compute|]. by repeat split. Qed.
